(** * Simple Bank System: a shallow embedding of [classes.py] and [main.py]

    The development follows the two source files.

    - Python [float] values (balances, amounts, credit limits) are IEEE 754
      binary64 numbers: [spec_float] with precision 53 and maximal exponent
      1024, so [+=], [-=] and [>=] round and compare as in the interpreter.
    - Python [int] values (ages, withdrawal counters) are [Z].
    - Python [str] values are [string]; a character stands for the code
      point below 256 with the same number.
    - A Python [dict] is an association list in insertion order without
      repeated keys ([Dict]): the order is observable, [create_account]
      scans the customers in it and [save_data] writes the files in it.
    - The objects stored in [BankSystem.accounts] are mutated in place; the
      dictionary is the object store and an account id is the reference of
      the object stored under it, so that a transfer whose recipient is the
      paying account itself mutates one object twice, as in the source.
    - Builtins whose code is not part of the repository ([hashlib.sha256],
      the conversions between numbers and text) are the fields of the class
      [PyBuiltins]. *)

From Stdlib Require Import ZArith String Ascii List Bool Lia SpecFloat.
From Stdlib Require Import DecimalString DecimalZ.
Import ListNotations.

#[local] Open Scope string_scope.
#[local] Open Scope Z_scope.

(** ** Floats *)

Definition float : Type := spec_float.

(** [x + y] on floats. *)
Definition float_add : float -> float -> float := SFadd 53 1024.

(** [x - y] on floats. *)
Definition float_sub : float -> float -> float := SFsub 53 1024.

(** [x >= y] on floats; false as soon as one side is NaN. *)
Definition float_ge (x y : float) : bool := SFleb y x.

(** [x < y] on floats. *)
Definition float_lt (x y : float) : bool := SFltb x y.

(** The float an [int] converts to when it meets a float in arithmetic or in a
    comparison (exact for the small literals of the source). *)
Definition float_of_int (n : Z) : float := binary_normalize 53 1024 n 0 false.

(** Structural equality of floats (one NaN, two zeros). *)
Definition float_eqb (x y : float) : bool :=
  match x, y with
  | S754_zero s, S754_zero s' => Bool.eqb s s'
  | S754_infinity s, S754_infinity s' => Bool.eqb s s'
  | S754_nan, S754_nan => true
  | S754_finite s m e, S754_finite s' m' e' =>
      Bool.eqb s s' && Pos.eqb m m' && Z.eqb e e'
  | _, _ => false
  end.

(** ** Strings *)

Module PyStr.

Definition LF : ascii := "010"%char.
Definition CR : ascii := "013"%char.
Definition comma : ascii := ","%char.

(** The string ["\n"]. *)
Definition nl : string := String LF EmptyString.

(** [c.isspace()] for a code point below 256. *)
Definition is_space (c : ascii) : bool :=
  let n := nat_of_ascii c in
  ((9 <=? n) && (n <=? 13) || (28 <=? n) && (n <=? 32)
   || (n =? 133) || (n =? 160))%nat.

(** [s.lstrip()]. *)
Fixpoint lstrip (s : string) : string :=
  match s with
  | EmptyString => EmptyString
  | String c s' => if is_space c then lstrip s' else s
  end.

(** [s.rstrip()]. *)
Fixpoint rstrip (s : string) : string :=
  match s with
  | EmptyString => EmptyString
  | String c s' =>
      match rstrip s' with
      | EmptyString => if is_space c then EmptyString else String c EmptyString
      | r => String c r
      end
  end.

(** [s.strip()]. *)
Definition strip (s : string) : string := rstrip (lstrip s).

(** [s.split(sep)] for a one-character separator: never the empty list. *)
Fixpoint split (sep : ascii) (s : string) : list string :=
  match s with
  | EmptyString => [EmptyString]
  | String c s' =>
      if Ascii.eqb c sep then EmptyString :: split sep s'
      else match split sep s' with
           | [] => [String c EmptyString]
           | f :: fs => String c f :: fs
           end
  end.

(** What reading a text file does to line ends (universal newlines): ["\r\n"]
    and a lone ["\r"] are read as ["\n"]. *)
Fixpoint universal_newlines (s : string) : string :=
  match s with
  | EmptyString => EmptyString
  | String c s' =>
      if Ascii.eqb c CR then
        match s' with
        | String c' s'' =>
            if Ascii.eqb c' LF then String LF (universal_newlines s'')
            else String LF (universal_newlines s')
        | EmptyString => String LF EmptyString
        end
      else String c (universal_newlines s')
  end.

(** The lines of a text, each with its ["\n"]; a last line without one is kept
    when it is not empty. *)
Fixpoint lines (s : string) : list string :=
  match s with
  | EmptyString => []
  | String c s' =>
      if Ascii.eqb c LF then String c EmptyString :: lines s'
      else match lines s' with
           | [] => [String c EmptyString]
           | l :: ls => String c l :: ls
           end
  end.

(** [for line in file]: the lines of the text of a file opened for reading. *)
Definition file_lines (content : string) : list string :=
  lines (universal_newlines content).

(** All characters of [s] satisfy [p]. *)
Fixpoint all_chars (p : ascii -> bool) (s : string) : bool :=
  match s with
  | EmptyString => true
  | String c s' => p c && all_chars p s'
  end.

(** A character that neither separates fields nor ends a line. *)
Definition plain_char (c : ascii) : bool :=
  negb (Ascii.eqb c comma) && negb (Ascii.eqb c LF) && negb (Ascii.eqb c CR).

(** A text that can be written as one field of a line. *)
Definition field_ok (s : string) : bool := all_chars plain_char s.

(** [s] does not start with white space. *)
Definition no_lead_space (s : string) : bool :=
  match s with
  | EmptyString => true
  | String c _ => negb (is_space c)
  end.

(** [s] does not end with white space. *)
Fixpoint no_trail_space (s : string) : bool :=
  match s with
  | EmptyString => true
  | String c EmptyString => negb (is_space c)
  | String _ s' => no_trail_space s'
  end.

(** The concatenation of a list of texts. *)
Fixpoint cat (ls : list string) : string :=
  match ls with
  | [] => EmptyString
  | l :: ls' => l ++ cat ls'
  end.

(** A character that does not end a line. *)
Definition line_char (c : ascii) : bool :=
  negb (Ascii.eqb c LF) && negb (Ascii.eqb c CR).

(** A text that is one line with its ["\n"]. *)
Fixpoint is_line (s : string) : bool :=
  match s with
  | EmptyString => false
  | String c EmptyString => Ascii.eqb c LF
  | String c s' => line_char c && is_line s'
  end.

(** The line written for a list of fields: the f-strings of [save_data]. *)
Definition fields_line (fs : list string) : string :=
  String.concat "," fs ++ nl.

End PyStr.

(** ** Dictionaries *)

Module Dict.

Definition t (V : Type) : Type := list (string * V).

Section Ops.
Context {V : Type}.

(** [d.get(k)]; [d[k]] raises [KeyError] where this is [None]. *)
Fixpoint get (k : string) (d : t V) : option V :=
  match d with
  | [] => None
  | (k', v) :: d' => if String.eqb k' k then Some v else get k d'
  end.

(** [k in d]. *)
Definition mem (k : string) (d : t V) : bool :=
  match get k d with Some _ => true | None => false end.

(** [d[k] = v]: the value of an old key is replaced where it stands, a new
    key goes to the end. *)
Fixpoint set (k : string) (v : V) (d : t V) : t V :=
  match d with
  | [] => [(k, v)]
  | (k', v') :: d' =>
      if String.eqb k' k then (k, v) :: d' else (k', v') :: set k v d'
  end.

(** [del d[k]]. *)
Fixpoint del (k : string) (d : t V) : t V :=
  match d with
  | [] => []
  | (k', v') :: d' =>
      if String.eqb k' k then del k d' else (k', v') :: del k d'
  end.

(** [d.get(k, default)]. *)
Definition get_default (k : string) (default : V) (d : t V) : V :=
  match get k d with Some v => v | None => default end.

(** An attribute assignment on the object stored under [k]. *)
Definition update (k : string) (f : V -> V) (d : t V) : t V :=
  match get k d with Some v => set k (f v) d | None => d end.

Definition keys (d : t V) : list string := map fst d.
Definition values (d : t V) : list V := map snd d.

(** No key occurs twice. *)
Fixpoint nodup_keys (d : t V) : bool :=
  match d with
  | [] => true
  | (k, _) :: d' => negb (mem k d') && nodup_keys d'
  end.

End Ops.

End Dict.

(** ** classes.py *)

Module Customer.

(** [class Customer]. *)
Record t : Type := mk {
  customer_id : string;
  name : string;
  age : Z;
  login : string;
  password : string
}.

End Customer.

Module Account.

(** The two classes that are instantiated: [SavingsAccount] and
    [CheckingAccount], each with the three attributes of [Account] and its
    own fourth one. *)
Inductive t : Type :=
| SavingsAccount (account_id customer_id : string) (balance : float)
    (monthly_withdrawals : Z)
| CheckingAccount (account_id customer_id : string) (balance : float)
    (credit_limit : float).

Definition account_id (self : t) : string :=
  match self with
  | SavingsAccount i _ _ _ | CheckingAccount i _ _ _ => i
  end.

Definition customer_id (self : t) : string :=
  match self with
  | SavingsAccount _ c _ _ | CheckingAccount _ c _ _ => c
  end.

Definition balance (self : t) : float :=
  match self with
  | SavingsAccount _ _ b _ | CheckingAccount _ _ b _ => b
  end.

Definition monthly_withdrawals (self : t) : option Z :=
  match self with
  | SavingsAccount _ _ _ m => Some m
  | CheckingAccount _ _ _ _ => None
  end.

Definition credit_limit (self : t) : option float :=
  match self with
  | SavingsAccount _ _ _ _ => None
  | CheckingAccount _ _ _ l => Some l
  end.

(** [isinstance(self, SavingsAccount)]. *)
Definition is_savings (self : t) : bool :=
  match self with
  | SavingsAccount _ _ _ _ => true
  | CheckingAccount _ _ _ _ => false
  end.

(** [self.balance = b]. *)
Definition set_balance (b : float) (self : t) : t :=
  match self with
  | SavingsAccount i c _ m => SavingsAccount i c b m
  | CheckingAccount i c _ l => CheckingAccount i c b l
  end.

(** [self.monthly_withdrawals -= 1], an attribute of savings accounts only. *)
Definition decrement_monthly_withdrawals (self : t) : t :=
  match self with
  | SavingsAccount i c b m => SavingsAccount i c b (m - 1)
  | CheckingAccount _ _ _ _ => self
  end.

(** [Account.deposit], inherited by both classes: the object after the call
    and the value returned. *)
Definition deposit (self : t) (amount : float) : t * bool :=
  (set_balance (float_add (balance self) amount) self, true).

(** The test that opens [withdrawal] and [transfer]:
    [self.monthly_withdrawals > 0] in [SavingsAccount],
    [self.balance + self.credit_limit >= amount] in [CheckingAccount]. *)
Definition guard (self : t) (amount : float) : bool :=
  match self with
  | SavingsAccount _ _ _ m => m >? 0
  | CheckingAccount _ _ b l => float_ge (float_add b l) amount
  end.

(** [SavingsAccount.withdrawal] and [CheckingAccount.withdrawal]. *)
Definition withdrawal (self : t) (amount : float) : t * bool :=
  match self with
  | SavingsAccount i c b m =>
      if m >? 0 then (SavingsAccount i c (float_sub b amount) (m - 1), true)
      else (self, false)
  | CheckingAccount i c b l =>
      if float_ge (float_add b l) amount
      then (CheckingAccount i c (float_sub b amount) l, true)
      else (self, false)
  end.

(** Two states of one account: the id, the owner, the class and the credit
    limit are the same. *)
Definition same_identity (a a' : t) : Prop :=
  account_id a' = account_id a /\ customer_id a' = customer_id a
  /\ is_savings a' = is_savings a /\ credit_limit a' = credit_limit a.

(** Two states of the object store: the same ids in the same order, and
    under each id two states of one account. *)
Definition same_accounts (h h' : Dict.t t) : Prop :=
  Forall2 (fun item item' =>
             fst item' = fst item /\ same_identity (snd item) (snd item'))
    h h'.

(** [withdrawal] called once for each amount of a list, one call after the
    other on the same object: the object after the calls and what they
    return. *)
Fixpoint withdrawals (self : t) (amounts : list float) : t * list bool :=
  match amounts with
  | [] => (self, [])
  | amount :: rest =>
      let (self', ok) := withdrawal self amount in
      let (self'', oks) := withdrawals self' rest in
      (self'', ok :: oks)
  end.

(** The object store: the accounts of the bank under their ids. *)
Definition heap : Type := Dict.t t.

(** [recipient_account.deposit(amount)] on the stored object. *)
Definition deposit_at (recipient : string) (amount : float) (h : heap) : heap :=
  Dict.update recipient (fun o => fst (deposit o amount)) h.

(** [self.balance -= amount] on the stored object. *)
Definition debit_at (self : string) (amount : float) (h : heap) : heap :=
  Dict.update self (fun o => set_balance (float_sub (balance o) amount) o) h.

(** [SavingsAccount.transfer] and [CheckingAccount.transfer], called on the
    object stored under [self] with the object stored under [recipient]; the
    three assignments are made one after the other on the store, so the
    second reads what the first wrote when both names denote one object.
    [None] when nothing is stored under [self]. *)
Definition transfer (self : string) (amount : float) (recipient : string)
    (h : heap) : option (heap * bool) :=
  match Dict.get self h with
  | None => None
  | Some (SavingsAccount _ _ _ m) =>
      if m >? 0 then
        let h1 := debit_at self amount h in
        let h2 := deposit_at recipient amount h1 in
        let h3 := Dict.update self decrement_monthly_withdrawals h2 in
        Some (h3, true)
      else Some (h, false)
  | Some (CheckingAccount _ _ b l) =>
      if float_ge (float_add b l) amount then
        let h1 := debit_at self amount h in
        let h2 := deposit_at recipient amount h1 in
        Some (h2, true)
      else Some (h, false)
  end.

(** The four lines [show_balance] prints. *)
Definition show_balance (str_float : float -> string) (self : t) : list string :=
  [ "Account ID: " ++ account_id self;
    "Customer ID: " ++ customer_id self;
    "Current Balance: " ++ str_float (balance self);
    if float_lt (balance self) (float_of_int 0)
    then "Account Status: Overdrawn" else "Account Status: Active" ].

End Account.

(** ** main.py *)

(** The builtins the bank calls and the repository does not define. *)
Class PyBuiltins : Type := {
  (** [hashlib.sha256(s.encode()).hexdigest()] *)
  sha256_hexdigest : string -> string;
  (** [f"{n}"] and [str(n)] for an [int] *)
  str_int : Z -> string;
  (** [int(s)]; [None] where it raises [ValueError] *)
  int_of_str : string -> option Z;
  (** [f"{x}"] for a [float] *)
  str_float : float -> string;
  (** [float(s)]; [None] where it raises [ValueError] *)
  float_of_str : string -> option float
}.

(** A call that returns, or the exception that leaves it. *)
Inductive result (A : Type) : Type :=
| Ok (a : A)
| Error (exception : string).
Arguments Ok {A} a.
Arguments Error {A} exception.

Definition bind {A B : Type} (r : result A) (k : A -> result B) : result B :=
  match r with
  | Ok a => k a
  | Error e => Error e
  end.

Notation "'let*' x ':=' r 'in' k" := (bind r (fun x => k))
  (at level 10, x name, r at level 100, k at level 200).

(** What a method shows for its outcome: the text of its last [pretty_print]
    (the lines of its [print]s for a listing), or the exception it raises. *)
Inductive outcome : Type :=
| Printed (text : list string)
| Raised (exception : string).

(** An entry of a list of [BankSystem.transactions]: a 4-tuple, or the 5-tuple
    of a transfer. *)
Inductive Transaction : Type :=
| Record4 (transaction_id : string) (amount : float)
    (transaction_type transaction_status : string)
| Record5 (transaction_id recipient_account_id : string) (amount : float)
    (transaction_type transaction_status : string).

Definition transaction_type_of (r : Transaction) : string :=
  match r with Record4 _ _ ty _ | Record5 _ _ _ ty _ => ty end.

Definition transaction_status_of (r : Transaction) : string :=
  match r with Record4 _ _ _ st | Record5 _ _ _ _ st => st end.

(** [class BankSystem]. *)
Record BankSystem : Type := mkBank {
  customers : Dict.t Customer.t;
  accounts : Dict.t Account.t;
  transactions : Dict.t (list Transaction);
  current_user : option string;
  admin_password : string
}.

(** [BankSystem()]. *)
Definition BankSystem_init : BankSystem := mkBank [] [] [] None "admin".

Definition set_customers (c : Dict.t Customer.t) (s : BankSystem) : BankSystem :=
  mkBank c (accounts s) (transactions s) (current_user s) (admin_password s).

Definition set_accounts (a : Dict.t Account.t) (s : BankSystem) : BankSystem :=
  mkBank (customers s) a (transactions s) (current_user s) (admin_password s).

Definition set_transactions (t : Dict.t (list Transaction)) (s : BankSystem)
    : BankSystem :=
  mkBank (customers s) (accounts s) t (current_user s) (admin_password s).

Definition set_current_user (u : option string) (s : BankSystem) : BankSystem :=
  mkBank (customers s) (accounts s) (transactions s) u (admin_password s).

(** The three files under [data/]; [None] for a file that does not exist. *)
Record Files : Type := mkFiles {
  customers_txt : option string;
  accounts_txt : option string;
  accountsTransactions_txt : option string
}.

(** [open(path, "r")]. *)
Definition open_r (file : option string) : result string :=
  match file with
  | Some content => Ok content
  | None => Error "FileNotFoundError"
  end.

(** [open(path, "a")] followed by one [write]. *)
Definition append_to (file : option string) (text : string) : option string :=
  match file with
  | Some content => Some (content ++ text)
  | None => Some text
  end.

Section Bank.
Context {B : PyBuiltins}.

(** [BankSystem.login]. *)
Definition login (s : BankSystem) (login password : string)
    : BankSystem * outcome :=
  match Dict.get login (customers s) with
  | Some customer =>
      if String.eqb (Customer.password customer) (sha256_hexdigest password)
      then (set_current_user (Some login) s, Printed ["Login successful."])
      else (s, Printed ["Incorrect password."])
  | None => (s, Printed ["Login not found."])
  end.

(** [BankSystem.admin_login]. *)
Definition admin_login (s : BankSystem) (password : string)
    : BankSystem * outcome :=
  if String.eqb password (admin_password s)
  then (set_current_user (Some "admin") s, Printed ["Admin login successful."])
  else (s, Printed ["Incorrect admin password."]).

(** [BankSystem.logout]. *)
Definition logout (s : BankSystem) : BankSystem * outcome :=
  (set_current_user None s, Printed ["Logged out successfully."]).

(** *** load_data *)

(** A loop [for line in file] whose body may raise. *)
Fixpoint for_lines {A : Type} (body : string -> A -> result A)
    (ls : list string) (a : A) : result A :=
  match ls with
  | [] => Ok a
  | l :: ls' => let* a' := body l a in for_lines body ls' a'
  end.

(** [float(s)]. *)
Definition to_float (s : string) : result float :=
  match float_of_str s with
  | Some x => Ok x
  | None => Error "ValueError"
  end.

(** [int(s)]. *)
Definition to_int (s : string) : result Z :=
  match int_of_str s with
  | Some n => Ok n
  | None => Error "ValueError"
  end.

(** The body of the loop over [data/customers.txt]: unpacking anything but
    five fields raises [ValueError]. *)
Definition load_customer (line : string) (customers : Dict.t Customer.t)
    : result (Dict.t Customer.t) :=
  match PyStr.split PyStr.comma (PyStr.strip line) with
  | [customer_id; name; age; login; password] =>
      let* age := to_int age in
      Ok (Dict.set login (Customer.mk customer_id name age login password)
            customers)
  | _ => Error "ValueError"
  end.

(** The body of the loop over [data/accounts.txt]: [len(account_line)]
    selects the class, [account_type] is bound and not read; a checking account
    gets the default [credit_limit=0]. *)
Definition load_account (line : string) (accounts : Dict.t Account.t)
    : result (Dict.t Account.t) :=
  match PyStr.split PyStr.comma (PyStr.strip line) with
  | [account_id; customer_id; account_type; balance] =>
      let* balance := to_float balance in
      Ok (Dict.set account_id
            (Account.CheckingAccount account_id customer_id balance
               (float_of_int 0))
            accounts)
  | [account_id; customer_id; account_type; balance; monthly_withdrawals] =>
      let* balance := to_float balance in
      let* monthly_withdrawals := to_int monthly_withdrawals in
      Ok (Dict.set account_id
            (Account.SavingsAccount account_id customer_id balance
               monthly_withdrawals)
            accounts)
  | _ => Ok accounts
  end.

(** [self.transactions.setdefault(account_id, []).append(r)]. *)
Definition setdefault_append (account_id : string) (r : Transaction)
    (t : Dict.t (list Transaction)) : Dict.t (list Transaction) :=
  Dict.set account_id (Dict.get_default account_id [] t ++ [r])%list t.

(** The body of the loop over [data/accountsTransactions.txt]. *)
Definition load_transaction (line : string) (t : Dict.t (list Transaction))
    : result (Dict.t (list Transaction)) :=
  match PyStr.split PyStr.comma (PyStr.strip line) with
  | [account_id; transaction_id; amount; transaction_type;
     transaction_status] =>
      let* amount := to_float amount in
      Ok (setdefault_append account_id
            (Record4 transaction_id amount transaction_type transaction_status)
            t)
  | [account_id; transaction_id; recipient_account_id; amount;
     transaction_type; transaction_status] =>
      let* amount := to_float amount in
      Ok (setdefault_append account_id
            (Record5 transaction_id recipient_account_id amount
               transaction_type transaction_status)
            t)
  | _ => Ok t
  end.

(** [BankSystem.load_data]: an exception ends the program, so the partly
    loaded dictionaries are not returned with it. *)
Definition load_data (fs : Files) (s : BankSystem) : result BankSystem :=
  let* text := open_r (customers_txt fs) in
  let* c := for_lines load_customer (PyStr.file_lines text) (customers s) in
  let* text := open_r (accounts_txt fs) in
  let* a := for_lines load_account (PyStr.file_lines text) (accounts s) in
  let* text := open_r (accountsTransactions_txt fs) in
  let* t := for_lines load_transaction (PyStr.file_lines text)
              (transactions s) in
  Ok (mkBank c a t (current_user s) (admin_password s)).

(** *** save_data *)

Definition customer_line (customer : Customer.t) : string :=
  Customer.customer_id customer ++ "," ++ Customer.name customer ++ ","
  ++ str_int (Customer.age customer) ++ "," ++ Customer.login customer ++ ","
  ++ Customer.password customer ++ PyStr.nl.

Definition account_line (account : Account.t) : string :=
  match account with
  | Account.SavingsAccount account_id customer_id balance
      monthly_withdrawals =>
      account_id ++ "," ++ customer_id ++ ",Savings," ++ str_float balance
      ++ "," ++ str_int monthly_withdrawals ++ PyStr.nl
  | Account.CheckingAccount account_id customer_id balance _ =>
      account_id ++ "," ++ customer_id ++ ",Checking," ++ str_float balance
      ++ PyStr.nl
  end.

Definition transaction_line (account_id : string) (transaction : Transaction)
    : string :=
  match transaction with
  | Record4 transaction_id amount transaction_type transaction_status =>
      account_id ++ "," ++ transaction_id ++ "," ++ str_float amount ++ ","
      ++ transaction_type ++ "," ++ transaction_status ++ PyStr.nl
  | Record5 transaction_id recipient_account_id amount transaction_type
      transaction_status =>
      account_id ++ "," ++ transaction_id ++ "," ++ recipient_account_id
      ++ "," ++ str_float amount ++ "," ++ transaction_type ++ ","
      ++ transaction_status ++ PyStr.nl
  end.

(** The lines written for one item of [self.transactions]. *)
Definition transactions_lines (item : string * list Transaction) : string :=
  PyStr.cat (map (transaction_line (fst item)) (snd item)).

(** [BankSystem.save_data]: the three files are opened with ["w"] and
    written anew. *)
Definition save_data (s : BankSystem) : Files :=
  mkFiles
    (Some (PyStr.cat (map customer_line (Dict.values (customers s)))))
    (Some (PyStr.cat (map account_line (Dict.values (accounts s)))))
    (Some (PyStr.cat (map transactions_lines (transactions s)))).

(** *** Customers and accounts *)

(** [BankSystem.create_customer]: the new line is appended to
    [data/customers.txt]. *)
Definition create_customer (s : BankSystem) (fs : Files) (name : string)
    (age : Z) (login password : string) : BankSystem * Files * outcome :=
  let customer_id := str_int (Z.of_nat (length (customers s)) + 1) in
  let hashed_password := sha256_hexdigest password in
  let s' :=
    set_customers
      (Dict.set login (Customer.mk customer_id name age login hashed_password)
         (customers s)) s in
  let line :=
    customer_id ++ "," ++ name ++ "," ++ str_int age ++ "," ++ login ++ ","
    ++ hashed_password ++ PyStr.nl in
  (s',
   mkFiles (append_to (customers_txt fs) line) (accounts_txt fs)
     (accountsTransactions_txt fs),
   Printed ["Customer created successfully."]).

(** The loop of [create_account] over [self.customers]: [found_customer] is
    assigned at every customer with the id, the last one stays. *)
Definition find_customer (customer_id : string) (customers : Dict.t Customer.t)
    : option Customer.t :=
  fold_left
    (fun found item =>
       if String.eqb customer_id (Customer.customer_id (snd item))
       then Some (snd item) else found)
    customers None.

(** [BankSystem.create_account]; the third component is the value returned,
    [None] for Python's [None]. *)
Definition create_account (s : BankSystem) (customer_id account_type : string)
    : BankSystem * outcome * option Account.t :=
  match find_customer customer_id (customers s) with
  | None => (s, Printed ["Customer ID not found."], None)
  | Some found_customer =>
      let account_id := str_int (Z.of_nat (length (accounts s)) + 1) in
      if String.eqb account_type "Savings"
           && (Customer.age found_customer <? 14)
         || String.eqb account_type "Checking"
              && (Customer.age found_customer <? 18)
      then
        (s,
         Printed ["You do not meet the age requirement for this account type."],
         None)
      else
        let created new_account :=
          (set_accounts (Dict.set account_id new_account (accounts s)) s,
           Printed [account_type ++ " account created successfully."],
           Some new_account) in
        if String.eqb account_type "Savings" then
          created
            (Account.SavingsAccount account_id customer_id (float_of_int 0) 1)
        else if String.eqb account_type "Checking" then
          created
            (Account.CheckingAccount account_id customer_id (float_of_int 0)
               (float_of_int 0))
        else (s, Printed ["Invalid account type."], None)
  end.

(** The test [self.current_user != "admin" and account.customer_id !=
    self.customers[self.current_user].customer_id]; [None] where the lookup of
    the user raises [KeyError]. *)
Definition not_authorized (s : BankSystem) (user : string)
    (account : Account.t) : option bool :=
  if String.eqb user "admin" then Some false
  else
    match Dict.get user (customers s) with
    | None => None
    | Some customer =>
        Some (negb (String.eqb (Account.customer_id account)
                      (Customer.customer_id customer)))
    end.

Definition rule : string := "-----------------------------------".

(** The line [view_transactions] prints for one transaction. *)
Definition history_line (transaction : Transaction) : string :=
  match transaction with
  | Record4 transaction_id amount transaction_type status =>
      "Transaction ID: " ++ transaction_id ++ ", Amount: " ++ str_float amount
      ++ ", Type: " ++ transaction_type ++ ", Status: " ++ status
  | Record5 transaction_id recipient_account_id amount transaction_type
      status =>
      "Transaction ID: " ++ transaction_id ++ ", Recipient ID: "
      ++ recipient_account_id ++ ", Amount: " ++ str_float amount
      ++ ", Type: " ++ transaction_type ++ ", Status: " ++ status
  end.

(** [BankSystem.view_transactions]. *)
Definition view_transactions (s : BankSystem) (account_id : string)
    : BankSystem * outcome :=
  match current_user s with
  | None => (s, Printed ["Please login to perform operations."])
  | Some user =>
      match Dict.get account_id (accounts s) with
      | None => (s, Printed ["Account ID not found."])
      | Some account =>
          match not_authorized s user account with
          | None => (s, Raised "KeyError")
          | Some true =>
              (s,
               Printed
                 ["You are not authorized to perform operations on this account."])
          | Some false =>
              match Dict.get account_id (transactions s) with
              | None => (s, Printed ["No transactions found for this account."])
              | Some history =>
                  let top := PyStr.nl ++ rule in
                  let title :=
                    "Transaction history for Account ID: " ++ account_id in
                  (s,
                   Printed
                     (top :: title :: (map history_line history ++ [rule])%list))
              end
          end
      end
  end.

(** *** perform_operations *)

(** What both [isinstance] branches of [perform_operations] do once the
    account is resolved; they differ in the menu they print only.  [choice]
    and [recipient_account_id] are what [input] returns, [amount] is
    [float(input(...))], [None] where the conversion raises. *)
Definition operations (s : BankSystem)
    (account_id transaction_id : string) (account : Account.t)
    (choice recipient_account_id : string) (amount : option float)
    : BankSystem * outcome :=
  if String.eqb choice "1" then
    match amount with
    | None => (s, Raised "ValueError")
    | Some amount =>
        let (account', ok) := Account.deposit account amount in
        let s' := set_accounts (Dict.set account_id account' (accounts s)) s in
        if ok then
          (set_transactions
             (setdefault_append account_id
                (Record4 transaction_id amount "deposit" "COMPLETE")
                (transactions s')) s',
           Printed ["Deposit successful."])
        else
          (set_transactions
             (setdefault_append account_id
                (Record4 transaction_id amount "deposit" "ABORTED")
                (transactions s')) s',
           Printed ["Operation aborted."])
    end
  else if String.eqb choice "2" then
    match amount with
    | None => (s, Raised "ValueError")
    | Some amount =>
        let (account', ok) := Account.withdrawal account amount in
        let s' := set_accounts (Dict.set account_id account' (accounts s)) s in
        if ok then
          (set_transactions
             (setdefault_append account_id
                (Record4 transaction_id amount "withdrawal" "COMPLETE")
                (transactions s')) s',
           Printed ["Withdrawal successful."])
        else
          (set_transactions
             (setdefault_append account_id
                (Record4 transaction_id amount "withdrawal" "ABORTED")
                (transactions s')) s',
           Printed ["Operation aborted."])
    end
  else if String.eqb choice "3" then
    if negb (Dict.mem recipient_account_id (accounts s)) then
      (s, Printed ["Recipient account ID not found."])
    else
      match amount with
      | None => (s, Raised "ValueError")
      | Some amount =>
          match
            Account.transfer account_id amount recipient_account_id
              (accounts s)
          with
          | None => (s, Raised "KeyError")
          | Some (accounts', ok) =>
              let s' := set_accounts accounts' s in
              if ok then
                (set_transactions
                   (setdefault_append account_id
                      (Record5 transaction_id recipient_account_id amount
                         "transfer" "COMPLETE")
                      (transactions s')) s',
                 Printed ["Transfer successful."])
              else
                (set_transactions
                   (setdefault_append account_id
                      (Record5 transaction_id recipient_account_id amount
                         "transfer" "ABORTED")
                      (transactions s')) s',
                 Printed ["Operation aborted."])
          end
      end
  else (s, Printed ["Invalid choice."]).

(** [BankSystem.perform_operations]. *)
Definition perform_operations (s : BankSystem) (account_id : string)
    (choice recipient_account_id : string) (amount : option float)
    : BankSystem * outcome :=
  match current_user s with
  | None => (s, Printed ["Please login to perform operations."])
  | Some user =>
      match Dict.get account_id (accounts s) with
      | None => (s, Printed ["Account ID not found."])
      | Some account =>
          match not_authorized s user account with
          | None => (s, Raised "KeyError")
          | Some true =>
              (s,
               Printed
                 ["You are not authorized to perform operations on this account."])
          | Some false =>
              let transaction_id :=
                str_int
                  (Z.of_nat
                     (length (Dict.get_default account_id [] (transactions s)))
                   + 1) in
              match account with
              | Account.SavingsAccount _ _ _ _ =>
                  operations s account_id transaction_id account choice
                    recipient_account_id amount
              | Account.CheckingAccount _ _ _ _ =>
                  operations s account_id transaction_id account choice
                    recipient_account_id amount
              end
          end
      end
  end.

(** [BankSystem.check_balance]. *)
Definition check_balance (s : BankSystem) (account_id : string)
    : BankSystem * outcome :=
  match current_user s with
  | None => (s, Printed ["Please login to check balance."])
  | Some user =>
      match Dict.get account_id (accounts s) with
      | None => (s, Printed ["Account ID not found."])
      | Some account =>
          match not_authorized s user account with
          | None => (s, Raised "KeyError")
          | Some true =>
              (s,
               Printed
                 ["You are not authorized to check balance of this account."])
          | Some false => (s, Printed (Account.show_balance str_float account))
          end
      end
  end.

(** [BankSystem.delete_account]: the method does not read [current_user]. *)
Definition delete_account (s : BankSystem) (account_id : string)
    : BankSystem * outcome :=
  if negb (Dict.mem account_id (accounts s)) then
    (s, Printed ["Account ID not found."])
  else
    let s1 := set_accounts (Dict.del account_id (accounts s)) s in
    let s2 :=
      if Dict.mem account_id (transactions s1)
      then set_transactions (Dict.del account_id (transactions s1)) s1
      else s1 in
    (s2, Printed ["Account ID: " ++ account_id ++ " deleted successfully."]).

(** *** Runs *)

(** The calls the menus make on a running bank. *)
Inductive call : Type :=
| Login (login password : string)
| AdminLogin (password : string)
| Logout
| CreateCustomer (name : string) (age : Z) (login password : string)
| CreateAccount (customer_id account_type : string)
| ViewTransactions (account_id : string)
| PerformOperations (account_id choice recipient_account_id : string)
    (amount : option float)
| CheckBalance (account_id : string)
| DeleteAccount (account_id : string)
| SaveData.

(** One call on the bank and its files. *)
Definition step (w : BankSystem * Files) (c : call) : BankSystem * Files :=
  let (s, fs) := w in
  match c with
  | Login l p => (fst (login s l p), fs)
  | AdminLogin p => (fst (admin_login s p), fs)
  | Logout => (fst (logout s), fs)
  | CreateCustomer n a l p => fst (create_customer s fs n a l p)
  | CreateAccount c t => (fst (fst (create_account s c t)), fs)
  | ViewTransactions a => (fst (view_transactions s a), fs)
  | PerformOperations a c r x => (fst (perform_operations s a c r x), fs)
  | CheckBalance a => (fst (check_balance s a), fs)
  | DeleteAccount a => (fst (delete_account s a), fs)
  | SaveData => (s, save_data s)
  end.

(** A sequence of calls. *)
Definition run (w : BankSystem * Files) (cs : list call) : BankSystem * Files :=
  fold_left step cs w.

End Bank.

(** ** main.py: the menus *)

(** [c.lower()] for a code point below 256. *)
Definition lower_char (c : ascii) : ascii :=
  let n := nat_of_ascii c in
  if ((65 <=? n) && (n <=? 90)
      || (192 <=? n) && (n <=? 222) && negb (n =? 215))%nat
  then ascii_of_nat (n + 32) else c.

(** [s.lower()]. *)
Fixpoint lower (s : string) : string :=
  match s with
  | EmptyString => EmptyString
  | String c s' => String (lower_char c) (lower s')
  end.

(** How [menu] and [start] end: they return, or an exception leaves them.
    [OutOfFuel] is for the loops below when they are given too few turns. *)
Inductive ending : Type :=
| Returned
| Ended (exception : string)
| OutOfFuel.

Section Menus.
Context {B : PyBuiltins}.

(** The three tests of [perform_operations] are passed and it goes on to
    read the choice. *)
Definition operations_reached (s : BankSystem) (account_id : string) : bool :=
  match current_user s with
  | None => false
  | Some user =>
      match Dict.get account_id (accounts s) with
      | None => false
      | Some account =>
          match not_authorized s user account with
          | Some false => true
          | _ => false
          end
      end
  end.

(** [perform_operations] with the lines it reads from the standard input
    [stdin], in the order of its calls of [input]: the choice, then the amount,
    or the recipient and, when it is an account, the amount.  [input] raises
    [EOFError] when no line is left.  The result is the bank, the outcome and
    the lines that are left. *)
Definition perform_operations_input (s : BankSystem) (account_id : string)
    (stdin : list string) : BankSystem * outcome * list string :=
  if negb (operations_reached s account_id)
  then (perform_operations s account_id "" "" None, stdin)
  else
    match stdin with
    | [] => (s, Raised "EOFError", [])
    | choice :: rest =>
        if String.eqb choice "1" || String.eqb choice "2" then
          match rest with
          | [] => (s, Raised "EOFError", [])
          | amount :: rest' =>
              (perform_operations s account_id choice "" (float_of_str amount),
               rest')
          end
        else if String.eqb choice "3" then
          match rest with
          | [] => (s, Raised "EOFError", [])
          | recipient_account_id :: rest' =>
              if negb (Dict.mem recipient_account_id (accounts s)) then
                (perform_operations s account_id "3" recipient_account_id None,
                 rest')
              else
                match rest' with
                | [] => (s, Raised "EOFError", [])
                | amount :: rest'' =>
                    (perform_operations s account_id "3" recipient_account_id
                       (float_of_str amount),
                     rest'')
                end
          end
        else (perform_operations s account_id choice "" None, rest)
    end.

(** The listing of the accounts of the user, printed by the menu of a customer
    before it asks for an account id, raises [KeyError] when there is an
    account to compare and the user is not a key of [customers]. *)
Definition listing_raises (s : BankSystem) : bool :=
  match accounts s with
  | [] => false
  | _ :: _ =>
      match current_user s with
      | Some user => negb (Dict.mem user (customers s))
      | None => true
      end
  end.

(** One turn of the loop of [menu]: the bank and the files after it, the
    lines left, and [Some] ending when the loop is left. *)
Definition menu_turn (w : BankSystem * Files) (stdin : list string)
    : (BankSystem * Files) * list string * option ending :=
  let (s, fs) := w in
  let eof := (w, @nil string, Some (Ended "EOFError")) in
  let after (r : BankSystem * outcome) (rest : list string) :=
    match snd r with
    | Raised e => ((fst r, fs), rest, Some (Ended e))
    | Printed _ => ((fst r, fs), rest, None)
    end in
  match stdin with
  | [] => eof
  | choice :: rest =>
      if match current_user s with
         | Some user => String.eqb user "admin"
         | None => false
         end
      then
        if String.eqb choice "1" then
          match rest with
          | login :: password :: name :: age :: rest' =>
              match int_of_str age with
              | None => (w, rest', Some (Ended "ValueError"))
              | Some age =>
                  (fst (create_customer s fs name age login password), rest',
                   None)
              end
          | _ => eof
          end
        else if String.eqb choice "2" then
          match rest with
          | login :: account_type :: rest' =>
              match Dict.get login (customers s) with
              | None => (w, rest', Some (Ended "KeyError"))
              | Some customer =>
                  ((fst (fst (create_account s
                                (Customer.customer_id customer) account_type)),
                    fs),
                   rest', None)
              end
          | _ => eof
          end
        else if String.eqb choice "3" then
          match rest with
          | account_id :: rest' => after (view_transactions s account_id) rest'
          | [] => eof
          end
        else if String.eqb choice "4" then
          match rest with
          | account_id :: rest' =>
              let r := perform_operations_input s account_id rest' in
              after (fst r) (snd r)
          | [] => eof
          end
        else if String.eqb choice "5" then
          match rest with
          | account_id :: rest' => after (delete_account s account_id) rest'
          | [] => eof
          end
        else if String.eqb choice "6" then
          match rest with
          | account_id :: rest' =>
              if negb (Dict.mem account_id (accounts s)) then (w, rest', None)
              else after (check_balance s account_id) rest'
          | [] => eof
          end
        else if String.eqb choice "7" then
          ((fst (logout s), save_data s), rest, Some Returned)
        else (w, rest, None)
      else
        if String.eqb choice "1" then
          if listing_raises s then (w, rest, Some (Ended "KeyError"))
          else
            match rest with
            | account_id :: rest' =>
                after (view_transactions s account_id) rest'
            | [] => eof
            end
        else if String.eqb choice "2" then
          if listing_raises s then (w, rest, Some (Ended "KeyError"))
          else
            match rest with
            | account_id :: rest' =>
                let r := perform_operations_input s account_id rest' in
                after (fst r) (snd r)
            | [] => eof
            end
        else if String.eqb choice "3" then
          if listing_raises s then (w, rest, Some (Ended "KeyError"))
          else
            match rest with
            | account_id :: rest' =>
                if negb (Dict.mem account_id (accounts s))
                then (w, rest', None)
                else after (check_balance s account_id) rest'
            | [] => eof
            end
        else if String.eqb choice "4" then
          ((fst (logout s), save_data s), rest, Some Returned)
        else (w, rest, None)
  end.

(** The loop [while True] of [menu], for at most [fuel] turns. *)
Fixpoint menu_loop (fuel : nat) (w : BankSystem * Files) (stdin : list string)
    : (BankSystem * Files) * list string * ending :=
  match fuel with
  | O => (w, stdin, OutOfFuel)
  | S fuel' =>
      match menu_turn w stdin with
      | (w', rest, Some e) => (w', rest, e)
      | (w', rest, None) => menu_loop fuel' w' rest
      end
  end.

(** [BankSystem.menu] on the lines of the standard input: every turn reads a
    line, so that one turn more than there are lines is enough. *)
Definition menu (w : BankSystem * Files) (stdin : list string)
    : (BankSystem * Files) * list string * ending :=
  menu_loop (S (length stdin)) w stdin.

(** [if self.current_user:]: somebody is logged in under a login that is not
    the empty string. *)
Definition truthy_user (s : BankSystem) : bool :=
  match current_user s with
  | Some user => negb (String.eqb user "")
  | None => false
  end.

(** What one turn of the loop of [start] does before it looks at
    [self.current_user]: the bank, the lines left and whether the loop is
    left. *)
Definition start_choice (s : BankSystem) (stdin : list string)
    : BankSystem * list string * option ending :=
  let eof := (s, @nil string, Some (Ended "EOFError")) in
  match stdin with
  | [] => eof
  | choice :: rest =>
      if String.eqb choice "1" then
        match rest with
        | [] => eof
        | user_type :: rest' =>
            let user_type := lower user_type in
            if String.eqb user_type "customer" || String.eqb user_type "c"
            then
              match rest' with
              | l :: password :: rest'' =>
                  (fst (login s l password), rest'', None)
              | _ => eof
              end
            else if String.eqb user_type "admin" || String.eqb user_type "a"
            then
              match rest' with
              | password :: rest'' =>
                  (fst (admin_login s password), rest'', None)
              | [] => eof
              end
            else (s, rest', None)
        end
      else if String.eqb choice "2" then (s, rest, Some Returned)
      else (s, rest, None)
  end.

(** The loop [while True] of [start], for at most [fuel] turns. *)
Fixpoint start_loop (fuel : nat) (w : BankSystem * Files)
    (stdin : list string) : (BankSystem * Files) * list string * ending :=
  match fuel with
  | O => (w, stdin, OutOfFuel)
  | S fuel' =>
      match start_choice (fst w) stdin with
      | (s', rest, Some e) => ((s', snd w), rest, e)
      | (s', rest, None) =>
          if truthy_user s' then
            match menu (s', snd w) rest with
            | (w', rest', Returned) => start_loop fuel' w' rest'
            | (w', rest', e) => (w', rest', e)
            end
          else start_loop fuel' (s', snd w) rest
      end
  end.

(** [BankSystem.start] on a new bank, the files [fs] and the lines of the
    standard input. *)
Definition start (fs : Files) (stdin : list string)
    : (BankSystem * Files) * list string * ending :=
  match load_data fs BankSystem_init with
  | Error e => ((BankSystem_init, fs), stdin, Ended e)
  | Ok s => start_loop (S (length stdin)) (s, fs) stdin
  end.

End Menus.

(** ** What can be written to the files and read back *)

Section Format.
Context {B : PyBuiltins}.

(** The text of the integer [n] is one field and converts back to [n]. *)
Definition int_text_ok (n : Z) : bool :=
  PyStr.field_ok (str_int n) && PyStr.no_trail_space (str_int n)
  && match int_of_str (str_int n) with
     | Some m => m =? n
     | None => false
     end.

(** The text of the float [x] is one field and converts back to [x]. *)
Definition float_text_ok (x : float) : bool :=
  PyStr.field_ok (str_float x) && PyStr.no_trail_space (str_float x)
  && match float_of_str (str_float x) with
     | Some y => float_eqb y x
     | None => false
     end.

(** An item of [customers]: stored under its login, every attribute one
    field, no white space where the line starts and where it ends. *)
Definition customer_ok (item : string * Customer.t) : bool :=
  let (key, c) := item in
  String.eqb key (Customer.login c)
  && PyStr.no_lead_space (Customer.customer_id c)
  && PyStr.field_ok (Customer.customer_id c)
  && PyStr.field_ok (Customer.name c)
  && int_text_ok (Customer.age c)
  && PyStr.field_ok (Customer.login c)
  && PyStr.field_ok (Customer.password c)
  && PyStr.no_trail_space (Customer.password c).

(** An item of [accounts]: stored under its id; the credit limit of a
    checking account, which has no field in the file, is the default. *)
Definition account_ok (item : string * Account.t) : bool :=
  let (key, a) := item in
  String.eqb key (Account.account_id a)
  && PyStr.no_lead_space (Account.account_id a)
  && PyStr.field_ok (Account.account_id a)
  && PyStr.field_ok (Account.customer_id a)
  && float_text_ok (Account.balance a)
  && match a with
     | Account.SavingsAccount _ _ _ m => int_text_ok m
     | Account.CheckingAccount _ _ _ l => float_eqb l (float_of_int 0)
     end.

Definition transaction_ok (r : Transaction) : bool :=
  match r with
  | Record4 transaction_id amount transaction_type transaction_status =>
      PyStr.field_ok transaction_id && float_text_ok amount
      && PyStr.field_ok transaction_type
      && PyStr.field_ok transaction_status
      && PyStr.no_trail_space transaction_status
  | Record5 transaction_id recipient_account_id amount transaction_type
      transaction_status =>
      PyStr.field_ok transaction_id && PyStr.field_ok recipient_account_id
      && float_text_ok amount
      && PyStr.field_ok transaction_type
      && PyStr.field_ok transaction_status
      && PyStr.no_trail_space transaction_status
  end.

(** An item of [transactions]: a list that is not empty. *)
Definition history_ok (item : string * list Transaction) : bool :=
  let (key, history) := item in
  PyStr.no_lead_space key && PyStr.field_ok key
  && negb (Nat.eqb (length history) 0)
  && forallb transaction_ok history.

(** The stores the file format can hold. *)
Definition store_ok (s : BankSystem) : bool :=
  Dict.nodup_keys (customers s) && forallb customer_ok (customers s)
  && Dict.nodup_keys (accounts s) && forallb account_ok (accounts s)
  && Dict.nodup_keys (transactions s) && forallb history_ok (transactions s).

End Format.

(** ** Records of deposits *)

(** A record of a deposit that says [ABORTED]. *)
Definition aborted_deposit (r : Transaction) : bool :=
  String.eqb (transaction_type_of r) "deposit"
  && String.eqb (transaction_status_of r) "ABORTED".

(** No list of [transactions] holds an aborted deposit. *)
Definition no_aborted_deposit (s : BankSystem) : bool :=
  forallb (fun item => forallb (fun r => negb (aborted_deposit r)) (snd item))
    (transactions s).

(** What the method called for [choice] returns on the resolved account:
    [deposit] for ["1"], [withdrawal] for ["2"], [transfer] for ["3"]. *)
Definition method_returns (s : BankSystem) (account_id : string)
    (account : Account.t) (choice recipient_account_id : string)
    (amount : float) : bool :=
  if String.eqb choice "1" then snd (Account.deposit account amount)
  else if String.eqb choice "2" then snd (Account.withdrawal account amount)
  else
    match
      Account.transfer account_id amount recipient_account_id (accounts s)
    with
    | Some (_, ok) => ok
    | None => false
    end.

(** The name of the operation behind a choice of the menu. *)
Definition operation_name (choice : string) : string :=
  if String.eqb choice "1" then "deposit"
  else if String.eqb choice "2" then "withdrawal"
  else "transfer".

(** ** Numbers of transactions and calls that delete *)

Definition transaction_id_of (r : Transaction) : string :=
  match r with Record4 t _ _ _ | Record5 t _ _ _ _ => t end.

Section Numbering.
Context {B : PyBuiltins}.

(** The records of a list carry the numbers [n], [n + 1], ... in their
    order. *)
Fixpoint numbered_from (n : nat) (history : list Transaction) : bool :=
  match history with
  | [] => true
  | r :: rest =>
      String.eqb (transaction_id_of r) (str_int (Z.of_nat n))
      && numbered_from (S n) rest
  end.

(** Every list of [transactions] is numbered from 1. *)
Definition well_numbered (s : BankSystem) : bool :=
  forallb (fun item => numbered_from 1 (snd item)) (transactions s).

End Numbering.

(** The call deletes the account [k]. *)
Definition deletes (k : string) (c : call) : bool :=
  match c with
  | DeleteAccount account_id => String.eqb account_id k
  | _ => false
  end.

(** ** How the bank stores its objects *)

(** A customer is stored under their login. *)
Definition customer_stored (item : string * Customer.t) : bool :=
  String.eqb (fst item) (Customer.login (snd item)).

(** An account is stored under its id, and a checking account has the
    credit limit 0 of the default. *)
Definition account_stored (item : string * Account.t) : bool :=
  String.eqb (fst item) (Account.account_id (snd item))
  && match Account.credit_limit (snd item) with
     | Some l => float_eqb l (float_of_int 0)
     | None => true
     end.

(** A list of transactions is not empty. *)
Definition history_stored (item : string * list Transaction) : bool :=
  negb (Nat.eqb (length (snd item)) 0).

Definition storage_ok (s : BankSystem) : bool :=
  Dict.nodup_keys (customers s) && forallb customer_stored (customers s)
  && Dict.nodup_keys (accounts s) && forallb account_stored (accounts s)
  && Dict.nodup_keys (transactions s)
  && forallb history_stored (transactions s).

(** The user logged in, if any, is the administrator or a customer. *)
Definition session_ok (s : BankSystem) : bool :=
  match current_user s with
  | None => true
  | Some user => String.eqb user "admin" || Dict.mem user (customers s)
  end.

(** What the menu of a customer keeps in a bank. *)
Definition kept_by_customer (s s' : BankSystem) : Prop :=
  customers s' = customers s
  /\ Account.same_accounts (accounts s) (accounts s').

(** What [save_data] writes of a bank. *)
Definition stored_data (s : BankSystem)
    : Dict.t Customer.t * Dict.t Account.t * Dict.t (list Transaction) :=
  (customers s, accounts s, transactions s).

(** The number of fields [load_data] finds on a line. *)
Definition field_count (line : string) : nat :=
  length (PyStr.split PyStr.comma (PyStr.strip line)).

(** The line has the four or five fields of an account. *)
Definition account_fields (line : string) : bool :=
  Nat.eqb (field_count line) 4 || Nat.eqb (field_count line) 5.

(** The line has the five or six fields of a transaction. *)
Definition transaction_fields (line : string) : bool :=
  Nat.eqb (field_count line) 5 || Nat.eqb (field_count line) 6.

(** ** A runtime to evaluate examples with *)

Module Sample.

(** Decimal digits with a minus sign, as [str] prints an [int]. *)
Definition str_int (n : Z) : string := NilZero.string_of_int (Z.to_int n).

(** Reads what [str_int] prints. *)
Definition int_of_str (s : string) : option Z :=
  option_map Z.of_int (NilZero.int_of_string s).

(** The integer a finite float is, when it is one. *)
Definition integral (x : float) : option Z :=
  match x with
  | S754_finite s m e =>
      let sign := if s then (-1) else 1 in
      if 0 <=? e then Some (sign * (Zpos m * 2 ^ e))
      else if Zpos m mod 2 ^ (- e) =? 0 then Some (sign * (Zpos m / 2 ^ (- e)))
      else None
  | _ => None
  end.

(** Floats with an integral value as the interpreter prints them below
    [1e16], zeros, infinities and NaN; [?] for the other floats, which the
    examples do not use. *)
Definition str_float (x : float) : string :=
  match x with
  | S754_nan => "nan"
  | S754_infinity false => "inf"
  | S754_infinity true => "-inf"
  | S754_zero false => "0.0"
  | S754_zero true => "-0.0"
  | S754_finite _ _ _ =>
      match integral x with
      | Some n => str_int n ++ ".0"
      | None => "?"
      end
  end.

(** [s] without a final [.0]. *)
Fixpoint integer_part (s : string) : string :=
  match s with
  | EmptyString => EmptyString
  | String c s' =>
      if String.eqb s ".0" then EmptyString else String c (integer_part s')
  end.

(** Reads what [str_float] prints, and integers. *)
Definition float_of_str (s : string) : option float :=
  if String.eqb s "nan" then Some S754_nan
  else if String.eqb s "inf" then Some (S754_infinity false)
  else if String.eqb s "-inf" then Some (S754_infinity true)
  else if String.eqb s "-0.0" then Some (S754_zero true)
  else option_map float_of_int (int_of_str (integer_part s)).

(** A stand-in for the digest: no property below depends on its value. *)
Definition sha256_hexdigest (s : string) : string :=
  "h" ++ NilZero.string_of_uint (Nat.to_uint (String.length s)).

#[export] Instance builtins : PyBuiltins :=
  Build_PyBuiltins sha256_hexdigest str_int int_of_str str_float float_of_str.

End Sample.

(** ** States to evaluate examples on *)

Module Examples.

(** A checking account with a balance of 100 and no credit. *)
Definition checking_1 : Account.t :=
  Account.CheckingAccount "1" "7" (float_of_int 100) (float_of_int 0).

(** A savings account with a balance of 100 and two withdrawals left. *)
Definition savings_2 : Account.t :=
  Account.SavingsAccount "2" "7" (float_of_int 100) 2.

(** Both, stored under their ids. *)
Definition two_accounts : Account.heap :=
  [("1", checking_1); ("2", savings_2)].

(** A bank that holds the two accounts, nobody logged in. *)
Definition logged_out_bank : BankSystem :=
  mkBank [] two_accounts [] None "admin".

(** The same bank with the administrator logged in. *)
Definition admin_bank : BankSystem :=
  mkBank [] two_accounts [] (Some "admin") "admin".

(** Customers of 13, 14, 17 and 18 years. *)
Definition customer_aged (customer_id : string) (age : Z) : Customer.t :=
  Customer.mk customer_id "Ann" age ("ann" ++ customer_id) "h3".

Definition four_customers : BankSystem :=
  mkBank
    [("ann13", customer_aged "13" 13); ("ann14", customer_aged "14" 14);
     ("ann17", customer_aged "17" 17); ("ann18", customer_aged "18" 18)]
    [] [] (Some "admin") "admin".

(** No file under [data/]. *)
Definition no_files : Files := mkFiles None None None.

(** The administrator creates a customer of 30 years and a checking account,
    deposits 100, asks for 120, which is refused, and withdraws 50. *)
Definition session : list call :=
  [ AdminLogin "admin";
    CreateCustomer "Ann" 30 "ann" "secret";
    CreateAccount "1" "Checking";
    PerformOperations "1" "1" "" (Some (float_of_int 100));
    PerformOperations "1" "2" "" (Some (float_of_int 120));
    PerformOperations "1" "2" "" (Some (float_of_int 50));
    Logout ].

(** The bank the session leaves. *)
Definition after_session : BankSystem :=
  mkBank
    [("ann", Customer.mk "1" "Ann" 30 "ann" "h6")]
    [("1", Account.CheckingAccount "1" "1" (float_of_int 50) (float_of_int 0))]
    [("1", [Record4 "1" (float_of_int 100) "deposit" "COMPLETE";
            Record4 "2" (float_of_int 120) "withdrawal" "ABORTED";
            Record4 "3" (float_of_int 50) "withdrawal" "COMPLETE"])]
    None "admin".

(** The administrator enters a name with a comma and logs out, which saves
    the data. *)
Definition comma_session : list call :=
  [ AdminLogin "admin";
    CreateCustomer "Doe, John" 40 "jdoe" "secret";
    SaveData;
    Logout ].

(** The bank that session leaves. *)
Definition comma_bank : BankSystem :=
  mkBank [("jdoe", Customer.mk "1" "Doe, John" 40 "jdoe" "h6")] [] [] None
    "admin".

(** A bank whose checking account has a credit limit of 500. *)
Definition credit_bank : BankSystem :=
  mkBank []
    [("1", Account.CheckingAccount "1" "7" (float_of_int 100)
             (float_of_int 500))]
    [] None "admin".

(** Two customers with an account each; Ann is logged in. *)
Definition ann_logged_in : BankSystem :=
  mkBank
    [("ann", Customer.mk "1" "Ann" 30 "ann" "h6");
     ("bob", Customer.mk "2" "Bob" 40 "bob" "h6")]
    [("1", Account.CheckingAccount "1" "1" (float_of_int 100) (float_of_int 0));
     ("2", Account.SavingsAccount "2" "2" (float_of_int 100) 2)]
    [("2", [Record4 "1" (float_of_int 100) "deposit" "COMPLETE"])]
    (Some "ann") "admin".

(** A bank with one customer whose account 1 was deleted: one account is
    left, under the id 2. *)
Definition one_account_left : BankSystem :=
  mkBank [("ann", Customer.mk "1" "Ann" 30 "ann" "h6")]
    [("2", savings_2)] [] (Some "admin") "admin".

(** The files of the bank the example session leaves. *)
Definition session_files : Files :=
  mkFiles
    (Some ("1,Ann,30,ann,h6" ++ PyStr.nl))
    (Some ("1,1,Checking,50.0" ++ PyStr.nl))
    (Some ("1,1,100.0,deposit,COMPLETE" ++ PyStr.nl
           ++ "1,2,120.0,withdrawal,ABORTED" ++ PyStr.nl
           ++ "1,3,50.0,withdrawal,COMPLETE" ++ PyStr.nl)).

(** What the administrator types to log in, deposit 25 on account 1, log
    out and leave the program. *)
Definition typed_by_admin : list string :=
  ["1"; "A"; "admin"; "4"; "1"; "1"; "25.0"; "7"; "2"].

(** What Ann types in her menu to look at her transactions, ask for 10 from
    the account of Bob, and log out. *)
Definition typed_by_ann : list string :=
  ["1"; "1"; "2"; "2"; "2"; "10.0"; "4"].



End Examples.

(** * Properties *)

(** ** Dictionaries *)

Section DictFacts.
Context {V : Type}.
Implicit Types (d : Dict.t V) (k : string) (v : V).

Lemma get_set_same k v d : Dict.get k (Dict.set k v d) = Some v.
Proof.
  induction d as [|[k' v'] d IH]; simpl.
  - now rewrite String.eqb_refl.
  - destruct (String.eqb k' k) eqn:E; simpl.
    + now rewrite String.eqb_refl.
    + now rewrite E.
Qed.

Lemma get_set_other k k' v d :
  k <> k' -> Dict.get k' (Dict.set k v d) = Dict.get k' d.
Proof.
  intros Hne. induction d as [|[k0 v0] d IH]; simpl.
  - apply String.eqb_neq in Hne. now rewrite Hne.
  - destruct (String.eqb k0 k) eqn:E; simpl.
    + apply String.eqb_eq in E. subst k0.
      apply String.eqb_neq in Hne. now rewrite Hne.
    + now rewrite IH.
Qed.

Lemma get_update_same k f d :
  Dict.get k (Dict.update k f d) = option_map f (Dict.get k d).
Proof.
  unfold Dict.update. destruct (Dict.get k d) eqn:E; simpl.
  - apply get_set_same.
  - exact E.
Qed.

Lemma get_update_other k k' f d :
  k <> k' -> Dict.get k' (Dict.update k f d) = Dict.get k' d.
Proof.
  intros Hne. unfold Dict.update. destruct (Dict.get k d); trivial.
  now apply get_set_other.
Qed.

Lemma mem_get k d : Dict.mem k d = true <-> exists v, Dict.get k d = Some v.
Proof.
  unfold Dict.mem. destruct (Dict.get k d).
  - split; eauto.
  - split; [discriminate | intros [v H]; discriminate].
Qed.

Lemma mem_false_get k d : Dict.mem k d = false <-> Dict.get k d = None.
Proof.
  unfold Dict.mem. destruct (Dict.get k d); split; congruence.
Qed.

(** A new key goes to the end. *)
Lemma set_fresh k v d : Dict.mem k d = false -> Dict.set k v d = (d ++ [(k, v)])%list.
Proof.
  unfold Dict.mem. induction d as [|[k' v'] d IH]; simpl; trivial.
  destruct (String.eqb k' k); [discriminate|].
  intros H. now rewrite IH.
Qed.

Lemma mem_app k d1 d2 :
  Dict.mem k (d1 ++ d2)%list = Dict.mem k d1 || Dict.mem k d2.
Proof.
  unfold Dict.mem. induction d1 as [|[k' v'] d1 IH]; simpl.
  - now destruct (Dict.get k d2).
  - destruct (String.eqb k' k); trivial.
Qed.

(** An old key that comes last keeps its place. *)
Lemma set_last k v v' d :
  Dict.mem k d = false ->
  Dict.set k v' (d ++ [(k, v)])%list = (d ++ [(k, v')])%list.
Proof.
  unfold Dict.mem. induction d as [|[k0 v0] d IH]; simpl.
  - now rewrite String.eqb_refl.
  - destruct (String.eqb k0 k); [discriminate|].
    intros H. now rewrite IH.
Qed.

Lemma get_last k v d :
  Dict.mem k d = false -> Dict.get k (d ++ [(k, v)])%list = Some v.
Proof.
  unfold Dict.mem. induction d as [|[k0 v0] d IH]; simpl.
  - now rewrite String.eqb_refl.
  - destruct (String.eqb k0 k); [discriminate|]. exact IH.
Qed.

End DictFacts.

(** ** classes.py *)

Module AccountFacts.
Import Account.

Lemma balance_set_balance b self : balance (set_balance b self) = b.
Proof. now destruct self. Qed.

Lemma monthly_withdrawals_set_balance b self :
  monthly_withdrawals (set_balance b self) = monthly_withdrawals self.
Proof. now destruct self. Qed.

Lemma credit_limit_set_balance b self :
  credit_limit (set_balance b self) = credit_limit self.
Proof. now destruct self. Qed.

Lemma credit_limit_decrement self :
  credit_limit (decrement_monthly_withdrawals self) = credit_limit self.
Proof. now destruct self. Qed.

Lemma balance_decrement self :
  balance (decrement_monthly_withdrawals self) = balance self.
Proof. now destruct self. Qed.

(** [withdrawal] opens with [guard]. *)
Lemma withdrawal_guard self amount :
  snd (withdrawal self amount) = guard self amount.
Proof.
  destruct self as [i c b m|i c b l]; simpl.
  - now destruct (m >? 0).
  - now destruct (float_ge (float_add b l) amount).
Qed.

(** [transfer] opens with [guard] too. *)
Lemma transfer_guard self amount recipient h account :
  Dict.get self h = Some account ->
  exists h', transfer self amount recipient h = Some (h', guard account amount).
Proof.
  intros Hget. unfold transfer. rewrite Hget.
  destruct account as [i c b m|i c b l]; simpl.
  - destruct (m >? 0); eauto.
  - destruct (float_ge (float_add b l) amount); eauto.
Qed.

Lemma transfer_refused self amount recipient h account :
  Dict.get self h = Some account ->
  guard account amount = false ->
  transfer self amount recipient h = Some (h, false).
Proof.
  intros Hget Hg. unfold transfer. rewrite Hget.
  destruct account as [i c b m|i c b l]; simpl in *; now rewrite Hg.
Qed.

End AccountFacts.

(** The transfer of a savings account on the store: the guard is the counter,
    a success leaves the counter one lower whoever the recipient is, a refusal
    leaves the store as it was. *)
Lemma savings_transfer_counter (h : Account.heap) (key recipient : string)
    (i c : string) (b : float) (m : Z) (amount : float) :
  Dict.get key h = Some (Account.SavingsAccount i c b m) ->
  exists h' ok,
    Account.transfer key amount recipient h = Some (h', ok)
    /\ (ok = true <-> m > 0)
    /\ (ok = true ->
        exists self', Dict.get key h' = Some self'
                      /\ Account.monthly_withdrawals self' = Some (m - 1))
    /\ (ok = false -> h' = h).
Proof.
  intros Hget. unfold Account.transfer. rewrite Hget.
  destruct (m >? 0) eqn:Hm.
  - eexists _, true. split; [reflexivity|].
    split; [split; [lia | reflexivity]|].
    split; [intros _ | discriminate].
    rewrite get_update_same. unfold Account.deposit_at, Account.debit_at.
    destruct (String.eqb_spec recipient key) as [->|Hne].
    + rewrite !get_update_same, Hget. simpl. eauto.
    + rewrite get_update_other by assumption.
      rewrite get_update_same, Hget. simpl. eauto.
  - eexists _, false. split; [reflexivity|].
    split; [split; [discriminate | lia]|].
    split; [discriminate | reflexivity].
Qed.

(** C1. A savings withdrawal succeeds exactly when [monthly_withdrawals > 0];
    a success takes [amount] from the balance and one from the counter, which
    never grows; a refusal leaves the account as it was.  An outgoing transfer
    has the same guard and takes one from the counter as well, for every
    recipient. *)
Theorem C1_savings_guard_and_counter :
  forall (i c : string) (b : float) (m : Z) (amount : float),
    (snd (Account.withdrawal (Account.SavingsAccount i c b m) amount) = true
     <-> m > 0)
    /\ (m > 0 ->
        Account.withdrawal (Account.SavingsAccount i c b m) amount
        = (Account.SavingsAccount i c (float_sub b amount) (m - 1), true))
    /\ (~ m > 0 ->
        Account.withdrawal (Account.SavingsAccount i c b m) amount
        = (Account.SavingsAccount i c b m, false))
    /\ (forall m', Account.monthly_withdrawals
                     (fst (Account.withdrawal (Account.SavingsAccount i c b m)
                             amount)) = Some m' -> m' <= m)
    /\ (forall (h : Account.heap) (key recipient : string),
          Dict.get key h = Some (Account.SavingsAccount i c b m) ->
          exists h' ok,
            Account.transfer key amount recipient h = Some (h', ok)
            /\ (ok = true <-> m > 0)
            /\ (ok = true ->
                exists self', Dict.get key h' = Some self'
                   /\ Account.monthly_withdrawals self' = Some (m - 1))
            /\ (ok = false -> h' = h)).
Proof.
  intros i c b m amount. simpl.
  destruct (m >? 0) eqn:Hm; simpl.
  - repeat split; try lia; try reflexivity.
    + intros m' [= <-]. lia.
    + intros h key recipient. apply savings_transfer_counter.
  - repeat split; try lia; try discriminate; try reflexivity.
    + intros m' [= <-]. lia.
    + intros h key recipient. apply savings_transfer_counter.
Qed.

(** C1 on the two example accounts: a transfer from the savings account. *)
Lemma C1_witness :
  exists h' ok,
    Account.transfer "2" (float_of_int 30) "1" Examples.two_accounts
    = Some (h', ok)
    /\ (ok = true <-> 2 > 0)
    /\ (ok = true ->
        exists self', Dict.get "2" h' = Some self'
           /\ Account.monthly_withdrawals self' = Some (2 - 1))
    /\ (ok = false -> h' = Examples.two_accounts).
Proof.
  destruct (C1_savings_guard_and_counter "2" "7" (float_of_int 100) 2
              (float_of_int 30)) as (_ & _ & _ & _ & H).
  apply (H Examples.two_accounts "2" "1"). reflexivity.
Defined.

(** C3. A deposit returns [True] for every account and every amount, negative
    ones too, and the new balance is the old one plus the amount; nothing else
    of the account changes. *)
Theorem C3_deposit_always_succeeds :
  forall (self : Account.t) (amount : float),
    snd (Account.deposit self amount) = true
    /\ Account.balance (fst (Account.deposit self amount))
       = float_add (Account.balance self) amount
    /\ fst (Account.deposit self amount)
       = Account.set_balance (float_add (Account.balance self) amount) self.
Proof.
  intros self amount. unfold Account.deposit; simpl.
  now rewrite AccountFacts.balance_set_balance.
Qed.

(** A deposit with a negative amount on the example checking account. *)
Example deposit_negative :
  Account.deposit Examples.checking_1 (float_of_int (-30))
  = (Account.CheckingAccount "1" "7" (float_of_int 70) (float_of_int 0), true).
Proof. reflexivity. Qed.

(** An attribute assignment that keeps the credit limit keeps it on the
    store. *)
Lemma update_keeps_credit_limit (k : string) (f : Account.t -> Account.t)
    (h : Account.heap) :
  (forall o, Account.credit_limit (f o) = Account.credit_limit o) ->
  forall key x, Dict.get key h = Some x ->
    exists x', Dict.get key (Dict.update k f h) = Some x'
               /\ Account.credit_limit x' = Account.credit_limit x.
Proof.
  intros Hf key x Hget. destruct (String.eqb_spec k key) as [->|Hne].
  - rewrite get_update_same, Hget. simpl. eauto.
  - rewrite get_update_other by assumption. eauto.
Qed.

(** No transfer changes a credit limit, of the payer, of the recipient or of
    any other account. *)
Lemma transfer_keeps_credit_limits (h h' : Account.heap)
    (self recipient : string) (amount : float) (ok : bool) :
  Account.transfer self amount recipient h = Some (h', ok) ->
  forall key x, Dict.get key h = Some x ->
    exists x', Dict.get key h' = Some x'
               /\ Account.credit_limit x' = Account.credit_limit x.
Proof.
  unfold Account.transfer, Account.deposit_at, Account.debit_at.
  destruct (Dict.get self h) as [[i c b m|i c b l]|] eqn:Hself;
    [| |discriminate].
  - destruct (m >? 0); intros [= <- <-] key x Hget; [|eauto].
    destruct (update_keeps_credit_limit self
                (fun o => Account.set_balance
                            (float_sub (Account.balance o) amount) o) h
                (fun o => AccountFacts.credit_limit_set_balance _ o)
                key x Hget) as (x1 & H1 & E1).
    destruct (update_keeps_credit_limit recipient
                (fun o => fst (Account.deposit o amount)) _
                (fun o => AccountFacts.credit_limit_set_balance _ o)
                key x1 H1) as (x2 & H2 & E2).
    destruct (update_keeps_credit_limit self
                Account.decrement_monthly_withdrawals _
                AccountFacts.credit_limit_decrement
                key x2 H2) as (x3 & H3 & E3).
    exists x3. split; [exact H3 | congruence].
  - destruct (float_ge (float_add b l) amount);
      intros [= <- <-] key x Hget; [|eauto].
    destruct (update_keeps_credit_limit self
                (fun o => Account.set_balance
                            (float_sub (Account.balance o) amount) o) h
                (fun o => AccountFacts.credit_limit_set_balance _ o)
                key x Hget) as (x1 & H1 & E1).
    destruct (update_keeps_credit_limit recipient
                (fun o => fst (Account.deposit o amount)) _
                (fun o => AccountFacts.credit_limit_set_balance _ o)
                key x1 H1) as (x2 & H2 & E2).
    exists x2. split; [exact H2 | congruence].
Qed.

(** The balances after a transfer that passes the guard: to another account
    the payer is debited and the recipient credited; to the paying account
    itself the one balance is debited, then credited. *)
Lemma transfer_accepted (h : Account.heap) (self recipient : string)
    (amount : float) (a : Account.t) :
  Dict.get self h = Some a ->
  Account.guard a amount = true ->
  exists h',
    Account.transfer self amount recipient h = Some (h', true)
    /\ (recipient <> self ->
        option_map Account.balance (Dict.get self h')
        = Some (float_sub (Account.balance a) amount)
        /\ option_map Account.balance (Dict.get recipient h')
           = option_map (fun r => float_add (Account.balance r) amount)
               (Dict.get recipient h))
    /\ (recipient = self ->
        option_map Account.balance (Dict.get self h')
        = Some (float_add (float_sub (Account.balance a) amount) amount))
    /\ (forall key, key <> self -> key <> recipient ->
        Dict.get key h' = Dict.get key h).
Proof.
  intros Hget Hg. unfold Account.transfer. rewrite Hget.
  unfold Account.deposit_at, Account.debit_at.
  destruct a as [i c b m|i c b l]; simpl in Hg; rewrite Hg;
    eexists; (split; [reflexivity|]);
    (split; [intros Hne; split
            | split; [intros -> | intros key H1 H2]]).
  - rewrite get_update_same, get_update_other, get_update_same, Hget
      by assumption. reflexivity.
  - rewrite get_update_other, get_update_same, get_update_other
      by congruence.
    destruct (Dict.get recipient h) as [r|]; simpl; trivial.
    now rewrite AccountFacts.balance_set_balance.
  - rewrite !get_update_same, Hget. reflexivity.
  - now rewrite !get_update_other by congruence.
  - rewrite get_update_other, get_update_same, Hget by assumption.
    reflexivity.
  - rewrite get_update_same, get_update_other by congruence.
    destruct (Dict.get recipient h) as [r|]; simpl; trivial.
    now rewrite AccountFacts.balance_set_balance.
  - rewrite !get_update_same, Hget. reflexivity.
  - now rewrite !get_update_other by congruence.
Qed.

(** C2, as the code has it.  A checking withdrawal or transfer succeeds
    exactly when [balance + credit_limit >= amount].  A successful withdrawal,
    and a successful transfer to another account, leave [balance - amount]; a
    successful transfer whose recipient is the paying account itself leaves
    [(balance - amount) + amount].  A refusal changes nothing, and no credit
    limit changes in any case. *)
Theorem C2_checking_guard_and_balance :
  forall (i c : string) (b l amount : float),
    (snd (Account.withdrawal (Account.CheckingAccount i c b l) amount) = true
     <-> float_ge (float_add b l) amount = true)
    /\ (float_ge (float_add b l) amount = true ->
        Account.withdrawal (Account.CheckingAccount i c b l) amount
        = (Account.CheckingAccount i c (float_sub b amount) l, true))
    /\ (float_ge (float_add b l) amount = false ->
        Account.withdrawal (Account.CheckingAccount i c b l) amount
        = (Account.CheckingAccount i c b l, false))
    /\ (forall (h : Account.heap) (key recipient : string),
          Dict.get key h = Some (Account.CheckingAccount i c b l) ->
          exists h' ok,
            Account.transfer key amount recipient h = Some (h', ok)
            /\ (ok = true <-> float_ge (float_add b l) amount = true)
            /\ (ok = true -> recipient <> key ->
                option_map Account.balance (Dict.get key h')
                = Some (float_sub b amount))
            /\ (ok = true -> recipient = key ->
                option_map Account.balance (Dict.get key h')
                = Some (float_add (float_sub b amount) amount))
            /\ (ok = false -> h' = h)
            /\ (forall k x, Dict.get k h = Some x ->
                exists x', Dict.get k h' = Some x'
                   /\ Account.credit_limit x' = Account.credit_limit x)).
Proof.
  intros i c b l amount. simpl.
  destruct (float_ge (float_add b l) amount) eqn:Hg; simpl.
  - split; [tauto|]. split; [reflexivity|]. split; [discriminate|].
    intros h key recipient Hget.
    destruct (transfer_accepted h key recipient amount _ Hget Hg)
      as (h' & Ht & Hother & Hself & _).
    exists h', true. split; [exact Ht|]. split; [tauto|].
    split; [intros _ Hne; now apply Hother|].
    split; [intros _ He; now apply Hself|].
    split; [discriminate|].
    exact (transfer_keeps_credit_limits _ _ _ _ _ _ Ht).
  - split; [split; discriminate|]. split; [discriminate|].
    split; [reflexivity|].
    intros h key recipient Hget.
    pose proof (AccountFacts.transfer_refused key amount recipient h _
                  Hget Hg) as Ht.
    exists h, false. split; [exact Ht|]. split; [split; discriminate|].
    split; [discriminate|]. split; [discriminate|]. split; [reflexivity|].
    exact (transfer_keeps_credit_limits _ _ _ _ _ _ Ht).
Qed.

(** C2 on the example checking account: a transfer of 30 to the savings
    account. *)
Lemma C2_witness :
  exists h' ok,
    Account.transfer "1" (float_of_int 30) "2" Examples.two_accounts
    = Some (h', ok)
    /\ (ok = true
        <-> float_ge (float_add (float_of_int 100) (float_of_int 0))
              (float_of_int 30) = true)
    /\ (ok = true -> "2" <> "1" ->
        option_map Account.balance (Dict.get "1" h')
        = Some (float_sub (float_of_int 100) (float_of_int 30)))
    /\ (ok = true -> "2" = "1" ->
        option_map Account.balance (Dict.get "1" h')
        = Some (float_add (float_sub (float_of_int 100) (float_of_int 30))
                  (float_of_int 30)))
    /\ (ok = false -> h' = Examples.two_accounts)
    /\ (forall k x, Dict.get k Examples.two_accounts = Some x ->
        exists x', Dict.get k h' = Some x'
           /\ Account.credit_limit x' = Account.credit_limit x).
Proof.
  destruct (C2_checking_guard_and_balance "1" "7" (float_of_int 100)
              (float_of_int 0) (float_of_int 30)) as (_ & _ & _ & H).
  apply (H Examples.two_accounts "1" "2"). reflexivity.
Defined.

(** C2 fails as stated: the checking account that transfers 30 to itself
    succeeds and keeps 100, which is not [100 - 30]. *)
Lemma C2_counterexample :
  Account.transfer "1" (float_of_int 30) "1" Examples.two_accounts
  = Some ([("1", Examples.checking_1); ("2", Examples.savings_2)], true)
  /\ Account.balance Examples.checking_1 = float_of_int 100
  /\ float_of_int 100 <> float_sub (float_of_int 100) (float_of_int 30).
Proof.
  split; [reflexivity|]. split; [reflexivity|]. discriminate.
Qed.

(** C4, as the code has it.  A transfer that succeeds between two different
    accounts debits the source by [amount] and credits the recipient by
    [amount]; one whose recipient is the source itself debits and credits the
    same balance, which ends as [(balance - amount) + amount]; a transfer that
    fails changes no balance. *)
Theorem C4_transfer_debit_and_credit :
  forall (h : Account.heap) (source recipient : string) (amount : float)
         (a r : Account.t),
    Dict.get source h = Some a ->
    Dict.get recipient h = Some r ->
    exists h' ok,
      Account.transfer source amount recipient h = Some (h', ok)
      /\ (ok = true -> recipient <> source ->
          option_map Account.balance (Dict.get source h')
          = Some (float_sub (Account.balance a) amount)
          /\ option_map Account.balance (Dict.get recipient h')
             = Some (float_add (Account.balance r) amount))
      /\ (ok = true -> recipient = source ->
          option_map Account.balance (Dict.get source h')
          = Some (float_add (float_sub (Account.balance a) amount) amount))
      /\ (ok = false -> h' = h).
Proof.
  intros h source recipient amount a r Ha Hr.
  destruct (Account.guard a amount) eqn:Hg.
  - destruct (transfer_accepted h source recipient amount a Ha Hg)
      as (h' & Ht & Hother & Hself & _).
    exists h', true. split; [exact Ht|].
    split; [intros _ Hne|split; [intros _ He; now apply Hself|discriminate]].
    destruct (Hother Hne) as [H1 H2]. rewrite Hr in H2. now split.
  - exists h, false.
    split; [now apply AccountFacts.transfer_refused with (account := a)|].
    split; [discriminate|]. split; [discriminate | reflexivity].
Qed.

(** C4 on the two example accounts: the savings account pays the checking
    account. *)
Lemma C4_witness :
  exists h' ok,
    Account.transfer "2" (float_of_int 30) "1" Examples.two_accounts
    = Some (h', ok)
    /\ (ok = true -> "1" <> "2" ->
        option_map Account.balance (Dict.get "2" h')
        = Some (float_sub (Account.balance Examples.savings_2)
                  (float_of_int 30))
        /\ option_map Account.balance (Dict.get "1" h')
           = Some (float_add (Account.balance Examples.checking_1)
                     (float_of_int 30)))
    /\ (ok = true -> "1" = "2" ->
        option_map Account.balance (Dict.get "2" h')
        = Some (float_add (float_sub (Account.balance Examples.savings_2)
                             (float_of_int 30)) (float_of_int 30)))
    /\ (ok = false -> h' = Examples.two_accounts).
Proof.
  apply (C4_transfer_debit_and_credit Examples.two_accounts "2" "1"
           (float_of_int 30) Examples.savings_2 Examples.checking_1);
    reflexivity.
Defined.

(** C4 fails as stated: the savings account that transfers 30 to itself
    succeeds, uses up one withdrawal and keeps its balance of 100, so that the
    source is not 30 lower and the recipient is not 30 higher. *)
Lemma C4_counterexample :
  Account.transfer "2" (float_of_int 30) "2" Examples.two_accounts
  = Some ([("1", Examples.checking_1);
           ("2", Account.SavingsAccount "2" "7" (float_of_int 100) 1)], true)
  /\ Account.balance Examples.savings_2 = float_of_int 100
  /\ float_of_int 100 <> float_sub (float_of_int 100) (float_of_int 30)
  /\ float_of_int 100 <> float_add (float_of_int 100) (float_of_int 30).
Proof.
  split; [reflexivity|]. split; [reflexivity|]. split; discriminate.
Qed.

(** The menu leads to such a transfer: the administrator chooses 3 on
    account 1 and enters 1 as the recipient; the transfer is recorded as
    complete and the balance is the one before. *)
Example self_transfer_dispatched :
  perform_operations (B := Sample.builtins) Examples.admin_bank "1" "3" "1"
    (Some (float_of_int 30))
  = (mkBank [] Examples.two_accounts
       [("1", [Record5 "1" "1" (float_of_int 30) "transfer" "COMPLETE"])]
       (Some "admin") "admin",
     Printed ["Transfer successful."]).
Proof. vm_compute. reflexivity. Qed.

(** ** main.py: sessions *)

Lemma del_absent {V : Type} (k : string) (d : Dict.t V) :
  Dict.mem k d = false -> Dict.del k d = d.
Proof.
  unfold Dict.mem. induction d as [|[k' v'] d IH]; simpl; trivial.
  destruct (String.eqb k' k); [discriminate|].
  intros H. now rewrite IH.
Qed.

(** C7, as the code has it.  With nobody logged in, [view_transactions],
    [perform_operations] (whatever is entered) and [check_balance] print their
    request to log in and leave the bank as it is.  [delete_account] does not
    look at the session: logged out as well it removes an account that exists,
    together with its transactions, and reports an unknown id otherwise. *)
Theorem C7_logged_out :
  forall (B : PyBuiltins) (s : BankSystem)
         (account_id choice recipient_account_id : string)
         (amount : option float),
    current_user s = None ->
    view_transactions s account_id
    = (s, Printed ["Please login to perform operations."])
    /\ perform_operations s account_id choice recipient_account_id amount
       = (s, Printed ["Please login to perform operations."])
    /\ check_balance s account_id
       = (s, Printed ["Please login to check balance."])
    /\ (Dict.mem account_id (accounts s) = true ->
        delete_account s account_id
        = (mkBank (customers s) (Dict.del account_id (accounts s))
             (Dict.del account_id (transactions s)) None (admin_password s),
           Printed ["Account ID: " ++ account_id ++ " deleted successfully."]))
    /\ (Dict.mem account_id (accounts s) = false ->
        delete_account s account_id = (s, Printed ["Account ID not found."])).
Proof.
  intros B [cs acs ts u pw] account_id choice recipient_account_id amount.
  simpl. intros ->.
  unfold view_transactions, perform_operations, check_balance, delete_account.
  cbn [current_user accounts transactions set_accounts set_transactions
       customers admin_password].
  repeat split.
  - intros Hmem. rewrite Hmem. cbn [negb].
    destruct (Dict.mem account_id ts) eqn:Ht; [reflexivity|].
    now rewrite (del_absent _ _ Ht).
  - intros Hmem. now rewrite Hmem.
Qed.

(** C7 on the example bank: nobody is logged in and account 3 does not
    exist. *)
Lemma C7_witness :
  view_transactions (B := Sample.builtins) Examples.logged_out_bank "1"
  = (Examples.logged_out_bank, Printed ["Please login to perform operations."])
  /\ perform_operations (B := Sample.builtins) Examples.logged_out_bank "1"
       "2" "" (Some (float_of_int 30))
     = (Examples.logged_out_bank,
        Printed ["Please login to perform operations."])
  /\ check_balance (B := Sample.builtins) Examples.logged_out_bank "1"
     = (Examples.logged_out_bank, Printed ["Please login to check balance."]).
Proof.
  destruct (C7_logged_out Sample.builtins Examples.logged_out_bank "1" "2" ""
              (Some (float_of_int 30)) eq_refl) as (H1 & H2 & H3 & _).
  exact (conj H1 (conj H2 H3)).
Defined.

(** C7 fails as stated: with nobody logged in, [delete_account] removes
    account 1, and its outcome is the notice of the deletion. *)
Lemma C7_counterexample :
  current_user Examples.logged_out_bank = None
  /\ delete_account Examples.logged_out_bank "1"
     = (mkBank [] [("2", Examples.savings_2)] [] None "admin",
        Printed ["Account ID: 1 deleted successfully."])
  /\ accounts (fst (delete_account Examples.logged_out_bank "1"))
     <> accounts Examples.logged_out_bank.
Proof.
  split; [reflexivity|]. split; [reflexivity|]. discriminate.
Qed.

(** ** main.py: create_account *)

(** The scan of [create_account], one customer further. *)
Lemma find_customer_snoc (customer_id : string) (d : Dict.t Customer.t)
    (item : string * Customer.t) :
  find_customer customer_id (d ++ [item])%list
  = if String.eqb customer_id (Customer.customer_id (snd item))
    then Some (snd item) else find_customer customer_id d.
Proof. unfold find_customer. now rewrite fold_left_app. Qed.

(** A customer the scan finds is in the dictionary and has the id. *)
Lemma find_customer_in (customer_id : string) (d : Dict.t Customer.t)
    (c : Customer.t) :
  find_customer customer_id d = Some c ->
  Customer.customer_id c = customer_id /\ exists key, In (key, c) d.
Proof.
  induction d as [|[k x] d IH] using rev_ind; [discriminate|].
  rewrite find_customer_snoc. simpl.
  destruct (String.eqb_spec customer_id (Customer.customer_id x)) as [E|E].
  - intros [= <-]. split; [now symmetry|].
    exists k. apply in_or_app. right. now left.
  - intros H. destruct (IH H) as (Hid & key & Hin).
    split; [exact Hid|]. exists key. apply in_or_app. now left.
Qed.


(** Where two customers carry one id, the scan resolves the id to the later
    one. *)
Example find_customer_last :
  find_customer "5"
    [("a", Examples.customer_aged "5" 10);
     ("b", Examples.customer_aged "5" 30)]
  = Some (Examples.customer_aged "5" 30).
Proof. reflexivity. Qed.




(** ** main.py: perform_operations *)

(** Appending to the list of an account changes that list only. *)
Lemma get_setdefault_append_same (account_id : string) (r : Transaction)
    (t : Dict.t (list Transaction)) :
  Dict.get account_id (setdefault_append account_id r t)
  = Some (Dict.get_default account_id [] t ++ [r])%list.
Proof. unfold setdefault_append. apply get_set_same. Qed.

Lemma get_setdefault_append_other (account_id k : string) (r : Transaction)
    (t : Dict.t (list Transaction)) :
  k <> account_id ->
  Dict.get k (setdefault_append account_id r t) = Dict.get k t.
Proof.
  intros Hne. unfold setdefault_append. apply get_set_other. congruence.
Qed.

(** C5, as the code has it.  On an account that is resolved and that the user
    may act on, a deposit, a withdrawal and a transfer to a recipient that
    exists append exactly one record to the list of the account and touch no
    other list; the record is [COMPLETE] when the method returned [True] and
    [ABORTED] when it returned [False].  A transfer to a recipient id that is
    no account is answered by a notice before any method is called: the bank
    stays as it is, without a record. *)
Theorem C5_one_record_per_operation :
  forall (B : PyBuiltins) (s : BankSystem)
         (account_id choice recipient_account_id user : string)
         (amount : float) (account : Account.t),
    current_user s = Some user ->
    Dict.get account_id (accounts s) = Some account ->
    not_authorized s user account = Some false ->
    (choice = "1" \/ choice = "2"
     \/ (choice = "3" /\ Dict.mem recipient_account_id (accounts s) = true) ->
     exists r : Transaction,
       Dict.get account_id
         (transactions
            (fst (perform_operations s account_id choice recipient_account_id
                    (Some amount))))
       = Some (Dict.get_default account_id [] (transactions s) ++ [r])%list
       /\ (forall k, k <> account_id ->
           Dict.get k
             (transactions
                (fst (perform_operations s account_id choice
                        recipient_account_id (Some amount))))
           = Dict.get k (transactions s))
       /\ transaction_type_of r = operation_name choice
       /\ transaction_status_of r
          = (if method_returns s account_id account choice recipient_account_id
                  amount
             then "COMPLETE" else "ABORTED"))
    /\ (choice = "3" ->
        Dict.mem recipient_account_id (accounts s) = false ->
        perform_operations s account_id choice recipient_account_id
          (Some amount)
        = (s, Printed ["Recipient account ID not found."])).
Proof.
  intros B s account_id choice recipient_account_id user amount account
    Huser Hacc Hauth.
  assert (Hop :
    perform_operations s account_id choice recipient_account_id (Some amount)
    = operations s account_id
        (str_int
           (Z.of_nat (length (Dict.get_default account_id [] (transactions s)))
            + 1))
        account choice recipient_account_id (Some amount)).
  { unfold perform_operations. rewrite Huser, Hacc, Hauth.
    now destruct account. }
  rewrite Hop. clear Hop. unfold operations, method_returns, operation_name.
  split.
  - intros Hchoice.
    destruct Hchoice as [->|[->|[-> Hmem]]];
      cbn [String.eqb Ascii.eqb Bool.eqb].
    + cbn [Account.deposit snd fst].
      eexists. cbn [fst transactions set_transactions set_accounts].
      split; [apply get_setdefault_append_same|].
      split; [intros k Hk; now apply get_setdefault_append_other|].
      split; reflexivity.
    + destruct (Account.withdrawal account amount) as [account' ok].
      cbn [snd]. destruct ok;
        eexists; cbn [fst transactions set_transactions set_accounts];
        (split; [apply get_setdefault_append_same|]);
        (split; [intros k Hk; now apply get_setdefault_append_other|]);
        split; reflexivity.
    + rewrite Hmem. cbn [negb].
      destruct (AccountFacts.transfer_guard account_id amount
                  recipient_account_id (accounts s) account Hacc)
        as (h' & Ht).
      rewrite Ht.
      destruct (Account.guard account amount);
        eexists; cbn [fst transactions set_transactions set_accounts];
        (split; [apply get_setdefault_append_same|]);
        (split; [intros k Hk; now apply get_setdefault_append_other|]);
        split; reflexivity.
  - intros -> Hmem. cbn [String.eqb Ascii.eqb Bool.eqb].
    now rewrite Hmem.
Qed.

(** C5 on the example bank: the administrator transfers 30 from the savings
    account to the checking account. *)
Lemma C5_witness :
  exists r : Transaction,
    Dict.get "2"
      (transactions
         (fst (perform_operations (B := Sample.builtins) Examples.admin_bank
                 "2" "3" "1" (Some (float_of_int 30)))))
    = Some ([] ++ [r])%list
    /\ transaction_type_of r = "transfer"
    /\ transaction_status_of r = "COMPLETE".
Proof.
  destruct (proj1
              (C5_one_record_per_operation Sample.builtins Examples.admin_bank
                 "2" "3" "1" "admin" (float_of_int 30) Examples.savings_2
                 eq_refl eq_refl eq_refl)
              (or_intror (or_intror (conj eq_refl eq_refl))))
    as (r & Hlist & _ & Hty & Hst).
  exists r. exact (conj Hlist (conj Hty Hst)).
Defined.

(** C5 fails as stated.  The administrator, who may act on every account,
    asks for a transfer of 5 from account 1 to an account 9 that does not
    exist: the operation fails with a notice, and no record is appended to the
    list of account 1. *)
Lemma C5_counterexample :
  current_user Examples.admin_bank = Some "admin"
  /\ Dict.get "1" (accounts Examples.admin_bank) = Some Examples.checking_1
  /\ not_authorized Examples.admin_bank "admin" Examples.checking_1
     = Some false
  /\ perform_operations (B := Sample.builtins) Examples.admin_bank "1" "3" "9"
       (Some (float_of_int 5))
     = (Examples.admin_bank, Printed ["Recipient account ID not found."])
  /\ ~ (exists r : Transaction,
          Dict.get "1"
            (transactions
               (fst (perform_operations (B := Sample.builtins)
                       Examples.admin_bank "1" "3" "9"
                       (Some (float_of_int 5)))))
          = Some (Dict.get_default "1" [] (transactions Examples.admin_bank)
                  ++ [r])%list).
Proof.
  split; [reflexivity|]. split; [reflexivity|]. split; [reflexivity|].
  split; [reflexivity|].
  intros [r Hr]. discriminate Hr.
Qed.

(** ** main.py: no aborted deposit *)

Section AllValues.
Context {V : Type} (Q : V -> bool).

Lemma all_values_set (k : string) (v : V) (d : Dict.t V) :
  forallb (fun item => Q (snd item)) d = true ->
  Q v = true ->
  forallb (fun item => Q (snd item)) (Dict.set k v d) = true.
Proof.
  intros Hd Hv. induction d as [|[k' v'] d IH]; simpl in *.
  - now rewrite Hv.
  - apply andb_true_iff in Hd. destruct Hd as [H1 H2].
    destruct (String.eqb k' k); simpl.
    + now rewrite Hv, H2.
    + now rewrite H1, IH.
Qed.

Lemma all_values_del (k : string) (d : Dict.t V) :
  forallb (fun item => Q (snd item)) d = true ->
  forallb (fun item => Q (snd item)) (Dict.del k d) = true.
Proof.
  intros Hd. induction d as [|[k' v'] d IH]; simpl in *; trivial.
  apply andb_true_iff in Hd. destruct Hd as [H1 H2].
  destruct (String.eqb k' k); simpl; auto.
  now rewrite H1, IH.
Qed.

Lemma all_values_get (k : string) (v : V) (d : Dict.t V) :
  forallb (fun item => Q (snd item)) d = true ->
  Dict.get k d = Some v -> Q v = true.
Proof.
  intros Hd. induction d as [|[k' v'] d IH]; simpl in *; [discriminate|].
  apply andb_true_iff in Hd. destruct Hd as [H1 H2].
  destruct (String.eqb k' k); auto. now intros [= <-].
Qed.

End AllValues.

(** A record that is not an aborted deposit can be appended. *)
Lemma no_aborted_deposit_append (s : BankSystem) (account_id : string)
    (r : Transaction) (a : Dict.t Account.t) :
  no_aborted_deposit s = true ->
  aborted_deposit r = false ->
  no_aborted_deposit
    (set_transactions
       (setdefault_append account_id r (transactions (set_accounts a s)))
       (set_accounts a s)) = true.
Proof.
  unfold no_aborted_deposit. cbn [transactions set_transactions set_accounts].
  intros Hs Hr. unfold setdefault_append.
  apply all_values_set with (Q := forallb (fun r => negb (aborted_deposit r)));
    [exact Hs|].
  rewrite forallb_app. simpl. rewrite Hr. simpl. rewrite andb_true_r.
  unfold Dict.get_default.
  destruct (Dict.get account_id (transactions s)) as [history|] eqn:Hget;
    [|reflexivity].
  exact (all_values_get _ _ _ _ Hs Hget).
Qed.

(** No call of [perform_operations] brings an aborted deposit: the record of a
    deposit is written with [COMPLETE], as [deposit] returns [True]. *)
Lemma perform_operations_no_aborted_deposit (B : PyBuiltins) (s : BankSystem)
    (account_id choice recipient_account_id : string) (amount : option float) :
  no_aborted_deposit s = true ->
  no_aborted_deposit
    (fst (perform_operations s account_id choice recipient_account_id amount))
  = true.
Proof.
  intros Hs. unfold perform_operations.
  destruct (current_user s) as [user|]; [|exact Hs].
  destruct (Dict.get account_id (accounts s)) as [account|]; [|exact Hs].
  destruct (not_authorized s user account) as [[|]|]; try exact Hs.
  assert (Hop : forall tid,
    no_aborted_deposit
      (fst (operations s account_id tid account choice recipient_account_id
              amount)) = true).
  { intros tid. unfold operations.
    destruct (String.eqb choice "1").
    - destruct amount as [x|]; [|exact Hs].
      cbn [Account.deposit fst].
      now apply no_aborted_deposit_append.
    - destruct (String.eqb choice "2").
      + destruct amount as [x|]; [|exact Hs].
        destruct (Account.withdrawal account x) as [account' [|]];
          now apply no_aborted_deposit_append.
      + destruct (String.eqb choice "3"); [|exact Hs].
        destruct (negb (Dict.mem recipient_account_id (accounts s)));
          [exact Hs|].
        destruct amount as [x|]; [|exact Hs].
        destruct (Account.transfer account_id x recipient_account_id
                    (accounts s)) as [[h' [|]]|];
          try exact Hs; now apply no_aborted_deposit_append. }
  destruct account; apply Hop.
Qed.

(** Every call keeps the bank free of aborted deposits. *)
Lemma step_no_aborted_deposit (B : PyBuiltins) (w : BankSystem * Files)
    (c : call) :
  no_aborted_deposit (fst w) = true ->
  no_aborted_deposit (fst (step w c)) = true.
Proof.
  destruct w as [s fs]. cbn [fst]. intros Hs.
  destruct c; cbn [step fst].
  - unfold login. destruct (Dict.get _ _); [|exact Hs].
    destruct (String.eqb _ _); exact Hs.
  - unfold admin_login. destruct (String.eqb _ _); exact Hs.
  - exact Hs.
  - exact Hs.
  - unfold create_account. destruct (find_customer _ _); [|exact Hs].
    destruct (_ || _); [exact Hs|].
    destruct (String.eqb account_type "Savings"); [exact Hs|].
    destruct (String.eqb account_type "Checking"); exact Hs.
  - unfold view_transactions.
    destruct (current_user s); [|exact Hs].
    destruct (Dict.get _ (accounts s)); [|exact Hs].
    destruct (not_authorized _ _ _) as [[|]|]; try exact Hs.
    destruct (Dict.get _ (transactions s)); exact Hs.
  - now apply perform_operations_no_aborted_deposit.
  - unfold check_balance.
    destruct (current_user s); [|exact Hs].
    destruct (Dict.get _ (accounts s)); [|exact Hs].
    destruct (not_authorized _ _ _) as [[|]|]; exact Hs.
  - unfold delete_account.
    destruct (negb (Dict.mem account_id (accounts s))); [exact Hs|].
    cbn [fst set_accounts transactions].
    destruct (Dict.mem account_id (transactions s)); [|exact Hs].
    unfold no_aborted_deposit in *. cbn [transactions set_transactions].
    now apply all_values_del
      with (Q := forallb (fun r => negb (aborted_deposit r))).
  - exact Hs.
Qed.

(** C10. [deposit] returns [True] whatever the account and the amount, so the
    branch that records an aborted deposit is never taken: a bank without an
    aborted deposit, the new bank in particular, has none after any sequence
    of calls. *)
Theorem C10_no_aborted_deposit :
  forall (B : PyBuiltins),
    (forall (self : Account.t) (amount : float),
        snd (Account.deposit self amount) = true)
    /\ no_aborted_deposit BankSystem_init = true
    /\ (forall (calls : list call) (w : BankSystem * Files),
        no_aborted_deposit (fst w) = true ->
        no_aborted_deposit (fst (run w calls)) = true).
Proof.
  intros B. split; [reflexivity|]. split; [reflexivity|].
  unfold run. induction calls as [|c calls IH]; intros w Hw; simpl.
  - exact Hw.
  - apply IH. now apply step_no_aborted_deposit.
Qed.

(** What the example session leaves in the bank. *)
Example session_result :
  fst (run (B := Sample.builtins) (BankSystem_init, Examples.no_files)
         Examples.session)
  = Examples.after_session.
Proof. vm_compute. reflexivity. Qed.

(** C10 on the example session, from the new bank. *)
Lemma C10_witness :
  no_aborted_deposit
    (fst (run (B := Sample.builtins) (BankSystem_init, Examples.no_files)
            Examples.session)) = true.
Proof.
  destruct (C10_no_aborted_deposit Sample.builtins) as (_ & Hinit & Hrun).
  exact (Hrun Examples.session (BankSystem_init, Examples.no_files) Hinit).
Defined.

(** ** Lines and fields *)

Module PyStrFacts.
Import PyStr.

Lemma append_assoc (a b c : string) : (a ++ b) ++ c = a ++ (b ++ c).
Proof. induction a as [|x a IH]; simpl; [reflexivity | now rewrite IH]. Qed.

Lemma all_chars_app (p : ascii -> bool) (a b : string) :
  all_chars p (a ++ b) = all_chars p a && all_chars p b.
Proof.
  induction a as [|x a IH]; simpl; [reflexivity|].
  now rewrite IH, andb_assoc.
Qed.

Lemma all_chars_weaken (p q : ascii -> bool) (s : string) :
  (forall c, p c = true -> q c = true) ->
  all_chars p s = true -> all_chars q s = true.
Proof.
  intros Hpq. induction s as [|x s IH]; simpl; [reflexivity|].
  intros H. apply andb_true_iff in H. destruct H as [H1 H2].
  now rewrite (Hpq _ H1), IH.
Qed.

(** *** split *)

Lemma split_plain (s : string) :
  field_ok s = true -> split comma s = [s].
Proof.
  unfold field_ok. induction s as [|x s IH]; simpl; [reflexivity|].
  intros H. apply andb_true_iff in H. destruct H as [Hx Hs].
  unfold plain_char in Hx.
  destruct (Ascii.eqb x comma); [discriminate|].
  now rewrite (IH Hs).
Qed.

Lemma split_field_comma (s rest : string) :
  field_ok s = true ->
  split comma (s ++ String comma rest) = s :: split comma rest.
Proof.
  unfold field_ok. induction s as [|x s IH]; simpl.
  - reflexivity.
  - intros H. apply andb_true_iff in H. destruct H as [Hx Hs].
    unfold plain_char in Hx.
    destruct (Ascii.eqb x comma); [discriminate|].
    now rewrite (IH Hs).
Qed.

(** Splitting what was joined gives the fields back. *)
Lemma split_concat (fs : list string) :
  fs <> [] ->
  forallb field_ok fs = true ->
  split comma (String.concat "," fs) = fs.
Proof.
  induction fs as [|f fs IH]; [congruence|].
  intros _ H. simpl in H. apply andb_true_iff in H. destruct H as [Hf Hfs].
  destruct fs as [|g fs].
  - simpl. now apply split_plain.
  - change (String.concat "," (f :: g :: fs))
      with (f ++ String comma (String.concat "," (g :: fs))).
    rewrite split_field_comma by assumption.
    f_equal. apply IH; [discriminate | assumption].
Qed.

(** *** strip *)

Lemma rstrip_keep (s : string) : no_trail_space s = true -> rstrip s = s.
Proof.
  induction s as [|x s IH]; [reflexivity|].
  destruct s as [|y s].
  - simpl. now destruct (is_space x).
  - intros H. change (no_trail_space (String y s) = true) in H.
    specialize (IH H).
    change (rstrip (String x (String y s)))
      with (match rstrip (String y s) with
            | EmptyString =>
                if is_space x then EmptyString else String x EmptyString
            | r => String x r
            end).
    now rewrite IH.
Qed.

Lemma rstrip_newline (s : string) : rstrip (s ++ nl) = rstrip s.
Proof.
  induction s as [|x s IH]; [reflexivity|].
  simpl. now rewrite IH.
Qed.

(** A line without white space at its ends is what [strip] leaves of it with
    its ["\n"]. *)
Lemma strip_line (s : string) :
  no_lead_space s = true -> no_trail_space s = true -> strip (s ++ nl) = s.
Proof.
  intros Hl Ht. unfold strip. destruct s as [|x s]; [reflexivity|].
  simpl in Hl. apply negb_true_iff in Hl.
  change (lstrip (String x s ++ nl))
    with (if is_space x then lstrip (s ++ nl) else String x (s ++ nl)).
  rewrite Hl.
  change (String x (s ++ nl)) with (String x s ++ nl).
  rewrite rstrip_newline. now apply rstrip_keep.
Qed.

Lemma no_lead_space_concat (f : string) (fs : list string) :
  no_lead_space f = true ->
  no_lead_space (String.concat "," (f :: fs)) = true.
Proof.
  intros Hf. destruct fs as [|g fs]; [exact Hf|].
  change (String.concat "," (f :: g :: fs))
    with (f ++ String comma (String.concat "," (g :: fs))).
  destruct f; [reflexivity | exact Hf].
Qed.

Lemma no_trail_space_app (a b : string) :
  b <> EmptyString -> no_trail_space (a ++ b) = no_trail_space b.
Proof.
  intros Hb. induction a as [|x a IH]; [reflexivity|].
  simpl. rewrite IH.
  destruct (a ++ b) eqn:E; [|reflexivity].
  destruct a; simpl in E; [congruence | discriminate].
Qed.

Lemma no_trail_space_concat (fs : list string) :
  no_trail_space (last fs EmptyString) = true ->
  no_trail_space (String.concat "," fs) = true.
Proof.
  induction fs as [|f fs IH]; [reflexivity|].
  destruct fs as [|g fs]; [trivial|].
  intros H. change (last (f :: g :: fs) EmptyString)
              with (last (g :: fs) EmptyString) in H.
  specialize (IH H).
  change (String.concat "," (f :: g :: fs))
    with (f ++ String comma (String.concat "," (g :: fs))).
  rewrite no_trail_space_app by discriminate.
  destruct (String.concat "," (g :: fs)) eqn:E; [reflexivity | exact IH].
Qed.

(** Reading a line that was written gives its fields back. *)
Lemma decode_line (fs : list string) :
  fs <> [] ->
  forallb field_ok fs = true ->
  no_lead_space (hd EmptyString fs) = true ->
  no_trail_space (last fs EmptyString) = true ->
  split comma (strip (fields_line fs)) = fs.
Proof.
  intros Hne Hok Hl Ht. unfold fields_line.
  rewrite strip_line.
  - now apply split_concat.
  - destruct fs as [|f fs]; [congruence|]. now apply no_lead_space_concat.
  - now apply no_trail_space_concat.
Qed.

(** *** Lines *)

Lemma lines_line (l rest : string) :
  is_line l = true -> lines (l ++ rest) = l :: lines rest.
Proof.
  induction l as [|x l IH]; [discriminate|].
  destruct l as [|y l].
  - simpl. intros H. now rewrite H.
  - intros H.
    change (is_line (String x (String y l)))
      with (line_char x && is_line (String y l)) in H.
    apply andb_true_iff in H. destruct H as [Hx Hl].
    unfold line_char in Hx. apply andb_true_iff in Hx. destruct Hx as [Hx _].
    apply negb_true_iff in Hx.
    change (lines (String x (String y l) ++ rest))
      with (if Ascii.eqb x LF
            then String x EmptyString :: lines (String y l ++ rest)
            else match lines (String y l ++ rest) with
                 | [] => [String x EmptyString]
                 | l0 :: ls => String x l0 :: ls
                 end).
    now rewrite Hx, (IH Hl).
Qed.

Lemma lines_cat (ls : list string) :
  forallb is_line ls = true -> lines (cat ls) = ls.
Proof.
  induction ls as [|l ls IH]; [reflexivity|].
  simpl. intros H. apply andb_true_iff in H. destruct H as [Hl Hls].
  now rewrite lines_line, IH.
Qed.

Lemma universal_newlines_keep (s : string) :
  all_chars (fun c => negb (Ascii.eqb c CR)) s = true ->
  universal_newlines s = s.
Proof.
  induction s as [|x s IH]; [reflexivity|].
  simpl. intros H. apply andb_true_iff in H. destruct H as [Hx Hs].
  apply negb_true_iff in Hx. now rewrite Hx, IH.
Qed.

Lemma is_line_no_cr (l : string) :
  is_line l = true -> all_chars (fun c => negb (Ascii.eqb c CR)) l = true.
Proof.
  induction l as [|x l IH]; [discriminate|].
  destruct l as [|y l].
  - simpl. intros H. apply Ascii.eqb_eq in H. now subst x.
  - intros H.
    change (is_line (String x (String y l)))
      with (line_char x && is_line (String y l)) in H.
    apply andb_true_iff in H. destruct H as [Hx Hl].
    unfold line_char in Hx. apply andb_true_iff in Hx. destruct Hx as [_ Hx].
    change (all_chars (fun c => negb (Ascii.eqb c CR)) (String x (String y l)))
      with (negb (Ascii.eqb x CR)
            && all_chars (fun c => negb (Ascii.eqb c CR)) (String y l)).
    now rewrite Hx, (IH Hl).
Qed.

Lemma cat_no_cr (ls : list string) :
  forallb is_line ls = true ->
  all_chars (fun c => negb (Ascii.eqb c CR)) (cat ls) = true.
Proof.
  induction ls as [|l ls IH]; [reflexivity|].
  simpl. intros H. apply andb_true_iff in H. destruct H as [Hl Hls].
  now rewrite all_chars_app, is_line_no_cr, IH.
Qed.

(** The lines read from a file are the lines written to it. *)
Lemma file_lines_cat (ls : list string) :
  forallb is_line ls = true -> file_lines (cat ls) = ls.
Proof.
  intros H. unfold file_lines.
  rewrite universal_newlines_keep by now apply cat_no_cr.
  now apply lines_cat.
Qed.

Lemma is_line_newline (s : string) :
  all_chars line_char s = true -> is_line (s ++ nl) = true.
Proof.
  induction s as [|x s IH]; [reflexivity|].
  simpl. intros H. apply andb_true_iff in H. destruct H as [Hx Hs].
  rewrite Hx, (IH Hs).
  destruct (s ++ nl) eqn:E; [|reflexivity].
  destruct s; discriminate.
Qed.

Lemma plain_is_line_char (c : ascii) : plain_char c = true -> line_char c = true.
Proof.
  unfold plain_char, line_char. intros H.
  apply andb_true_iff in H. destruct H as [H HCR].
  apply andb_true_iff in H. destruct H as [_ HLF].
  now rewrite HLF, HCR.
Qed.

Lemma concat_line_chars (fs : list string) :
  forallb field_ok fs = true ->
  all_chars line_char (String.concat "," fs) = true.
Proof.
  induction fs as [|f fs IH]; [reflexivity|].
  simpl. intros H. apply andb_true_iff in H. destruct H as [Hf Hfs].
  pose proof (all_chars_weaken _ _ f plain_is_line_char Hf) as Hf'.
  destruct fs as [|g fs]; [exact Hf'|].
  rewrite all_chars_app, Hf'. simpl. now apply IH.
Qed.

Lemma is_line_fields_line (fs : list string) :
  forallb field_ok fs = true -> is_line (fields_line fs) = true.
Proof.
  intros H. unfold fields_line. apply is_line_newline.
  now apply concat_line_chars.
Qed.

Lemma cat_app (l1 l2 : list string) : cat (l1 ++ l2) = cat l1 ++ cat l2.
Proof.
  induction l1 as [|l l1 IH]; [reflexivity|].
  simpl. now rewrite IH, append_assoc.
Qed.

(** Texts written group by group are the text of all the lines. *)
Lemma cat_concat (lss : list (list string)) :
  cat (map cat lss) = cat (List.concat lss).
Proof.
  induction lss as [|ls lss IH]; [reflexivity|].
  simpl. now rewrite cat_app, IH.
Qed.

End PyStrFacts.

(** ** main.py: load_data and save_data *)

Ltac split_andb :=
  repeat match goal with
         | H : _ && _ = true |- _ =>
             apply andb_true_iff in H; destruct H
         end.

Lemma float_eqb_eq (x y : float) : float_eqb x y = true -> x = y.
Proof.
  destruct x as [s|s| |s m e], y as [s'|s'| |s' m' e']; simpl;
    try discriminate; try reflexivity; intros H.
  - now rewrite (eqb_prop _ _ H).
  - now rewrite (eqb_prop _ _ H).
  - split_andb.
    rewrite (eqb_prop s s') by assumption.
    rewrite (proj1 (Pos.eqb_eq m m')) by assumption.
    now rewrite (proj1 (Z.eqb_eq e e')) by assumption.
Qed.



Ltac andb_last H H' := apply andb_true_iff in H; destruct H as [H H'].

Ltac fields_ok :=
  cbn [forallb hd last];
  repeat (apply andb_true_intro; split); trivial.

Section RoundTrip.
Context {B : PyBuiltins}.
Import PyStr PyStrFacts.

Lemma int_text_ok_spec (n : Z) :
  int_text_ok n = true ->
  field_ok (str_int n) = true /\ no_trail_space (str_int n) = true
  /\ to_int (str_int n) = Ok n.
Proof.
  unfold int_text_ok, to_int. intros H. split_andb.
  destruct (int_of_str (str_int n)) as [k|]; [|discriminate].
  repeat split; trivial. f_equal. now apply Z.eqb_eq.
Qed.

Lemma float_text_ok_spec (x : float) :
  float_text_ok x = true ->
  field_ok (str_float x) = true /\ no_trail_space (str_float x) = true
  /\ to_float (str_float x) = Ok x.
Proof.
  unfold float_text_ok, to_float. intros H. split_andb.
  destruct (float_of_str (str_float x)) as [y|]; [|discriminate].
  repeat split; trivial. f_equal. now apply float_eqb_eq.
Qed.

(** The f-strings of [save_data] join fields with commas. *)
Lemma customer_line_fields (c : Customer.t) :
  customer_line c
  = fields_line [Customer.customer_id c; Customer.name c;
                 str_int (Customer.age c); Customer.login c;
                 Customer.password c].
Proof.
  unfold customer_line, fields_line. simpl.
  repeat (rewrite append_assoc; simpl). reflexivity.
Qed.

Lemma account_line_fields (a : Account.t) :
  account_line a
  = fields_line
      match a with
      | Account.SavingsAccount i c b m =>
          [i; c; "Savings"; str_float b; str_int m]
      | Account.CheckingAccount i c b _ => [i; c; "Checking"; str_float b]
      end.
Proof.
  destruct a; unfold account_line, fields_line; simpl;
    repeat (rewrite append_assoc; simpl); reflexivity.
Qed.

Lemma transaction_line_fields (account_id : string) (r : Transaction) :
  transaction_line account_id r
  = fields_line
      match r with
      | Record4 t x ty st => [account_id; t; str_float x; ty; st]
      | Record5 t rcp x ty st => [account_id; t; rcp; str_float x; ty; st]
      end.
Proof.
  destruct r; unfold transaction_line, fields_line; simpl;
    repeat (rewrite append_assoc; simpl); reflexivity.
Qed.

(** The loop body reads back the line of a customer. *)
Lemma load_customer_line (key : string) (c : Customer.t)
    (acc : Dict.t Customer.t) :
  customer_ok (key, c) = true ->
  load_customer (customer_line c) acc = Ok (Dict.set key c acc).
Proof.
  unfold customer_ok. intros H.
  andb_last H Htrail. andb_last H Hpw. andb_last H Hlogin.
  andb_last H Hage. andb_last H Hname. andb_last H Hid. andb_last H Hlead.
  apply String.eqb_eq in H. subst key.
  destruct (int_text_ok_spec _ Hage) as (Hage1 & _ & Hage2).
  rewrite customer_line_fields. unfold load_customer.
  rewrite decode_line; [|discriminate|fields_ok..].
  rewrite Hage2. now destruct c.
Qed.

(** The loop body reads back the line of an account. *)
Lemma load_account_line (key : string) (a : Account.t)
    (acc : Dict.t Account.t) :
  account_ok (key, a) = true ->
  load_account (account_line a) acc = Ok (Dict.set key a acc).
Proof.
  unfold account_ok. intros H.
  andb_last H Hkind. andb_last H Hbal. andb_last H Hcust.
  andb_last H Hid. andb_last H Hlead.
  apply String.eqb_eq in H. subst key.
  destruct (float_text_ok_spec _ Hbal) as (Hbal1 & Hbal2 & Hbal3).
  rewrite account_line_fields. unfold load_account.
  destruct a as [i c b m|i c b l]; cbn [Account.account_id Account.customer_id
                                         Account.balance] in *.
  - destruct (int_text_ok_spec _ Hkind) as (Hm1 & Hm2 & Hm3).
    rewrite decode_line; [|discriminate|fields_ok..].
    now rewrite Hbal3, Hm3.
  - apply float_eqb_eq in Hkind. subst l.
    rewrite decode_line; [|discriminate|fields_ok..].
    now rewrite Hbal3.
Qed.

(** The loop body reads back the line of a transaction. *)
Lemma load_transaction_line (key : string) (r : Transaction)
    (acc : Dict.t (list Transaction)) :
  no_lead_space key = true -> field_ok key = true ->
  transaction_ok r = true ->
  load_transaction (transaction_line key r) acc
  = Ok (setdefault_append key r acc).
Proof.
  intros Hlead Hkey H. rewrite transaction_line_fields.
  unfold load_transaction, transaction_ok in *.
  destruct r as [t x ty st|t rcp x ty st].
  - andb_last H Htrail. andb_last H Hst. andb_last H Hty. andb_last H Hx.
    destruct (float_text_ok_spec _ Hx) as (Hx1 & _ & Hx3).
    rewrite decode_line; [|discriminate|fields_ok..].
    now rewrite Hx3.
  - andb_last H Htrail. andb_last H Hst. andb_last H Hty. andb_last H Hx.
    andb_last H Hrcp.
    destruct (float_text_ok_spec _ Hx) as (Hx1 & _ & Hx3).
    rewrite decode_line; [|discriminate|fields_ok..].
    now rewrite Hx3.
Qed.

Lemma nodup_keys_fresh {V : Type} (acc rest : Dict.t V) (k : string) (v : V) :
  Dict.nodup_keys (acc ++ (k, v) :: rest)%list = true -> Dict.mem k acc = false.
Proof.
  induction acc as [|[k' v'] acc IH]; [reflexivity|].
  simpl. intros H. andb_last H Hnd.
  unfold Dict.mem. simpl.
  destruct (String.eqb_spec k' k) as [->|Hne].
  - rewrite mem_app in H. unfold Dict.mem at 2 in H. simpl in H.
    rewrite String.eqb_refl, orb_true_r in H. discriminate.
  - apply (IH Hnd).
Qed.

Lemma for_lines_app {A : Type} (body : string -> A -> result A)
    (l1 l2 : list string) (a : A) :
  for_lines body (l1 ++ l2)%list a
  = bind (for_lines body l1 a) (for_lines body l2).
Proof.
  revert a. induction l1 as [|l l1 IH]; intros a; simpl; [reflexivity|].
  destruct (body l a) as [a'|e]; simpl; [apply IH | reflexivity].
Qed.

(** A loop that stores one item for each line rebuilds a dictionary from the
    lines of its values, in their order. *)
Lemma load_items {V : Type} (body : string -> Dict.t V -> result (Dict.t V))
    (line : V -> string) (ok : string * V -> bool) :
  (forall key v acc,
      ok (key, v) = true -> body (line v) acc = Ok (Dict.set key v acc)) ->
  forall items acc : Dict.t V,
    forallb ok items = true ->
    Dict.nodup_keys (acc ++ items)%list = true ->
    for_lines body (map line (Dict.values items)) acc
    = Ok (acc ++ items)%list.
Proof.
  intros Hbody. induction items as [|[k v] items IH]; intros acc Hok Hnd.
  - simpl. now rewrite app_nil_r.
  - simpl in Hok. andb_last Hok Hrest.
    simpl. rewrite (Hbody k v acc Hok). cbn [bind].
    rewrite set_fresh by exact (nodup_keys_fresh _ _ _ _ Hnd).
    rewrite IH; [now rewrite <- app_assoc | assumption |].
    now rewrite <- app_assoc.
Qed.

(** The lines of one account after the first extend its list. *)
Lemma load_history_rest (key : string) (history pre : list Transaction)
    (acc : Dict.t (list Transaction)) :
  no_lead_space key = true -> field_ok key = true ->
  forallb transaction_ok history = true ->
  Dict.mem key acc = false ->
  for_lines load_transaction (map (transaction_line key) history)
    (acc ++ [(key, pre)])%list
  = Ok (acc ++ [(key, pre ++ history)])%list.
Proof.
  intros Hlead Hkey Hok Hfresh. revert pre.
  induction history as [|r history IH]; intros pre.
  - simpl. now rewrite app_nil_r.
  - simpl in Hok. andb_last Hok Hrest.
    simpl. rewrite load_transaction_line by assumption. cbn [bind].
    unfold setdefault_append, Dict.get_default.
    rewrite get_last, set_last by assumption.
    rewrite (IH Hrest). now rewrite <- app_assoc.
Qed.

(** The lines of one account give its list, at the end of the dictionary. *)
Lemma load_history (key : string) (history : list Transaction)
    (acc : Dict.t (list Transaction)) :
  history_ok (key, history) = true ->
  Dict.mem key acc = false ->
  for_lines load_transaction (map (transaction_line key) history) acc
  = Ok (acc ++ [(key, history)])%list.
Proof.
  unfold history_ok. intros H Hfresh.
  andb_last H Hok. andb_last H Hlen. andb_last H Hkey.
  destruct history as [|r history]; [discriminate|].
  simpl in Hok. andb_last Hok Hrest.
  simpl. rewrite load_transaction_line by assumption. cbn [bind].
  unfold setdefault_append, Dict.get_default.
  rewrite (proj1 (mem_false_get _ _) Hfresh).
  rewrite set_fresh by assumption.
  exact (load_history_rest key history [r] acc H Hkey Hrest Hfresh).
Qed.

Lemma load_histories (items acc : Dict.t (list Transaction)) :
  forallb history_ok items = true ->
  Dict.nodup_keys (acc ++ items)%list = true ->
  for_lines load_transaction
    (List.concat
       (map (fun item => map (transaction_line (fst item)) (snd item)) items))
    acc
  = Ok (acc ++ items)%list.
Proof.
  revert acc. induction items as [|[k history] items IH]; intros acc Hok Hnd.
  - simpl. now rewrite app_nil_r.
  - simpl in Hok. andb_last Hok Hrest.
    simpl. rewrite for_lines_app.
    rewrite (load_history k history acc Hok
               (nodup_keys_fresh _ _ _ _ Hnd)).
    cbn [bind].
    rewrite IH; [now rewrite <- app_assoc | assumption |].
    now rewrite <- app_assoc.
Qed.

(** What [save_data] writes is made of lines. *)
Lemma customer_lines_ok (items : Dict.t Customer.t) :
  forallb customer_ok items = true ->
  forallb is_line (map customer_line (Dict.values items)) = true.
Proof.
  induction items as [|[k c] items IH]; [reflexivity|].
  simpl. intros H. andb_last H Hrest. rewrite (IH Hrest), andb_true_r.
  unfold customer_ok in H.
  andb_last H Htrail. andb_last H Hpw. andb_last H Hlogin.
  andb_last H Hage. andb_last H Hname. andb_last H Hid.
  destruct (int_text_ok_spec _ Hage) as (Hage1 & _).
  rewrite customer_line_fields. apply is_line_fields_line. fields_ok.
Qed.

Lemma account_lines_ok (items : Dict.t Account.t) :
  forallb account_ok items = true ->
  forallb is_line (map account_line (Dict.values items)) = true.
Proof.
  induction items as [|[k a] items IH]; [reflexivity|].
  simpl. intros H. andb_last H Hrest. rewrite (IH Hrest), andb_true_r.
  unfold account_ok in H.
  andb_last H Hkind. andb_last H Hbal. andb_last H Hcust. andb_last H Hid.
  destruct (float_text_ok_spec _ Hbal) as (Hbal1 & _).
  rewrite account_line_fields. apply is_line_fields_line.
  destruct a as [i c b m|i c b l]; cbn [Account.account_id Account.customer_id
                                         Account.balance] in *.
  - destruct (int_text_ok_spec _ Hkind) as (Hm1 & _). fields_ok.
  - fields_ok.
Qed.

Lemma transaction_lines_ok (key : string) (history : list Transaction) :
  field_ok key = true ->
  forallb transaction_ok history = true ->
  forallb is_line (map (transaction_line key) history) = true.
Proof.
  intros Hkey. induction history as [|r history IH]; [reflexivity|].
  simpl. intros H. andb_last H Hrest. rewrite (IH Hrest), andb_true_r.
  rewrite transaction_line_fields. apply is_line_fields_line.
  unfold transaction_ok in H. destruct r as [t x ty st|t rcp x ty st].
  - andb_last H Htrail. andb_last H Hst. andb_last H Hty. andb_last H Hx.
    destruct (float_text_ok_spec _ Hx) as (Hx1 & _). fields_ok.
  - andb_last H Htrail. andb_last H Hst. andb_last H Hty. andb_last H Hx.
    andb_last H Hrcp.
    destruct (float_text_ok_spec _ Hx) as (Hx1 & _). fields_ok.
Qed.

Lemma history_lines_ok (items : Dict.t (list Transaction)) :
  forallb history_ok items = true ->
  forallb is_line
    (List.concat
       (map (fun item => map (transaction_line (fst item)) (snd item)) items))
  = true.
Proof.
  induction items as [|[k history] items IH]; [reflexivity|].
  simpl. intros H. andb_last H Hrest.
  rewrite forallb_app, (IH Hrest), andb_true_r.
  unfold history_ok in H.
  andb_last H Hok. andb_last H Hlen. andb_last H Hkey.
  now apply transaction_lines_ok.
Qed.

End RoundTrip.

(** C6, as the code has it.  For a store the file format can hold (no comma
    and no line break inside a text, no white space where a line starts and
    ends, numbers whose text converts back, every checking credit limit at its
    default 0, no empty list of transactions, every object under its own
    login or id) [save_data] followed by [load_data] into a new bank gives
    the same customers, the same accounts and the same lists of transactions,
    all in the same order. *)
Theorem C6_save_then_load :
  forall (B : PyBuiltins) (s : BankSystem),
    store_ok s = true ->
    load_data (save_data s) BankSystem_init
    = Ok (mkBank (customers s) (accounts s) (transactions s) None "admin").
Proof.
  intros B s H. unfold store_ok in H.
  andb_last H Hhist. andb_last H Hhist_keys. andb_last H Hacc.
  andb_last H Hacc_keys. andb_last H Hcust.
  unfold load_data, save_data.
  cbn [customers_txt accounts_txt accountsTransactions_txt open_r bind
       BankSystem_init customers accounts transactions current_user
       admin_password].
  rewrite PyStrFacts.file_lines_cat by now apply customer_lines_ok.
  rewrite (load_items load_customer customer_line customer_ok
             load_customer_line (customers s) []) by assumption.
  cbn [bind app].
  rewrite PyStrFacts.file_lines_cat by now apply account_lines_ok.
  rewrite (load_items load_account account_line account_ok
             load_account_line (accounts s) []) by assumption.
  cbn [bind app].
  replace (map transactions_lines (transactions s))
    with (map PyStr.cat
            (map (fun item => map (transaction_line (fst item)) (snd item))
               (transactions s)))
    by now rewrite map_map.
  rewrite PyStrFacts.cat_concat.
  rewrite PyStrFacts.file_lines_cat by now apply history_lines_ok.
  rewrite (load_histories (transactions s) []) by assumption.
  reflexivity.
Qed.

(** C6 on the bank the example session leaves. *)
Lemma C6_witness :
  load_data (B := Sample.builtins)
    (save_data (B := Sample.builtins) Examples.after_session) BankSystem_init
  = Ok Examples.after_session.
Proof.
  apply (C6_save_then_load Sample.builtins Examples.after_session).
  vm_compute. reflexivity.
Defined.

(** The three files [save_data] writes for that bank. *)
Example saved_files :
  save_data (B := Sample.builtins) Examples.after_session
  = mkFiles
      (Some ("1,Ann,30,ann,h6" ++ PyStr.nl))
      (Some ("1,1,Checking,50.0" ++ PyStr.nl))
      (Some ("1,1,100.0,deposit,COMPLETE" ++ PyStr.nl
             ++ "1,2,120.0,withdrawal,ABORTED" ++ PyStr.nl
             ++ "1,3,50.0,withdrawal,COMPLETE" ++ PyStr.nl)).
Proof. vm_compute. reflexivity. Qed.

(** C6 fails as stated.  A name entered with a comma is written as two
    fields, and [load_data] raises [ValueError] on the line of six fields;
    a credit limit is not written at all, and [load_data] gives the account
    the default 0. *)
Lemma C6_counterexample :
  fst (run (B := Sample.builtins) (BankSystem_init, Examples.no_files)
         Examples.comma_session) = Examples.comma_bank
  /\ customers_txt (save_data (B := Sample.builtins) Examples.comma_bank)
     = Some ("1,Doe, John,40,jdoe,h6" ++ PyStr.nl)
  /\ load_data (B := Sample.builtins)
       (save_data (B := Sample.builtins) Examples.comma_bank) BankSystem_init
     = Error "ValueError"
  /\ load_data (B := Sample.builtins)
       (save_data (B := Sample.builtins) Examples.credit_bank) BankSystem_init
     = Ok (mkBank []
             [("1", Account.CheckingAccount "1" "7" (float_of_int 100)
                      (float_of_int 0))]
             [] None "admin")
  /\ float_of_int 0 <> float_of_int 500.
Proof.
  split; [vm_compute; reflexivity|].
  split; [vm_compute; reflexivity|].
  split; [vm_compute; reflexivity|].
  split; [vm_compute; reflexivity|].
  discriminate.
Qed.

(** * Further properties of the two files *)

(** ** Dictionaries, continued *)

Section DictMore.
Context {V : Type}.
Implicit Types (d : Dict.t V) (k : string) (v : V).

Lemma get_del_same k d : Dict.get k (Dict.del k d) = None.
Proof.
  induction d as [|[k' v'] d IH]; simpl; trivial.
  destruct (String.eqb k' k) eqn:E; simpl; trivial. now rewrite E.
Qed.

Lemma get_del_other k k' d :
  k <> k' -> Dict.get k' (Dict.del k d) = Dict.get k' d.
Proof.
  intros Hne. induction d as [|[k0 v0] d IH]; simpl; trivial.
  destruct (String.eqb k0 k) eqn:E; simpl.
  - apply String.eqb_eq in E. subst k0.
    apply String.eqb_neq in Hne. now rewrite Hne.
  - now rewrite IH.
Qed.

(** Replacing the value of a key keeps the keys and their order. *)
Lemma keys_set_old k v d :
  Dict.mem k d = true -> Dict.keys (Dict.set k v d) = Dict.keys d.
Proof.
  unfold Dict.mem, Dict.keys. induction d as [|[k' v'] d IH]; simpl.
  - discriminate.
  - destruct (String.eqb k' k) eqn:E; simpl.
    + intros _. apply String.eqb_eq in E. now subst.
    + intros H. now rewrite IH.
Qed.

Lemma keys_update k f d : Dict.keys (Dict.update k f d) = Dict.keys d.
Proof.
  unfold Dict.update. destruct (Dict.get k d) eqn:E; trivial.
  apply keys_set_old. unfold Dict.mem. now rewrite E.
Qed.

Lemma length_set_old k v d :
  Dict.mem k d = true -> length (Dict.set k v d) = length d.
Proof.
  intros H. rewrite <- (length_map fst (Dict.set k v d)), <- (length_map fst d).
  change (length (Dict.keys (Dict.set k v d)) = length (Dict.keys d)).
  now rewrite keys_set_old.
Qed.

Lemma mem_set k k' v d :
  Dict.mem k' (Dict.set k v d) = String.eqb k k' || Dict.mem k' d.
Proof.
  unfold Dict.mem. destruct (String.eqb_spec k k') as [->|Hne].
  - now rewrite get_set_same.
  - now rewrite get_set_other.
Qed.

(** Storing again what is stored changes nothing. *)
Lemma set_same k v d : Dict.get k d = Some v -> Dict.set k v d = d.
Proof.
  induction d as [|[k' v'] d IH]; simpl; [discriminate|].
  destruct (String.eqb k' k) eqn:E.
  - intros [= ->]. apply String.eqb_eq in E. now subst.
  - intros H. now rewrite IH.
Qed.

Lemma nodup_keys_set k v d :
  Dict.nodup_keys d = true -> Dict.nodup_keys (Dict.set k v d) = true.
Proof.
  induction d as [|[k' v'] d IH]; simpl; trivial.
  intros H. apply andb_true_iff in H. destruct H as [H1 H2].
  destruct (String.eqb k' k) eqn:E; simpl.
  - apply String.eqb_eq in E. subst k'. now rewrite H1, H2.
  - rewrite mem_set, (IH H2).
    apply String.eqb_neq in E.
    assert (String.eqb k k' = false) as -> by (apply String.eqb_neq; congruence).
    simpl. now rewrite H1.
Qed.

Lemma mem_del k k' d :
  Dict.mem k' (Dict.del k d) = negb (String.eqb k k') && Dict.mem k' d.
Proof.
  unfold Dict.mem. destruct (String.eqb_spec k k') as [->|Hne].
  - now rewrite get_del_same.
  - now rewrite get_del_other.
Qed.

Lemma nodup_keys_del k d :
  Dict.nodup_keys d = true -> Dict.nodup_keys (Dict.del k d) = true.
Proof.
  induction d as [|[k' v'] d IH]; simpl; trivial.
  intros H. apply andb_true_iff in H. destruct H as [H1 H2].
  destruct (String.eqb k' k) eqn:E; simpl; auto.
  rewrite mem_del, (IH H2). apply negb_true_iff in H1. rewrite H1.
  now rewrite andb_false_r.
Qed.

End DictMore.

(** An invariant of every call holds after every sequence of calls. *)
Lemma run_invariant {B : PyBuiltins} (P : BankSystem -> Prop) :
  (forall w c, P (fst w) -> P (fst (step w c))) ->
  forall calls w, P (fst w) -> P (fst (run w calls)).
Proof.
  intros Hstep. unfold run.
  induction calls as [|c calls IH]; intros w Hw; simpl; [exact Hw|].
  apply IH. now apply Hstep.
Qed.

(** ** Who may act on an account *)

(** X1. A customer who is logged in and asks for an account of another
    customer is turned away by [view_transactions], [perform_operations] and
    [check_balance], and the bank stays as it is. *)
Theorem X1_other_customers_account_refused :
  forall (B : PyBuiltins) (s : BankSystem)
         (account_id choice recipient_account_id user : string)
         (amount : option float) (customer : Customer.t) (account : Account.t),
    current_user s = Some user ->
    user <> "admin" ->
    Dict.get user (customers s) = Some customer ->
    Dict.get account_id (accounts s) = Some account ->
    Account.customer_id account <> Customer.customer_id customer ->
    view_transactions s account_id
    = (s,
       Printed
         ["You are not authorized to perform operations on this account."])
    /\ perform_operations s account_id choice recipient_account_id amount
       = (s,
          Printed
            ["You are not authorized to perform operations on this account."])
    /\ check_balance s account_id
       = (s,
          Printed ["You are not authorized to check balance of this account."]).
Proof.
  intros B s account_id choice recipient_account_id user amount customer
    account Huser Hadmin Hcust Hacc Hown.
  assert (Hno : not_authorized s user account = Some true).
  { unfold not_authorized.
    apply String.eqb_neq in Hadmin. rewrite Hadmin, Hcust.
    apply String.eqb_neq in Hown. now rewrite Hown. }
  unfold view_transactions, perform_operations, check_balance.
  now rewrite Huser, Hacc, Hno.
Qed.

(** X1 for Ann, who asks for the account of Bob. *)
Lemma X1_witness :
  check_balance (B := Sample.builtins) Examples.ann_logged_in "2"
  = (Examples.ann_logged_in,
     Printed ["You are not authorized to check balance of this account."]).
Proof.
  refine (proj2 (proj2
    (X1_other_customers_account_refused Sample.builtins
       Examples.ann_logged_in "2" "1" "" "ann" None
       (Customer.mk "1" "Ann" 30 "ann" "h6")
       (Account.SavingsAccount "2" "2" (float_of_int 100) 2)
       eq_refl _ eq_refl eq_refl _))); discriminate.
Defined.

(** X2. Somebody is logged in and the account id is not in [accounts]: the
    three methods report it and change nothing, whoever is logged in and
    whatever is entered. *)
Theorem X2_unknown_account :
  forall (B : PyBuiltins) (s : BankSystem)
         (account_id choice recipient_account_id user : string)
         (amount : option float),
    current_user s = Some user ->
    Dict.get account_id (accounts s) = None ->
    view_transactions s account_id = (s, Printed ["Account ID not found."])
    /\ perform_operations s account_id choice recipient_account_id amount
       = (s, Printed ["Account ID not found."])
    /\ check_balance s account_id = (s, Printed ["Account ID not found."]).
Proof.
  intros B s account_id choice recipient_account_id user amount Huser Hacc.
  unfold view_transactions, perform_operations, check_balance.
  now rewrite Huser, Hacc.
Qed.

(** X2 for Ann and an account 9. *)
Lemma X2_witness :
  view_transactions (B := Sample.builtins) Examples.ann_logged_in "9"
  = (Examples.ann_logged_in, Printed ["Account ID not found."]).
Proof.
  exact (proj1 (X2_unknown_account Sample.builtins Examples.ann_logged_in
                  "9" "1" "" "ann" None eq_refl eq_refl)).
Defined.

(** X3. On an account the user may act on, [perform_operations] leaves the
    bank as it is, without any record, when the choice is none of 1, 2 and 3,
    when the recipient of a transfer is not an account (the amount is not
    asked for then), and when the amount entered is not a number. *)
Theorem X3_operations_that_do_nothing :
  forall (B : PyBuiltins) (s : BankSystem)
         (account_id choice recipient_account_id user : string)
         (amount : option float) (account : Account.t),
    current_user s = Some user ->
    Dict.get account_id (accounts s) = Some account ->
    not_authorized s user account = Some false ->
    (choice <> "1" -> choice <> "2" -> choice <> "3" ->
     perform_operations s account_id choice recipient_account_id amount
     = (s, Printed ["Invalid choice."]))
    /\ (Dict.mem recipient_account_id (accounts s) = false ->
        perform_operations s account_id "3" recipient_account_id amount
        = (s, Printed ["Recipient account ID not found."]))
    /\ (Dict.mem recipient_account_id (accounts s) = true ->
        perform_operations s account_id "3" recipient_account_id None
        = (s, Raised "ValueError"))
    /\ perform_operations s account_id "1" recipient_account_id None
       = (s, Raised "ValueError")
    /\ perform_operations s account_id "2" recipient_account_id None
       = (s, Raised "ValueError").
Proof.
  intros B s account_id choice recipient_account_id user amount account
    Huser Hacc Hauth.
  unfold perform_operations. rewrite Huser, Hacc, Hauth.
  repeat split.
  - intros H1 H2 H3. unfold operations.
    apply String.eqb_neq in H1, H2, H3. rewrite H1, H2, H3.
    now destruct account.
  - intros Hmem. unfold operations. cbn [String.eqb Ascii.eqb Bool.eqb].
    rewrite Hmem. now destruct account.
  - intros Hmem. unfold operations. cbn [String.eqb Ascii.eqb Bool.eqb].
    rewrite Hmem. now destruct account.
  - now destruct account.
  - now destruct account.
Qed.

(** X3 for Ann on her account: choice 7, and a transfer to an account 9. *)
Lemma X3_witness :
  perform_operations (B := Sample.builtins) Examples.ann_logged_in "1" "7" ""
    None
  = (Examples.ann_logged_in, Printed ["Invalid choice."])
  /\ perform_operations (B := Sample.builtins) Examples.ann_logged_in "1" "3"
       "9" (Some (float_of_int 5))
     = (Examples.ann_logged_in, Printed ["Recipient account ID not found."]).
Proof.
  split.
  - refine (proj1 (X3_operations_that_do_nothing Sample.builtins
                     Examples.ann_logged_in "1" "7" "" "ann" None
                     (Account.CheckingAccount "1" "1" (float_of_int 100)
                        (float_of_int 0)) eq_refl eq_refl eq_refl) _ _ _);
      discriminate.
  - exact (proj1 (proj2 (X3_operations_that_do_nothing Sample.builtins
                     Examples.ann_logged_in "1" "3" "9" "ann"
                     (Some (float_of_int 5))
                     (Account.CheckingAccount "1" "1" (float_of_int 100)
                        (float_of_int 0)) eq_refl eq_refl eq_refl)) eq_refl).
Defined.

(** ** delete_account *)



(** ** Customers *)

(** X5. A customer who has just been created can log in with the password
    given, and with no password of another digest; the bank stores the digest
    and [create_customer] touches neither accounts, transactions nor the
    session. *)
Theorem X5_create_customer_then_login :
  forall (B : PyBuiltins) (s : BankSystem) (fs : Files) (name : string)
         (age : Z) (l password : string),
    Dict.get l (customers (fst (fst (create_customer s fs name age l password))))
    = Some (Customer.mk (str_int (Z.of_nat (length (customers s)) + 1)) name
              age l (sha256_hexdigest password))
    /\ login (fst (fst (create_customer s fs name age l password))) l password
       = (set_current_user (Some l)
            (fst (fst (create_customer s fs name age l password))),
          Printed ["Login successful."])
    /\ (forall other : string,
        sha256_hexdigest other <> sha256_hexdigest password ->
        login (fst (fst (create_customer s fs name age l password))) l other
        = (fst (fst (create_customer s fs name age l password)),
           Printed ["Incorrect password."]))
    /\ accounts (fst (fst (create_customer s fs name age l password)))
       = accounts s
    /\ transactions (fst (fst (create_customer s fs name age l password)))
       = transactions s
    /\ current_user (fst (fst (create_customer s fs name age l password)))
       = current_user s.
Proof.
  intros B s fs name age l password.
  unfold create_customer. cbn [fst snd].
  unfold login. cbn [customers set_customers accounts transactions
                     current_user].
  rewrite get_set_same. cbn [Customer.password].
  rewrite String.eqb_refl.
  repeat split.
  intros other Hother. apply not_eq_sym in Hother.
  apply String.eqb_neq in Hother. now rewrite Hother.
Qed.

(** What each call can change. *)
Lemma perform_operations_frame (B : PyBuiltins) (s : BankSystem)
    (account_id choice recipient_account_id : string) (amount : option float) :
  customers (fst (perform_operations s account_id choice recipient_account_id
                    amount)) = customers s
  /\ current_user (fst (perform_operations s account_id choice
                          recipient_account_id amount)) = current_user s
  /\ admin_password (fst (perform_operations s account_id choice
                            recipient_account_id amount)) = admin_password s.
Proof.
  destruct s as [cs acs ts u pw]. unfold perform_operations.
  cbn [current_user accounts transactions].
  destruct u as [user|]; [|easy].
  destruct (Dict.get account_id acs) as [account|]; [|easy].
  destruct (not_authorized _ user account) as [[|]|]; try easy.
  assert (Hop : forall tid,
    customers (fst (operations (mkBank cs acs ts (Some user) pw) account_id
                      tid account choice recipient_account_id amount)) = cs
    /\ current_user (fst (operations (mkBank cs acs ts (Some user) pw)
                            account_id tid account choice
                            recipient_account_id amount)) = Some user
    /\ admin_password (fst (operations (mkBank cs acs ts (Some user) pw)
                              account_id tid account choice
                              recipient_account_id amount)) = pw).
  { intros tid. unfold operations. cbn [accounts].
    destruct (String.eqb choice "1").
    - destruct amount as [x|]; [|easy]. now cbn.
    - destruct (String.eqb choice "2").
      + destruct amount as [x|]; [|easy].
        now destruct (Account.withdrawal account x) as [account' [|]].
      + destruct (String.eqb choice "3"); [|easy].
        destruct (negb (Dict.mem recipient_account_id acs)); [easy|].
        destruct amount as [x|]; [|easy].
        now destruct (Account.transfer account_id x recipient_account_id acs)
          as [[h' [|]]|]. }
  cbn [customers current_user admin_password]. destruct account; apply Hop.
Qed.

Lemma step_admin_password (B : PyBuiltins) (w : BankSystem * Files)
    (c : call) :
  admin_password (fst (step w c)) = admin_password (fst w).
Proof.
  destruct w as [s fs]. destruct c; cbn [step fst].
  - unfold login. destruct (Dict.get _ _); [|reflexivity].
    now destruct (String.eqb _ _).
  - unfold admin_login. now destruct (String.eqb _ _).
  - reflexivity.
  - reflexivity.
  - unfold create_account. destruct (find_customer _ _); [|reflexivity].
    destruct (_ || _); [reflexivity|].
    destruct (String.eqb account_type "Savings"); [reflexivity|].
    now destruct (String.eqb account_type "Checking").
  - unfold view_transactions.
    destruct (current_user s); [|reflexivity].
    destruct (Dict.get _ (accounts s)); [|reflexivity].
    destruct (not_authorized _ _ _) as [[|]|]; try reflexivity.
    now destruct (Dict.get _ (transactions s)).
  - apply perform_operations_frame.
  - unfold check_balance.
    destruct (current_user s); [|reflexivity].
    destruct (Dict.get _ (accounts s)); [|reflexivity].
    now destruct (not_authorized _ _ _) as [[|]|].
  - unfold delete_account.
    destruct (negb (Dict.mem account_id (accounts s))); [reflexivity|].
    cbn [fst set_accounts transactions].
    now destruct (Dict.mem account_id (transactions s)).
  - reflexivity.
Qed.

(** X6. No call changes [admin_password]: after any sequence of calls on a new
    bank the administrator logs in with ["admin"], and with nothing else. *)
Theorem X6_admin_password_kept :
  forall (B : PyBuiltins) (calls : list call) (fs : Files) (password : string),
    admin_password (fst (run (BankSystem_init, fs) calls)) = "admin"
    /\ current_user
         (fst (admin_login (fst (run (BankSystem_init, fs) calls)) "admin"))
       = Some "admin"
    /\ (password <> "admin" ->
        admin_login (fst (run (BankSystem_init, fs) calls)) password
        = (fst (run (BankSystem_init, fs) calls),
           Printed ["Incorrect admin password."])).
Proof.
  intros B calls fs password.
  assert (H : admin_password (fst (run (BankSystem_init, fs) calls)) = "admin").
  { apply (run_invariant (fun s => admin_password s = "admin")); [|reflexivity].
    intros w c Hw. now rewrite step_admin_password. }
  split; [exact H|]. unfold admin_login. rewrite H. split; [reflexivity|].
  intros Hp. apply String.eqb_neq in Hp. now rewrite Hp.
Qed.

(** X7. The id of a new customer is the number of customers plus one, and
    creating a customer under a login that exists replaces that customer
    without adding one: the customer created next, under a new login, gets the
    same id. *)
Theorem X7_recreated_login_repeats_an_id :
  forall (B : PyBuiltins) (s : BankSystem) (fs : Files)
         (name1 name2 : string) (age1 age2 : Z)
         (login1 login2 password1 password2 : string),
    Dict.mem login1 (customers s) = true ->
    Dict.mem login2 (customers s) = false ->
    exists (s2 : BankSystem) (fs2 : Files) (c1 c2 : Customer.t),
      fst (create_customer
             (fst (fst (create_customer s fs name1 age1 login1 password1)))
             (snd (fst (create_customer s fs name1 age1 login1 password1)))
             name2 age2 login2 password2) = (s2, fs2)
      /\ Dict.get login1 (customers s2) = Some c1
      /\ Dict.get login2 (customers s2) = Some c2
      /\ Customer.customer_id c1
         = str_int (Z.of_nat (length (customers s)) + 1)
      /\ Customer.customer_id c2
         = str_int (Z.of_nat (length (customers s)) + 1).
Proof.
  intros B s fs name1 name2 age1 age2 login1 login2 password1 password2
    Hold Hnew.
  assert (Hne : login2 <> login1) by (intros ->; congruence).
  unfold create_customer. cbn [fst snd customers set_customers].
  do 4 eexists. split; [reflexivity|].
  unfold set_customers. cbn [customers].
  rewrite get_set_other, !get_set_same by assumption.
  rewrite length_set_old by assumption.
  repeat split.
Qed.

(** X7 on the example bank: Ann is created again, then a new customer. *)
Lemma X7_witness :
  exists (s2 : BankSystem) (fs2 : Files) (c1 c2 : Customer.t),
    fst (create_customer (B := Sample.builtins)
           (fst (fst (create_customer (B := Sample.builtins)
                        Examples.ann_logged_in Examples.no_files
                        "Ann" 31 "ann" "pw")))
           (snd (fst (create_customer (B := Sample.builtins)
                        Examples.ann_logged_in Examples.no_files
                        "Ann" 31 "ann" "pw")))
           "Cy" 20 "cy" "pw") = (s2, fs2)
    /\ Dict.get "ann" (customers s2) = Some c1
    /\ Dict.get "cy" (customers s2) = Some c2
    /\ Customer.customer_id c1 = "3"
    /\ Customer.customer_id c2 = "3".
Proof.
  exact (X7_recreated_login_repeats_an_id Sample.builtins
           Examples.ann_logged_in Examples.no_files "Ann" "Cy" 31 20
           "ann" "cy" "pw" "pw" eq_refl eq_refl).
Defined.

Lemma append_empty (a : string) : a ++ "" = a.
Proof. induction a as [|x a IH]; simpl; [reflexivity | now rewrite IH]. Qed.

(** X8. [create_customer] appends to [data/customers.txt] the very line
    [save_data] writes for the new customer: when the file holds what
    [save_data] would write and the login is new, it still does after the
    call. *)
Theorem X8_create_customer_keeps_file :
  forall (B : PyBuiltins) (s : BankSystem) (fs : Files) (name : string)
         (age : Z) (l password : string),
    customers_txt fs = customers_txt (save_data s) ->
    Dict.mem l (customers s) = false ->
    customers_txt (snd (fst (create_customer s fs name age l password)))
    = customers_txt
        (save_data (fst (fst (create_customer s fs name age l password)))).
Proof.
  intros B s fs name age l password Hfile Hnew.
  unfold create_customer, save_data in *.
  cbn [fst snd customers_txt customers set_customers] in *.
  rewrite Hfile. cbn [append_to]. f_equal.
  rewrite set_fresh by assumption.
  unfold Dict.values. rewrite !map_app, PyStrFacts.cat_app.
  cbn [map snd PyStr.cat]. now rewrite append_empty.
Qed.

(** X8 on the bank the example session leaves and the files it would save. *)
Lemma X8_witness :
  customers_txt
    (snd (fst (create_customer (B := Sample.builtins) Examples.after_session
                 (save_data (B := Sample.builtins) Examples.after_session)
                 "Cy" 20 "cy" "pw")))
  = customers_txt
      (save_data (B := Sample.builtins)
         (fst (fst (create_customer (B := Sample.builtins)
                      Examples.after_session
                      (save_data (B := Sample.builtins)
                         Examples.after_session)
                      "Cy" 20 "cy" "pw")))).
Proof.
  apply (X8_create_customer_keeps_file Sample.builtins Examples.after_session
           (save_data (B := Sample.builtins) Examples.after_session));
    reflexivity.
Defined.

(** ** create_account, continued *)

(** X9. [create_account] answers ["Customer ID not found."] when no customer
    carries the id, and ["Invalid account type."] when one does and the type
    is neither [Savings] nor [Checking], whatever the age; the bank is
    unchanged in both cases. *)
Theorem X9_create_account_rejections :
  forall (B : PyBuiltins) (s : BankSystem) (customer_id account_type : string),
    ((forall key c, In (key, c) (customers s) ->
                    Customer.customer_id c <> customer_id) ->
     create_account s customer_id account_type
     = (s, Printed ["Customer ID not found."], None))
    /\ (forall found_customer : Customer.t,
        find_customer customer_id (customers s) = Some found_customer ->
        account_type <> "Savings" -> account_type <> "Checking" ->
        create_account s customer_id account_type
        = (s, Printed ["Invalid account type."], None)).
Proof.
  intros B s customer_id account_type. unfold create_account. split.
  - intros Hnone.
    destruct (find_customer customer_id (customers s)) as [c|] eqn:Hfind;
      [|reflexivity].
    destruct (find_customer_in _ _ _ Hfind) as (Hid & key & Hin).
    now elim (Hnone key c Hin).
  - intros found Hfind HS HC. rewrite Hfind.
    apply String.eqb_neq in HS, HC. now rewrite HS, HC.
Qed.

(** X9 on the four example customers: no customer 99, no account type
    [Gold]. *)
Lemma X9_witness :
  create_account (B := Sample.builtins) Examples.four_customers "99" "Savings"
  = (Examples.four_customers, Printed ["Customer ID not found."], None)
  /\ create_account (B := Sample.builtins) Examples.four_customers "18" "Gold"
     = (Examples.four_customers, Printed ["Invalid account type."], None).
Proof.
  split.
  - apply (proj1 (X9_create_account_rejections Sample.builtins
                    Examples.four_customers "99" "Savings")).
    intros key c Hin. simpl in Hin.
    destruct Hin as [[= <- <-]|[[= <- <-]|[[= <- <-]|[[= <- <-]|[]]]]];
      discriminate.
  - apply (proj2 (X9_create_account_rejections Sample.builtins
                    Examples.four_customers "18" "Gold")
             (Examples.customer_aged "18" 18) eq_refl); discriminate.
Defined.

(** X10. An account that [create_account] returns is stored under the id
    made of the number of accounts plus one, with the customer id given, a
    balance of 0 and the default counter 1 or credit limit 0.  An account
    already stored under that id is replaced (the number of accounts stays),
    every other account stays, and so do customers, transactions and
    session. *)
Theorem X10_created_account :
  forall (B : PyBuiltins) (s : BankSystem) (customer_id account_type : string)
         (a : Account.t),
    snd (create_account s customer_id account_type) = Some a ->
    (a = Account.SavingsAccount
           (str_int (Z.of_nat (length (accounts s)) + 1)) customer_id
           (float_of_int 0) 1
     /\ account_type = "Savings"
     \/ a = Account.CheckingAccount
              (str_int (Z.of_nat (length (accounts s)) + 1)) customer_id
              (float_of_int 0) (float_of_int 0)
        /\ account_type = "Checking")
    /\ Dict.get (str_int (Z.of_nat (length (accounts s)) + 1))
         (accounts (fst (fst (create_account s customer_id account_type))))
       = Some a
    /\ (forall k, k <> str_int (Z.of_nat (length (accounts s)) + 1) ->
        Dict.get k
          (accounts (fst (fst (create_account s customer_id account_type))))
        = Dict.get k (accounts s))
    /\ (Dict.mem (str_int (Z.of_nat (length (accounts s)) + 1)) (accounts s)
        = true ->
        length
          (accounts (fst (fst (create_account s customer_id account_type))))
        = length (accounts s))
    /\ customers (fst (fst (create_account s customer_id account_type)))
       = customers s
    /\ transactions (fst (fst (create_account s customer_id account_type)))
       = transactions s
    /\ current_user (fst (fst (create_account s customer_id account_type)))
       = current_user s.
Proof.
  intros B s customer_id account_type a. unfold create_account.
  destruct (find_customer customer_id (customers s)); [|discriminate].
  destruct (_ || _); [discriminate|].
  destruct (String.eqb_spec account_type "Savings") as [->|HS].
  - cbn [fst snd accounts set_accounts customers transactions current_user].
    intros [= <-]. split; [now left|].
    split; [apply get_set_same|].
    split; [intros k Hk; apply get_set_other; congruence|].
    split; [apply length_set_old|]. repeat split.
  - destruct (String.eqb_spec account_type "Checking") as [->|HC];
      [|discriminate].
    cbn [fst snd accounts set_accounts customers transactions current_user].
    intros [= <-]. split; [now right|].
    split; [apply get_set_same|].
    split; [intros k Hk; apply get_set_other; congruence|].
    split; [apply length_set_old|]. repeat split.
Qed.

(** X10 where account 1 was deleted: the new account takes the id 2 and the
    place of the savings account stored under it. *)
Lemma X10_witness :
  Dict.get "2"
    (accounts
       (fst (fst (create_account (B := Sample.builtins)
                    Examples.one_account_left "1" "Checking"))))
  = Some (Account.CheckingAccount "2" "1" (float_of_int 0) (float_of_int 0))
  /\ length
       (accounts
          (fst (fst (create_account (B := Sample.builtins)
                       Examples.one_account_left "1" "Checking"))))
     = length (accounts Examples.one_account_left).
Proof.
  destruct (X10_created_account Sample.builtins Examples.one_account_left
              "1" "Checking"
              (Account.CheckingAccount "2" "1" (float_of_int 0)
                 (float_of_int 0)) eq_refl)
    as (_ & Hget & _ & Hlen & _).
  split; [exact Hget | exact (Hlen eq_refl)].
Defined.

(** ** classes.py, continued *)

(** X11. Withdrawals made one after the other from a savings account succeed
    as long as the counter lasts and fail from then on, whatever the amounts
    and the balance: the call number [k] (from 0) returns [True] exactly when
    [k < monthly_withdrawals], and the counter ends at 0 when there were
    enough calls to use it up. *)
Theorem X11_savings_counter_runs_out :
  forall (amounts : list float) (i c : string) (b : float) (m : Z),
    snd (Account.withdrawals (Account.SavingsAccount i c b m) amounts)
    = map (fun k => Z.of_nat k <? m) (seq 0 (length amounts))
    /\ Account.monthly_withdrawals
         (fst (Account.withdrawals (Account.SavingsAccount i c b m) amounts))
       = Some (if m <=? 0 then m
               else Z.max 0 (m - Z.of_nat (length amounts))).
Proof.
  induction amounts as [|x amounts IH]; intros i c b m.
  - simpl. split; [reflexivity|]. f_equal.
    destruct (m <=? 0) eqn:E; [reflexivity|]. apply Z.leb_gt in E. lia.
  - cbn [Account.withdrawals Account.withdrawal].
    destruct (m >? 0) eqn:Hm.
    + destruct (IH i c (float_sub b x) (m - 1)) as [IH1 IH2].
      destruct (Account.withdrawals
                  (Account.SavingsAccount i c (float_sub b x) (m - 1))
                  amounts) as [self' oks].
      cbn [fst snd] in *. split.
      * cbn [length seq map]. f_equal; [symmetry; apply Z.ltb_lt; lia|].
        rewrite IH1, <- seq_shift, map_map.
        apply map_ext. intros k.
        destruct (Z.ltb_spec (Z.of_nat k) (m - 1));
          destruct (Z.ltb_spec (Z.of_nat (S k)) m); trivial; lia.
      * rewrite IH2. f_equal. cbn [length].
        destruct (Z.leb_spec (m - 1) 0); destruct (Z.leb_spec m 0); lia.
    + destruct (IH i c b m) as [IH1 IH2].
      destruct (Account.withdrawals (Account.SavingsAccount i c b m) amounts)
        as [self' oks].
      cbn [fst snd] in *. split.
      * cbn [length seq map]. f_equal; [symmetry; apply Z.ltb_ge; lia|].
        rewrite IH1, <- seq_shift, map_map.
        apply map_ext. intros k.
        destruct (Z.ltb_spec (Z.of_nat k) m);
          destruct (Z.ltb_spec (Z.of_nat (S k)) m); trivial; lia.
      * rewrite IH2. f_equal. cbn [length].
        destruct (Z.leb_spec m 0); trivial. lia.
Qed.

(** Three withdrawals from the example savings account, which has two
    left. *)
Example three_withdrawals :
  Account.withdrawals Examples.savings_2
    [float_of_int 10; float_of_int 500; float_of_int 10]
  = (Account.SavingsAccount "2" "7" (float_of_int (-410)) 0,
     [true; true; false]).
Proof. vm_compute. reflexivity. Qed.

(** X12. [float] accepts [nan], and a checking account that received a
    deposit of NaN has the balance NaN for ever: every later deposit leaves
    NaN, and every withdrawal and every transfer is refused, whatever the
    amount and the credit limit. *)
Theorem X12_nan_deposit_blocks_checking :
  forall (i c : string) (b l amount : float),
    fst (Account.deposit (Account.CheckingAccount i c b l) S754_nan)
    = Account.CheckingAccount i c S754_nan l
    /\ fst (Account.deposit (Account.CheckingAccount i c S754_nan l) amount)
       = Account.CheckingAccount i c S754_nan l
    /\ Account.withdrawal (Account.CheckingAccount i c S754_nan l) amount
       = (Account.CheckingAccount i c S754_nan l, false)
    /\ Account.guard (Account.CheckingAccount i c S754_nan l) amount = false.
Proof.
  intros i c b l amount.
  assert (H1 : float_add b S754_nan = S754_nan) by now destruct b.
  assert (H2 : forall x, float_ge S754_nan x = false)
    by (intros x; now destruct x).
  unfold Account.deposit, Account.withdrawal, Account.guard.
  cbn [Account.balance Account.set_balance fst float_add SFadd].
  fold float_add. rewrite H1.
  change (float_add S754_nan l) with S754_nan.
  change (float_add S754_nan amount) with S754_nan.
  rewrite H2. repeat split.
Qed.

(** ** What calls do to the transactions *)

Ltac record_appended :=
  right; eexists;
  cbn [fst transactions set_transactions set_accounts transaction_id_of];
  split; reflexivity.

(** [perform_operations] leaves [transactions] as it is or appends one
    record, numbered with the length of the list plus one, to the list of the
    account. *)
Lemma perform_operations_transactions (B : PyBuiltins) (s : BankSystem)
    (account_id choice recipient_account_id : string) (amount : option float) :
  transactions (fst (perform_operations s account_id choice
                       recipient_account_id amount)) = transactions s
  \/ exists r : Transaction,
       transactions (fst (perform_operations s account_id choice
                            recipient_account_id amount))
       = setdefault_append account_id r (transactions s)
       /\ transaction_id_of r
          = str_int
              (Z.of_nat
                 (length (Dict.get_default account_id [] (transactions s)))
               + 1).
Proof.
  unfold perform_operations.
  destruct (current_user s) as [user|]; [|now left].
  destruct (Dict.get account_id (accounts s)) as [account|]; [|now left].
  destruct (not_authorized s user account) as [[|]|]; try now left.
  assert (Hop : forall tid,
    transactions (fst (operations s account_id tid account choice
                         recipient_account_id amount)) = transactions s
    \/ exists r : Transaction,
         transactions (fst (operations s account_id tid account choice
                              recipient_account_id amount))
         = setdefault_append account_id r (transactions s)
         /\ transaction_id_of r = tid).
  { intros tid. unfold operations.
    destruct (String.eqb choice "1").
    - destruct amount as [x|]; [|now left].
      cbn [Account.deposit]. record_appended.
    - destruct (String.eqb choice "2").
      + destruct amount as [x|]; [|now left].
        destruct (Account.withdrawal account x) as [account' [|]];
          record_appended.
      + destruct (String.eqb choice "3"); [|now left].
        destruct (negb (Dict.mem recipient_account_id (accounts s)));
          [now left|].
        destruct amount as [x|]; [|now left].
        destruct (Account.transfer account_id x recipient_account_id
                    (accounts s)) as [[h' [|]]|]; [| |now left];
          record_appended. }
  destruct account; apply Hop.
Qed.

(** A call leaves [transactions] as it is, appends one numbered record to a
    list, or deletes the list of the account it deletes. *)
Lemma step_transactions (B : PyBuiltins) (w : BankSystem * Files) (c : call) :
  transactions (fst (step w c)) = transactions (fst w)
  \/ (exists (account_id : string) (r : Transaction),
        transactions (fst (step w c))
        = setdefault_append account_id r (transactions (fst w))
        /\ transaction_id_of r
           = str_int
               (Z.of_nat
                  (length
                     (Dict.get_default account_id [] (transactions (fst w))))
                + 1))
  \/ (exists account_id : string,
        c = DeleteAccount account_id
        /\ transactions (fst (step w c))
           = Dict.del account_id (transactions (fst w))).
Proof.
  destruct w as [s fs]. destruct c; cbn [step fst].
  - left. unfold login. destruct (Dict.get _ _); [|reflexivity].
    now destruct (String.eqb _ _).
  - left. unfold admin_login. now destruct (String.eqb _ _).
  - now left.
  - left. reflexivity.
  - left. unfold create_account. destruct (find_customer _ _); [|reflexivity].
    destruct (_ || _); [reflexivity|].
    destruct (String.eqb account_type "Savings"); [reflexivity|].
    now destruct (String.eqb account_type "Checking").
  - left. unfold view_transactions.
    destruct (current_user s); [|reflexivity].
    destruct (Dict.get _ (accounts s)); [|reflexivity].
    destruct (not_authorized _ _ _) as [[|]|]; try reflexivity.
    now destruct (Dict.get _ (transactions s)).
  - destruct (perform_operations_transactions B s account_id choice
                recipient_account_id amount) as [H|(r & H1 & H2)].
    + now left.
    + right. left. eauto.
  - left. unfold check_balance.
    destruct (current_user s); [|reflexivity].
    destruct (Dict.get _ (accounts s)); [|reflexivity].
    now destruct (not_authorized _ _ _) as [[|]|].
  - unfold delete_account.
    destruct (negb (Dict.mem account_id (accounts s))); [now left|].
    cbn [fst set_accounts transactions].
    destruct (Dict.mem account_id (transactions s)); [|now left].
    right. right. eauto.
  - now left.
Qed.

(** X13. The records of an account are never changed or taken away one by
    one: after any sequence of calls that does not delete the account, its
    list of transactions starts with the list it was. *)
Theorem X13_transactions_append_only :
  forall (B : PyBuiltins) (k : string) (calls : list call)
         (w : BankSystem * Files) (history : list Transaction),
    forallb (fun c => negb (deletes k c)) calls = true ->
    Dict.get k (transactions (fst w)) = Some history ->
    exists more : list Transaction,
      Dict.get k (transactions (fst (run w calls)))
      = Some (history ++ more)%list.
Proof.
  intros B k. unfold run.
  induction calls as [|c calls IH]; intros w history Hkeep Hget.
  - exists []. now rewrite app_nil_r.
  - simpl in Hkeep. apply andb_true_iff in Hkeep. destruct Hkeep as [Hc Hcs].
    cbn [fold_left].
    assert (Hstep : exists more,
               Dict.get k (transactions (fst (step w c)))
               = Some (history ++ more)%list).
    { destruct (step_transactions B w c)
        as [H|[(a & r & H & _)|(a & -> & H)]]; rewrite H.
      - exists []. now rewrite app_nil_r.
      - destruct (String.eqb_spec a k) as [->|Hne].
        + rewrite get_setdefault_append_same. unfold Dict.get_default.
          rewrite Hget. eauto.
        + rewrite get_setdefault_append_other by congruence.
          exists []. now rewrite app_nil_r.
      - simpl in Hc. apply negb_true_iff, String.eqb_neq in Hc.
        rewrite get_del_other by assumption.
        exists []. now rewrite app_nil_r. }
    destruct Hstep as (more1 & Hstep).
    destruct (IH (step w c) _ Hcs Hstep) as (more2 & Hrun).
    exists (more1 ++ more2)%list. now rewrite app_assoc.
Qed.

(** X13 for the account of Bob while Ann deposits on hers and logs out. *)
Lemma X13_witness :
  exists more : list Transaction,
    Dict.get "2"
      (transactions
         (fst (run (B := Sample.builtins)
                 (Examples.ann_logged_in, Examples.no_files)
                 [PerformOperations "1" "1" "" (Some (float_of_int 5));
                  Logout])))
    = Some ([Record4 "1" (float_of_int 100) "deposit" "COMPLETE"] ++ more)%list.
Proof.
  apply (X13_transactions_append_only Sample.builtins "2"
           [PerformOperations "1" "1" "" (Some (float_of_int 5)); Logout]
           (Examples.ann_logged_in, Examples.no_files));
    reflexivity.
Defined.

Lemma numbered_from_app (B : PyBuiltins) (history : list Transaction)
    (r : Transaction) (n : nat) :
  numbered_from n (history ++ [r])
  = numbered_from n history
    && String.eqb (transaction_id_of r)
         (str_int (Z.of_nat (n + length history))).
Proof.
  revert n. induction history as [|x history IH]; intros n;
    cbn [numbered_from app length].
  - now rewrite andb_true_r, Nat.add_0_r.
  - rewrite IH, andb_assoc.
    now replace (S n + length history)%nat
      with (n + S (length history))%nat by lia.
Qed.

(** A call keeps the lists numbered from 1. *)
Lemma step_well_numbered (B : PyBuiltins) (w : BankSystem * Files) (c : call) :
  well_numbered (fst w) = true -> well_numbered (fst (step w c)) = true.
Proof.
  unfold well_numbered. intros Hw.
  destruct (step_transactions B w c)
    as [H|[(a & r & H & Hid)|(a & _ & H)]]; rewrite H.
  - exact Hw.
  - unfold setdefault_append.
    apply all_values_set with (Q := numbered_from 1); [exact Hw|].
    rewrite numbered_from_app, Hid.
    replace (Z.of_nat (1 + length (Dict.get_default a [] (transactions (fst w)))))
      with (Z.of_nat (length (Dict.get_default a [] (transactions (fst w)))) + 1)
      by lia.
    rewrite String.eqb_refl, andb_true_r.
    unfold Dict.get_default.
    destruct (Dict.get a (transactions (fst w))) as [history|] eqn:Hget;
      [|reflexivity].
    exact (all_values_get (numbered_from 1) _ _ _ Hw Hget).
  - now apply all_values_del with (Q := numbered_from 1).
Qed.

(** X14. The records of every account carry the numbers 1, 2, 3, ... in the
    order of their list: it is so in a new bank, and every sequence of calls
    keeps it so. *)
Theorem X14_transactions_numbered :
  forall (B : PyBuiltins) (calls : list call) (w : BankSystem * Files),
    well_numbered (fst w) = true ->
    well_numbered (fst (run w calls)) = true.
Proof.
  intros B calls w.
  apply (run_invariant (fun s => well_numbered s = true)).
  intros w' c. apply step_well_numbered.
Qed.

(** X14 on the example session, from the new bank. *)
Lemma X14_witness :
  well_numbered (B := Sample.builtins)
    (fst (run (B := Sample.builtins) (BankSystem_init, Examples.no_files)
            Examples.session)) = true.
Proof.
  apply (X14_transactions_numbered Sample.builtins Examples.session
           (BankSystem_init, Examples.no_files)).
  reflexivity.
Defined.

(** ** What calls do to the accounts *)

Module IdentityFacts.
Import Account.

Lemma same_identity_refl (a : t) : same_identity a a.
Proof. now repeat split. Qed.

Lemma same_identity_trans (a b c : t) :
  same_identity a b -> same_identity b c -> same_identity a c.
Proof.
  unfold same_identity. intros (H1 & H2 & H3 & H4) (K1 & K2 & K3 & K4).
  repeat split; congruence.
Qed.

Lemma same_identity_set_balance (x : float) (a : t) :
  same_identity a (set_balance x a).
Proof. destruct a; now repeat split. Qed.

Lemma same_identity_decrement (a : t) :
  same_identity a (decrement_monthly_withdrawals a).
Proof. destruct a; now repeat split. Qed.

Lemma same_identity_withdrawal (a : t) (x : float) :
  same_identity a (fst (withdrawal a x)).
Proof.
  destruct a as [i c b m|i c b l]; simpl.
  - destruct (m >? 0); now repeat split.
  - destruct (float_ge (float_add b l) x); now repeat split.
Qed.

Lemma same_accounts_refl (h : Dict.t t) : same_accounts h h.
Proof.
  induction h as [|item h IH]; constructor; trivial.
  split; [reflexivity | apply same_identity_refl].
Qed.

Lemma same_accounts_trans (h1 h2 h3 : Dict.t t) :
  same_accounts h1 h2 -> same_accounts h2 h3 -> same_accounts h1 h3.
Proof.
  intros H12. revert h3. induction H12 as [|x y h1 h2 [Hk Hid] _ IH];
    intros h3 H23; inversion H23 as [|y' z h2' h3' [Hk' Hid'] Hrest]; subst.
  - constructor.
  - constructor; [|now apply IH].
    split; [congruence | now apply same_identity_trans with (b := snd y)].
Qed.

Lemma same_accounts_set (k : string) (a a' : t) (h : Dict.t t) :
  Dict.get k h = Some a -> same_identity a a' ->
  same_accounts h (Dict.set k a' h).
Proof.
  intros Hget Hid. induction h as [|[k0 a0] h IH]; simpl in *; [discriminate|].
  destruct (String.eqb k0 k) eqn:E.
  - injection Hget as ->. apply String.eqb_eq in E. subst k0.
    constructor; [now split | apply same_accounts_refl].
  - constructor; [|now apply IH].
    split; [reflexivity | apply same_identity_refl].
Qed.

Lemma same_accounts_update (k : string) (f : t -> t) (h : Dict.t t) :
  (forall a, same_identity a (f a)) -> same_accounts h (Dict.update k f h).
Proof.
  intros Hf. unfold Dict.update.
  destruct (Dict.get k h) as [a|] eqn:Hget; [|apply same_accounts_refl].
  now apply same_accounts_set with (a := a).
Qed.

Lemma same_accounts_transfer (self recipient : string) (x : float)
    (h h' : heap) (ok : bool) :
  transfer self x recipient h = Some (h', ok) -> same_accounts h h'.
Proof.
  unfold transfer, deposit_at, debit_at.
  destruct (Dict.get self h) as [[i c b m|i c b l]|]; [| |discriminate].
  - destruct (m >? 0); intros [= <- <-]; [|apply same_accounts_refl].
    eapply same_accounts_trans; [|eapply same_accounts_trans].
    + apply same_accounts_update. intros a. apply same_identity_set_balance.
    + apply same_accounts_update. intros a. apply same_identity_set_balance.
    + apply same_accounts_update. apply same_identity_decrement.
  - destruct (float_ge (float_add b l) x); intros [= <- <-];
      [|apply same_accounts_refl].
    eapply same_accounts_trans.
    + apply same_accounts_update. intros a. apply same_identity_set_balance.
    + apply same_accounts_update. intros a. apply same_identity_set_balance.
Qed.

Lemma same_accounts_keys (h h' : Dict.t t) :
  same_accounts h h' -> Dict.keys h' = Dict.keys h.
Proof.
  induction 1 as [|x y h h' [Hk _] _ IH]; [reflexivity|].
  unfold Dict.keys in *. simpl. now rewrite Hk, IH.
Qed.

Lemma same_accounts_get (h h' : Dict.t t) (k : string) (a : t) :
  same_accounts h h' -> Dict.get k h = Some a ->
  exists a', Dict.get k h' = Some a' /\ same_identity a a'.
Proof.
  induction 1 as [|[k0 a0] [k1 a1] h h' [Hk Hid] _ IH]; [discriminate|].
  simpl in *. subst k1. destruct (String.eqb k0 k); [|exact IH].
  intros [= <-]. eauto.
Qed.

Lemma same_accounts_mem (h h' : Dict.t t) (k : string) :
  same_accounts h h' -> Dict.mem k h' = Dict.mem k h.
Proof.
  unfold Dict.mem.
  induction 1 as [|[k0 a0] [k1 a1] h h' [Hk Hid] _ IH]; [reflexivity|].
  simpl in *. subst k1. now destruct (String.eqb k0 k).
Qed.

Lemma same_accounts_nodup (h h' : Dict.t t) :
  same_accounts h h' -> Dict.nodup_keys h' = Dict.nodup_keys h.
Proof.
  induction 1 as [|[k0 a0] [k1 a1] h h' [Hk Hid] Hrest IH]; [reflexivity|].
  simpl in *. subst k1. now rewrite IH, (same_accounts_mem _ _ k0 Hrest).
Qed.

Lemma same_accounts_stored (h h' : Dict.t t) :
  same_accounts h h' ->
  forallb account_stored h = true -> forallb account_stored h' = true.
Proof.
  induction 1 as [|[k0 a0] [k1 a1] h h' [Hk Hid] _ IH]; [reflexivity|].
  simpl in *. subst k1. intros H. apply andb_true_iff in H.
  destruct H as [H0 Hh]. rewrite (IH Hh), andb_true_r.
  unfold account_stored in *. cbn [fst snd] in *.
  destruct Hid as (H1 & _ & _ & H4). now rewrite H1, H4.
Qed.

End IdentityFacts.

(** [perform_operations] changes balances and counters only. *)
Lemma perform_operations_accounts (B : PyBuiltins) (s : BankSystem)
    (account_id choice recipient_account_id : string) (amount : option float) :
  Account.same_accounts (accounts s)
    (accounts (fst (perform_operations s account_id choice
                      recipient_account_id amount))).
Proof.
  unfold perform_operations.
  destruct (current_user s) as [user|];
    [|apply IdentityFacts.same_accounts_refl].
  destruct (Dict.get account_id (accounts s)) as [account|] eqn:Hacc;
    [|apply IdentityFacts.same_accounts_refl].
  destruct (not_authorized s user account) as [[|]|];
    try apply IdentityFacts.same_accounts_refl.
  assert (Hop : forall tid,
    Account.same_accounts (accounts s)
      (accounts (fst (operations s account_id tid account choice
                        recipient_account_id amount)))).
  { intros tid. unfold operations.
    destruct (String.eqb choice "1").
    - destruct amount as [x|]; [|apply IdentityFacts.same_accounts_refl].
      cbn [Account.deposit fst accounts set_transactions set_accounts].
      apply IdentityFacts.same_accounts_set with (a := account); trivial.
      apply IdentityFacts.same_identity_set_balance.
    - destruct (String.eqb choice "2").
      + destruct amount as [x|]; [|apply IdentityFacts.same_accounts_refl].
        pose proof (IdentityFacts.same_identity_withdrawal account x) as Hid.
        destruct (Account.withdrawal account x) as [account' [|]];
          cbn [fst accounts set_transactions set_accounts] in *;
          now apply IdentityFacts.same_accounts_set with (a := account).
      + destruct (String.eqb choice "3");
          [|apply IdentityFacts.same_accounts_refl].
        destruct (negb (Dict.mem recipient_account_id (accounts s)));
          [apply IdentityFacts.same_accounts_refl|].
        destruct amount as [x|]; [|apply IdentityFacts.same_accounts_refl].
        destruct (Account.transfer account_id x recipient_account_id
                    (accounts s)) as [[h' ok]|] eqn:Ht;
          [|apply IdentityFacts.same_accounts_refl].
        apply IdentityFacts.same_accounts_transfer in Ht.
        now destruct ok. }
  destruct account; apply Hop.
Qed.

(** X15. Whatever is entered, [perform_operations] creates and removes no
    account and changes neither the id, the owner, the class nor the credit
    limit of one: balances and withdrawal counters are all it can change in
    [accounts]; customers, session and administrator password stay. *)
Theorem X15_operations_keep_identity :
  forall (B : PyBuiltins) (s : BankSystem)
         (account_id choice recipient_account_id : string)
         (amount : option float),
    Dict.keys (accounts (fst (perform_operations s account_id choice
                                recipient_account_id amount)))
    = Dict.keys (accounts s)
    /\ (forall (k : string) (a : Account.t),
        Dict.get k (accounts s) = Some a ->
        exists a' : Account.t,
          Dict.get k (accounts (fst (perform_operations s account_id choice
                                       recipient_account_id amount)))
          = Some a'
          /\ Account.account_id a' = Account.account_id a
          /\ Account.customer_id a' = Account.customer_id a
          /\ Account.is_savings a' = Account.is_savings a
          /\ Account.credit_limit a' = Account.credit_limit a)
    /\ customers (fst (perform_operations s account_id choice
                         recipient_account_id amount)) = customers s
    /\ current_user (fst (perform_operations s account_id choice
                            recipient_account_id amount)) = current_user s
    /\ admin_password (fst (perform_operations s account_id choice
                              recipient_account_id amount))
       = admin_password s.
Proof.
  intros B s account_id choice recipient_account_id amount.
  pose proof (perform_operations_accounts B s account_id choice
                recipient_account_id amount) as Hsame.
  split; [now apply IdentityFacts.same_accounts_keys|].
  split; [|apply perform_operations_frame].
  intros k a Hget.
  destruct (IdentityFacts.same_accounts_get _ _ k a Hsame Hget)
    as (a' & Hget' & Hid).
  exists a'. split; [exact Hget' | exact Hid].
Qed.

(** X15 for Ann, who withdraws 30 from her account. *)
Lemma X15_witness :
  exists a' : Account.t,
    Dict.get "2"
      (accounts (fst (perform_operations (B := Sample.builtins)
                        Examples.ann_logged_in "1" "2" ""
                        (Some (float_of_int 30)))))
    = Some a'
    /\ Account.account_id a' = "2"
    /\ Account.customer_id a' = "2"
    /\ Account.is_savings a' = true
    /\ Account.credit_limit a' = None.
Proof.
  destruct (X15_operations_keep_identity Sample.builtins
              Examples.ann_logged_in "1" "2" "" (Some (float_of_int 30)))
    as (_ & H & _).
  exact (H "2" (Account.SavingsAccount "2" "2" (float_of_int 100) 2) eq_refl).
Defined.

Lemma withdrawal_refused (a : Account.t) (x : float) :
  snd (Account.withdrawal a x) = false -> fst (Account.withdrawal a x) = a.
Proof.
  destruct a as [i c b m|i c b l]; simpl.
  - now destruct (m >? 0).
  - now destruct (float_ge (float_add b l) x).
Qed.

Lemma transfer_false (self recipient : string) (x : float)
    (h h' : Account.heap) :
  Account.transfer self x recipient h = Some (h', false) -> h' = h.
Proof.
  unfold Account.transfer.
  destruct (Dict.get self h) as [[i c b m|i c b l]|]; [| |discriminate].
  - destruct (m >? 0); now intros [= <-].
  - destruct (float_ge (float_add b l) x); now intros [= <-].
Qed.

(** X16. An operation that ends with ["Operation aborted."] has changed no
    account: all it leaves is one record with the status [ABORTED] in the
    list of the account. *)
Theorem X16_aborted_changes_no_account :
  forall (B : PyBuiltins) (s : BankSystem)
         (account_id choice recipient_account_id : string)
         (amount : option float),
    snd (perform_operations s account_id choice recipient_account_id amount)
    = Printed ["Operation aborted."] ->
    accounts (fst (perform_operations s account_id choice
                     recipient_account_id amount)) = accounts s
    /\ exists r : Transaction,
         transactions (fst (perform_operations s account_id choice
                              recipient_account_id amount))
         = setdefault_append account_id r (transactions s)
         /\ transaction_status_of r = "ABORTED".
Proof.
  intros B s account_id choice recipient_account_id amount.
  unfold perform_operations.
  destruct (current_user s) as [user|]; [|discriminate].
  destruct (Dict.get account_id (accounts s)) as [account|] eqn:Hacc;
    [|discriminate].
  destruct (not_authorized s user account) as [[|]|]; try discriminate.
  assert (Hop : forall tid,
    snd (operations s account_id tid account choice recipient_account_id
           amount) = Printed ["Operation aborted."] ->
    accounts (fst (operations s account_id tid account choice
                     recipient_account_id amount)) = accounts s
    /\ exists r : Transaction,
         transactions (fst (operations s account_id tid account choice
                              recipient_account_id amount))
         = setdefault_append account_id r (transactions s)
         /\ transaction_status_of r = "ABORTED").
  { intros tid. unfold operations.
    destruct (String.eqb choice "1").
    - destruct amount as [x|]; discriminate.
    - destruct (String.eqb choice "2").
      + destruct amount as [x|]; [|discriminate].
        pose proof (withdrawal_refused account x) as Hw.
        destruct (Account.withdrawal account x) as [account' [|]];
          [discriminate|].
        cbn [fst snd accounts transactions set_transactions set_accounts]
          in *.
        intros _. rewrite (Hw eq_refl). split; [now apply set_same|].
        eexists. split; reflexivity.
      + destruct (String.eqb choice "3"); [|discriminate].
        destruct (negb (Dict.mem recipient_account_id (accounts s)));
          [discriminate|].
        destruct amount as [x|]; [|discriminate].
        destruct (Account.transfer account_id x recipient_account_id
                    (accounts s)) as [[h' [|]]|] eqn:Ht; try discriminate.
        cbn [fst snd accounts transactions set_transactions set_accounts].
        intros _. split; [exact (transfer_false _ _ _ _ _ Ht)|].
        eexists. split; reflexivity. }
  destruct account; apply Hop.
Qed.

(** X16 for the administrator who asks for 500 from the checking account. *)
Lemma X16_witness :
  accounts (fst (perform_operations (B := Sample.builtins) Examples.admin_bank
                   "1" "2" "" (Some (float_of_int 500))))
  = accounts Examples.admin_bank.
Proof.
  exact (proj1 (X16_aborted_changes_no_account Sample.builtins
                  Examples.admin_bank "1" "2" "" (Some (float_of_int 500))
                  eq_refl)).
Defined.

(** ** How the bank stores its objects *)

Section ForallItems.
Context {V : Type} (P : string * V -> bool).

Lemma forallb_set (k : string) (v : V) (d : Dict.t V) :
  forallb P d = true -> P (k, v) = true -> forallb P (Dict.set k v d) = true.
Proof.
  intros Hd Hv. induction d as [|[k' v'] d IH]; simpl in *.
  - now rewrite Hv.
  - apply andb_true_iff in Hd. destruct Hd as [H1 H2].
    destruct (String.eqb k' k); simpl.
    + now rewrite Hv, H2.
    + now rewrite H1, IH.
Qed.

Lemma forallb_del (k : string) (d : Dict.t V) :
  forallb P d = true -> forallb P (Dict.del k d) = true.
Proof.
  intros Hd. induction d as [|[k' v'] d IH]; simpl in *; trivial.
  apply andb_true_iff in Hd. destruct Hd as [H1 H2].
  destruct (String.eqb k' k); simpl; auto.
  now rewrite H1, IH.
Qed.

End ForallItems.

(** A loop over lines keeps what each turn keeps. *)
Lemma for_lines_invariant {B : PyBuiltins} {A : Type} (P : A -> Prop)
    (body : string -> A -> result A) :
  (forall l a a', P a -> body l a = Ok a' -> P a') ->
  forall ls a a', P a -> for_lines body ls a = Ok a' -> P a'.
Proof.
  intros Hbody. induction ls as [|l ls IH]; intros a a' Ha; simpl.
  - now intros [= <-].
  - destruct (body l a) as [a1|e] eqn:E; simpl; [|discriminate].
    apply IH. now apply (Hbody l a).
Qed.

(** What a call does to [customers]: nothing, or the assignment of
    [create_customer]. *)
Lemma step_customers (B : PyBuiltins) (w : BankSystem * Files) (c : call) :
  customers (fst (step w c)) = customers (fst w)
  \/ exists (customer_id name : string) (age : Z) (l hashed : string),
       customers (fst (step w c))
       = Dict.set l (Customer.mk customer_id name age l hashed)
           (customers (fst w)).
Proof.
  destruct w as [s fs]. destruct c; cbn [step fst].
  - left. unfold login. destruct (Dict.get _ _); [|reflexivity].
    now destruct (String.eqb _ _).
  - left. unfold admin_login. now destruct (String.eqb _ _).
  - now left.
  - right. unfold create_customer. cbn [fst customers set_customers].
    eauto 6.
  - left. unfold create_account. destruct (find_customer _ _); [|reflexivity].
    destruct (_ || _); [reflexivity|].
    destruct (String.eqb account_type "Savings"); [reflexivity|].
    now destruct (String.eqb account_type "Checking").
  - left. unfold view_transactions.
    destruct (current_user s); [|reflexivity].
    destruct (Dict.get _ (accounts s)); [|reflexivity].
    destruct (not_authorized _ _ _) as [[|]|]; try reflexivity.
    now destruct (Dict.get _ (transactions s)).
  - left. apply perform_operations_frame.
  - left. unfold check_balance.
    destruct (current_user s); [|reflexivity].
    destruct (Dict.get _ (accounts s)); [|reflexivity].
    now destruct (not_authorized _ _ _) as [[|]|].
  - left. unfold delete_account.
    destruct (negb (Dict.mem account_id (accounts s))); [reflexivity|].
    cbn [fst set_accounts transactions].
    now destruct (Dict.mem account_id (transactions s)).
  - now left.
Qed.

(** What a call does to [accounts]: it changes balances and counters, stores
    a new account under its id, or deletes an account. *)
Lemma step_accounts (B : PyBuiltins) (w : BankSystem * Files) (c : call) :
  Account.same_accounts (accounts (fst w)) (accounts (fst (step w c)))
  \/ (exists (k : string) (a : Account.t),
        accounts (fst (step w c)) = Dict.set k a (accounts (fst w))
        /\ account_stored (k, a) = true)
  \/ (exists k : string,
        accounts (fst (step w c)) = Dict.del k (accounts (fst w))).
Proof.
  destruct w as [s fs]. destruct c; cbn [step fst].
  - left. unfold login. destruct (Dict.get _ _);
      [|apply IdentityFacts.same_accounts_refl].
    destruct (String.eqb _ _); apply IdentityFacts.same_accounts_refl.
  - left. unfold admin_login.
    destruct (String.eqb _ _); apply IdentityFacts.same_accounts_refl.
  - left. apply IdentityFacts.same_accounts_refl.
  - left. apply IdentityFacts.same_accounts_refl.
  - unfold create_account.
    destruct (find_customer _ _);
      [|left; apply IdentityFacts.same_accounts_refl].
    destruct (_ || _); [left; apply IdentityFacts.same_accounts_refl|].
    destruct (String.eqb account_type "Savings").
    + right. left. cbn [fst accounts set_accounts].
      do 2 eexists. split; [reflexivity|].
      unfold account_stored. cbn [fst snd Account.account_id
                                  Account.credit_limit].
      now rewrite String.eqb_refl.
    + destruct (String.eqb account_type "Checking");
        [|left; apply IdentityFacts.same_accounts_refl].
      right. left. cbn [fst accounts set_accounts].
      do 2 eexists. split; [reflexivity|].
      unfold account_stored. cbn [fst snd Account.account_id
                                  Account.credit_limit].
      now rewrite String.eqb_refl.
  - left. unfold view_transactions.
    destruct (current_user s); [|apply IdentityFacts.same_accounts_refl].
    destruct (Dict.get _ (accounts s));
      [|apply IdentityFacts.same_accounts_refl].
    destruct (not_authorized _ _ _) as [[|]|];
      try apply IdentityFacts.same_accounts_refl.
    destruct (Dict.get _ (transactions s));
      apply IdentityFacts.same_accounts_refl.
  - left. apply perform_operations_accounts.
  - left. unfold check_balance.
    destruct (current_user s); [|apply IdentityFacts.same_accounts_refl].
    destruct (Dict.get _ (accounts s));
      [|apply IdentityFacts.same_accounts_refl].
    destruct (not_authorized _ _ _) as [[|]|];
      apply IdentityFacts.same_accounts_refl.
  - unfold delete_account.
    destruct (negb (Dict.mem account_id (accounts s)));
      [left; apply IdentityFacts.same_accounts_refl|].
    right. right. exists account_id.
    cbn [fst set_accounts transactions].
    now destruct (Dict.mem account_id (transactions s)).
  - left. apply IdentityFacts.same_accounts_refl.
Qed.

(** A call keeps the way the bank stores its objects. *)
Lemma step_storage_ok (B : PyBuiltins) (w : BankSystem * Files) (c : call) :
  storage_ok (fst w) = true -> storage_ok (fst (step w c)) = true.
Proof.
  unfold storage_ok. intros H.
  andb_last H Hh. andb_last H Hhn. andb_last H Ha. andb_last H Han.
  andb_last H Hc.
  assert (Hcust :
    Dict.nodup_keys (customers (fst (step w c))) = true
    /\ forallb customer_stored (customers (fst (step w c))) = true).
  { destruct (step_customers B w c) as [E|(i & n & a & l & p & E)];
      rewrite E; [now split|].
    split; [now apply nodup_keys_set|].
    apply forallb_set; trivial.
    unfold customer_stored. cbn. apply String.eqb_refl. }
  assert (Hacc :
    Dict.nodup_keys (accounts (fst (step w c))) = true
    /\ forallb account_stored (accounts (fst (step w c))) = true).
  { destruct (step_accounts B w c) as [E|[(k & a & E & Hk)|(k & E)]].
    - split.
      + now rewrite (IdentityFacts.same_accounts_nodup _ _ E).
      + now apply (IdentityFacts.same_accounts_stored _ _ E).
    - rewrite E. split; [now apply nodup_keys_set | now apply forallb_set].
    - rewrite E. split; [now apply nodup_keys_del | now apply forallb_del]. }
  assert (Hhist :
    Dict.nodup_keys (transactions (fst (step w c))) = true
    /\ forallb history_stored (transactions (fst (step w c))) = true).
  { destruct (step_transactions B w c)
      as [E|[(k & r & E & _)|(k & _ & E)]]; rewrite E.
    - now split.
    - unfold setdefault_append.
      split; [now apply nodup_keys_set|].
      apply forallb_set; trivial.
      unfold history_stored. cbn [snd]. rewrite length_app. cbn [length].
      now rewrite Nat.add_1_r.
    - split; [now apply nodup_keys_del | now apply forallb_del]. }
  destruct Hcust as [-> ->], Hacc as [-> ->], Hhist as [-> ->]. reflexivity.
Qed.

(** [load_data] keeps it too, whatever the files hold. *)
Lemma load_data_storage_ok (B : PyBuiltins) (fs : Files) (s s' : BankSystem) :
  storage_ok s = true -> load_data fs s = Ok s' -> storage_ok s' = true.
Proof.
  unfold storage_ok, load_data. intros H.
  andb_last H Hh. andb_last H Hhn. andb_last H Ha. andb_last H Han.
  andb_last H Hc.
  destruct (open_r (customers_txt fs)) as [t1|]; [|discriminate].
  cbn [bind].
  destruct (for_lines load_customer (PyStr.file_lines t1) (customers s))
    as [cs|] eqn:E1; [|discriminate].
  cbn [bind].
  destruct (open_r (accounts_txt fs)) as [t2|]; [|discriminate].
  cbn [bind].
  destruct (for_lines load_account (PyStr.file_lines t2) (accounts s))
    as [acs|] eqn:E2; [|discriminate].
  cbn [bind].
  destruct (open_r (accountsTransactions_txt fs)) as [t3|]; [|discriminate].
  cbn [bind].
  destruct (for_lines load_transaction (PyStr.file_lines t3) (transactions s))
    as [ts|] eqn:E3; [|discriminate].
  cbn [bind]. intros [= <-].
  cbn [customers accounts transactions].
  assert (H1 : Dict.nodup_keys cs = true /\ forallb customer_stored cs = true).
  { apply (for_lines_invariant
             (fun d => Dict.nodup_keys d = true
                       /\ forallb customer_stored d = true)
             load_customer) with (3 := E1); [|now split].
    intros l d d' [K1 K2]. unfold load_customer.
    destruct (PyStr.split _ _) as [|f1 [|f2 [|f3 [|f4 [|f5 [|f6 r]]]]]];
      try discriminate.
    destruct (to_int f3); [|discriminate]. cbn [bind]. intros [= <-].
    split; [now apply nodup_keys_set|].
    apply forallb_set; trivial.
    unfold customer_stored. cbn. apply String.eqb_refl. }
  assert (H2 : Dict.nodup_keys acs = true /\ forallb account_stored acs = true).
  { apply (for_lines_invariant
             (fun d => Dict.nodup_keys d = true
                       /\ forallb account_stored d = true)
             load_account) with (3 := E2); [|now split].
    intros l d d' [K1 K2]. unfold load_account.
    destruct (PyStr.split _ _) as [|f1 [|f2 [|f3 [|f4 [|f5 [|f6 r]]]]]];
      try (intros [= <-]; now split).
    - destruct (to_float f4); [|discriminate]. cbn [bind]. intros [= <-].
      split; [now apply nodup_keys_set|].
      apply forallb_set; trivial.
      unfold account_stored. cbn [fst snd Account.account_id
                                  Account.credit_limit].
      now rewrite String.eqb_refl.
    - destruct (to_float f4); [|discriminate]. cbn [bind].
      destruct (to_int f5); [|discriminate]. cbn [bind]. intros [= <-].
      split; [now apply nodup_keys_set|].
      apply forallb_set; trivial.
      unfold account_stored. cbn [fst snd Account.account_id
                                  Account.credit_limit].
      now rewrite String.eqb_refl. }
  assert (H3 : Dict.nodup_keys ts = true /\ forallb history_stored ts = true).
  { apply (for_lines_invariant
             (fun d => Dict.nodup_keys d = true
                       /\ forallb history_stored d = true)
             load_transaction) with (3 := E3); [|now split].
    assert (Happ : forall k r d,
               Dict.nodup_keys d = true /\ forallb history_stored d = true ->
               Dict.nodup_keys (setdefault_append k r d) = true
               /\ forallb history_stored (setdefault_append k r d) = true).
    { intros k r d [K1 K2]. unfold setdefault_append.
      split; [now apply nodup_keys_set|].
      apply forallb_set; trivial.
      unfold history_stored. cbn [snd]. rewrite length_app. cbn [length].
      now rewrite Nat.add_1_r. }
    intros l d d' K. unfold load_transaction.
    destruct (PyStr.split _ _)
      as [|f1 [|f2 [|f3 [|f4 [|f5 [|f6 [|f7 r]]]]]]];
      try (intros [= <-]; exact K).
    - destruct (to_float f3); [|discriminate]. cbn [bind]. intros [= <-].
      now apply Happ.
    - destruct (to_float f4); [|discriminate]. cbn [bind]. intros [= <-].
      now apply Happ. }
  destruct H1 as [-> ->], H2 as [-> ->], H3 as [-> ->]. reflexivity.
Qed.

(** X17. In a running bank every customer is stored under their login and
    every account under its own id, no login or id is stored twice, every
    checking account has the default credit limit 0, and no list of
    transactions is empty: it is so in the new bank, [load_data] keeps it so
    whatever the files hold, and so does every sequence of calls. *)
Theorem X17_storage_invariant :
  forall (B : PyBuiltins),
    storage_ok BankSystem_init = true
    /\ (forall (fs : Files) (s s' : BankSystem),
        storage_ok s = true -> load_data fs s = Ok s' -> storage_ok s' = true)
    /\ (forall (calls : list call) (w : BankSystem * Files),
        storage_ok (fst w) = true -> storage_ok (fst (run w calls)) = true).
Proof.
  intros B. split; [reflexivity|]. split.
  - intros fs s s'. apply load_data_storage_ok.
  - intros calls w.
    apply (run_invariant (fun s => storage_ok s = true)).
    intros w' c. apply step_storage_ok.
Qed.

(** X17 on the example session, from the new bank. *)
Lemma X17_witness :
  storage_ok
    (fst (run (B := Sample.builtins) (BankSystem_init, Examples.no_files)
            Examples.session)) = true.
Proof.
  destruct (X17_storage_invariant Sample.builtins) as (Hinit & _ & Hrun).
  exact (Hrun Examples.session (BankSystem_init, Examples.no_files) Hinit).
Defined.

(** ** The session *)

(** A call keeps the user logged in among the customers. *)
Lemma step_session_ok (B : PyBuiltins) (w : BankSystem * Files) (c : call) :
  session_ok (fst w) = true -> session_ok (fst (step w c)) = true.
Proof.
  destruct w as [[cs acs ts u pw] fs]. unfold session_ok.
  cbn [fst current_user customers]. intros Hs.
  destruct c; cbn [step fst].
  - unfold login. cbn [customers].
    destruct (Dict.get login0 cs) as [customer|] eqn:Hget; [|exact Hs].
    destruct (String.eqb _ _); [|exact Hs].
    cbn [fst set_current_user current_user customers].
    unfold Dict.mem. now rewrite Hget, orb_true_r.
  - unfold admin_login. cbn [admin_password].
    destruct (String.eqb _ _); [reflexivity | exact Hs].
  - reflexivity.
  - unfold create_customer. cbn [fst set_customers current_user customers].
    destruct u as [user|]; [|reflexivity].
    rewrite mem_set. apply orb_true_iff in Hs.
    destruct Hs as [-> | ->]; [reflexivity | now rewrite !orb_true_r].
  - unfold create_account. cbn [customers accounts].
    destruct (find_customer _ _); [|exact Hs].
    destruct (_ || _); [exact Hs|].
    destruct (String.eqb account_type "Savings"); [exact Hs|].
    destruct (String.eqb account_type "Checking"); exact Hs.
  - unfold view_transactions. cbn [current_user accounts transactions].
    destruct u; [|exact Hs].
    destruct (Dict.get _ acs); [|exact Hs].
    destruct (not_authorized _ _ _) as [[|]|]; try exact Hs.
    destruct (Dict.get _ ts); exact Hs.
  - destruct (perform_operations_frame B (mkBank cs acs ts u pw) account_id
                choice recipient_account_id amount) as (-> & -> & _).
    exact Hs.
  - unfold check_balance. cbn [current_user accounts].
    destruct u; [|exact Hs].
    destruct (Dict.get _ acs); [|exact Hs].
    destruct (not_authorized _ _ _) as [[|]|]; exact Hs.
  - unfold delete_account. cbn [accounts].
    destruct (negb (Dict.mem account_id acs)); [exact Hs|].
    cbn [fst set_accounts transactions].
    destruct (Dict.mem account_id ts); exact Hs.
  - exact Hs.
Qed.

(** The customer who is logged in can be looked up. *)
Lemma not_authorized_defined (s : BankSystem) (user : string)
    (account : Account.t) :
  session_ok s = true -> current_user s = Some user ->
  exists b : bool, not_authorized s user account = Some b.
Proof.
  unfold session_ok, not_authorized. intros Hs Hu. rewrite Hu in Hs.
  destruct (String.eqb user "admin"); [eauto|].
  simpl in Hs. unfold Dict.mem in Hs.
  destruct (Dict.get user (customers s)); [eauto | discriminate].
Qed.

(** X18. Who is logged in is the administrator or a customer of the bank,
    after every sequence of calls: the lookup
    [self.customers[self.current_user]] of [view_transactions],
    [perform_operations] and [check_balance] never raises [KeyError]. *)
Theorem X18_no_key_error :
  forall (B : PyBuiltins) (calls : list call) (w : BankSystem * Files)
         (account_id choice recipient_account_id : string)
         (amount : option float),
    session_ok (fst w) = true ->
    session_ok (fst (run w calls)) = true
    /\ snd (view_transactions (fst (run w calls)) account_id)
       <> Raised "KeyError"
    /\ snd (perform_operations (fst (run w calls)) account_id choice
              recipient_account_id amount) <> Raised "KeyError"
    /\ snd (check_balance (fst (run w calls)) account_id)
       <> Raised "KeyError".
Proof.
  intros B calls w account_id choice recipient_account_id amount Hw.
  assert (Hs : session_ok (fst (run w calls)) = true).
  { revert Hw. apply (run_invariant (fun s => session_ok s = true)).
    intros w' c. apply step_session_ok. }
  split; [exact Hs|].
  set (s := fst (run w calls)) in *.
  unfold view_transactions, perform_operations, check_balance.
  destruct (current_user s) as [user|] eqn:Hu;
    [|repeat split; discriminate].
  destruct (Dict.get account_id (accounts s)) as [account|] eqn:Hacc;
    [|repeat split; discriminate].
  destruct (not_authorized_defined s user account Hs Hu) as (b & ->).
  destruct b; [repeat split; discriminate|].
  split; [destruct (Dict.get account_id (transactions s)); discriminate|].
  split; [|discriminate].
  assert (Hop : forall tid,
    snd (operations s account_id tid account choice recipient_account_id
           amount) <> Raised "KeyError").
  { intros tid. unfold operations.
    destruct (String.eqb choice "1").
    - destruct amount as [x|]; discriminate.
    - destruct (String.eqb choice "2").
      + destruct amount as [x|]; [|discriminate].
        destruct (Account.withdrawal account x) as [account' [|]];
          discriminate.
      + destruct (String.eqb choice "3"); [|discriminate].
        destruct (negb (Dict.mem recipient_account_id (accounts s)));
          [discriminate|].
        destruct amount as [x|]; [|discriminate].
        destruct (AccountFacts.transfer_guard account_id x
                    recipient_account_id (accounts s) account Hacc)
          as (h' & ->).
        destruct (Account.guard account x); discriminate. }
  destruct account; apply Hop.
Qed.

(** X18 on the example session, from the new bank. *)
Lemma X18_witness :
  snd (check_balance (B := Sample.builtins)
         (fst (run (B := Sample.builtins)
                 (BankSystem_init, Examples.no_files) Examples.session)) "1")
  <> Raised "KeyError".
Proof.
  exact (proj2 (proj2 (proj2
    (X18_no_key_error Sample.builtins Examples.session
       (BankSystem_init, Examples.no_files) "1" "" "" None eq_refl)))).
Defined.

(** X19. No call deletes a customer: a login of the bank is still one after
    every sequence of calls. *)
Theorem X19_customers_are_kept :
  forall (B : PyBuiltins) (calls : list call) (w : BankSystem * Files)
         (l : string),
    Dict.mem l (customers (fst w)) = true ->
    Dict.mem l (customers (fst (run w calls))) = true.
Proof.
  intros B calls w l.
  apply (run_invariant (fun s => Dict.mem l (customers s) = true)).
  intros w' c Hw.
  destruct (step_customers B w' c) as [E|(i & n & a & k & p & E)]; rewrite E.
  - exact Hw.
  - now rewrite mem_set, Hw, orb_true_r.
Qed.

(** X19 for Bob while Ann is created again and Ann's account is deleted. *)
Lemma X19_witness :
  Dict.mem "bob"
    (customers
       (fst (run (B := Sample.builtins)
               (Examples.ann_logged_in, Examples.no_files)
               [CreateCustomer "Ann" 31 "ann" "pw"; DeleteAccount "1"])))
  = true.
Proof.
  apply (X19_customers_are_kept Sample.builtins
           [CreateCustomer "Ann" 31 "ann" "pw"; DeleteAccount "1"]
           (Examples.ann_logged_in, Examples.no_files) "bob").
  reflexivity.
Defined.

(** ** The guard of a checking account of a running bank *)

Lemma forallb_get {V : Type} (P : string * V -> bool) (k : string) (v : V)
    (d : Dict.t V) :
  forallb P d = true -> Dict.get k d = Some v -> P (k, v) = true.
Proof.
  intros Hd. induction d as [|[k' v'] d IH]; simpl in *; [discriminate|].
  apply andb_true_iff in Hd. destruct Hd as [H1 H2].
  destruct (String.eqb_spec k' k) as [->|Hne]; auto.
  now intros [= <-].
Qed.

(** Adding the credit limit 0 changes no comparison. *)
Lemma float_ge_add_zero (b x : float) :
  float_ge (float_add b (float_of_int 0)) x = float_ge b x.
Proof.
  change (float_of_int 0) with (S754_zero false).
  destruct b as [[|]|[|]| |[|] m e], x as [[|]|[|]| |[|] m' e']; reflexivity.
Qed.

(** X20. Every checking account of a running bank has the credit limit 0, so
    that the guard of its withdrawal and of its transfer is
    [balance >= amount], and a withdrawal succeeds exactly when that holds.
    This is a statement about the guard, not about the sign of balances. *)
Theorem X20_checking_guard_is_balance :
  forall (B : PyBuiltins) (calls : list call) (w : BankSystem * Files)
         (k i c : string) (b l amount : float),
    storage_ok (fst w) = true ->
    Dict.get k (accounts (fst (run w calls)))
    = Some (Account.CheckingAccount i c b l) ->
    l = float_of_int 0
    /\ Account.guard (Account.CheckingAccount i c b l) amount
       = float_ge b amount
    /\ (snd (Account.withdrawal (Account.CheckingAccount i c b l) amount)
        = true <-> float_ge b amount = true).
Proof.
  intros B calls w k i c b l amount Hw Hget.
  assert (Hs : storage_ok (fst (run w calls)) = true).
  { revert Hw. apply (run_invariant (fun s => storage_ok s = true)).
    intros w' c'. apply step_storage_ok. }
  unfold storage_ok in Hs.
  andb_last Hs Hh. andb_last Hs Hhn. andb_last Hs Ha.
  pose proof (forallb_get _ _ _ _ Ha Hget) as Hstored.
  unfold account_stored in Hstored. cbn [snd Account.credit_limit] in Hstored.
  apply andb_true_iff in Hstored. destruct Hstored as [_ Hl].
  apply float_eqb_eq in Hl. subst l.
  split; [reflexivity|].
  rewrite AccountFacts.withdrawal_guard. cbn [Account.guard].
  rewrite float_ge_add_zero. split; [reflexivity | tauto].
Qed.

(** X20 on the example session: the checking account ends with 50, and the
    guard for 60 is the comparison of 50 with 60. *)
Lemma X20_witness :
  Account.guard
    (Account.CheckingAccount "1" "1" (float_of_int 50) (float_of_int 0))
    (float_of_int 60)
  = float_ge (float_of_int 50) (float_of_int 60).
Proof.
  refine (proj1 (proj2
    (X20_checking_guard_is_balance Sample.builtins Examples.session
       (BankSystem_init, Examples.no_files) "1" "1" "1" (float_of_int 50)
       (float_of_int 0) (float_of_int 60) eq_refl _))).
  vm_compute. reflexivity.
Defined.

(** The guard does not keep a balance from falling below zero: [deposit]
    accepts every amount, and a deposit of -30 on an empty checking account
    leaves -30. *)
Example deposit_below_zero :
  Account.deposit
    (Account.CheckingAccount "1" "1" (float_of_int 0) (float_of_int 0))
    (float_of_int (-30))
  = (Account.CheckingAccount "1" "1" (float_of_int (-30)) (float_of_int 0),
     true).
Proof. reflexivity. Qed.

(** ** The menus *)

Lemma run_app {B : PyBuiltins} (w : BankSystem * Files) (c1 c2 : list call) :
  run w (c1 ++ c2) = run (run w c1) c2.
Proof. unfold run. apply fold_left_app. Qed.

(** [save_data] does not read the session. *)
Lemma save_data_logout (B : PyBuiltins) (s : BankSystem) :
  save_data (fst (logout s)) = save_data s.
Proof. reflexivity. Qed.

(** [perform_operations] reading its input is one call of
    [perform_operations] on what was read, or nothing at all when the input
    ends; it leaves no more lines than it found. *)
Lemma perform_operations_input_call (B : PyBuiltins) (s : BankSystem)
    (account_id : string) (stdin : list string) :
  (fst (perform_operations_input s account_id stdin) = (s, Raised "EOFError")
   \/ exists (choice recipient_account_id : string) (amount : option float),
        fst (perform_operations_input s account_id stdin)
        = perform_operations s account_id choice recipient_account_id amount)
  /\ (length (snd (perform_operations_input s account_id stdin))
      <= length stdin)%nat.
Proof.
  unfold perform_operations_input.
  destruct (negb (operations_reached s account_id)).
  - split; [right; do 3 eexists; reflexivity | cbn [snd]; lia].
  - destruct stdin as [|choice rest]; [split; [now left | cbn; lia]|].
    destruct (String.eqb choice "1" || String.eqb choice "2").
    + destruct rest as [|amount rest']; [split; [now left | cbn; lia]|].
      split; [right; do 3 eexists; reflexivity | cbn [snd length]; lia].
    + destruct (String.eqb choice "3").
      * destruct rest as [|recipient rest']; [split; [now left | cbn; lia]|].
        destruct (negb (Dict.mem recipient (accounts s)));
          [split; [right; do 3 eexists; reflexivity
                  | cbn [snd length]; lia]|].
        destruct rest' as [|amount rest'']; [split; [now left | cbn; lia]|].
        split; [right; do 3 eexists; reflexivity | cbn [snd length]; lia].
      * split; [right; do 3 eexists; reflexivity | cbn [snd length]; lia].
Qed.

Ltac no_call := exists []; reflexivity.
Ltac one_call c := exists [c]; reflexivity.

(** One turn of [menu] makes the calls of a sequence, of two calls at most,
    and uses up a line unless it ends the loop. *)
Lemma menu_turn_run (B : PyBuiltins) (w : BankSystem * Files)
    (stdin : list string) :
  (exists calls : list call, fst (fst (menu_turn w stdin)) = run w calls)
  /\ (snd (menu_turn w stdin) = None ->
      (length (snd (fst (menu_turn w stdin))) < length stdin)%nat).
Proof.
  destruct w as [s fs]. unfold menu_turn.
  destruct stdin as [|choice rest]; [split; [no_call | discriminate]|].
  assert (Hperform : forall account_id rest',
    (exists calls : list call,
       fst (fst (match snd (fst (perform_operations_input s account_id rest'))
                 with
                 | Raised e =>
                     ((fst (fst (perform_operations_input s account_id rest')),
                       fs),
                      snd (perform_operations_input s account_id rest'),
                      Some (Ended e))
                 | Printed _ =>
                     ((fst (fst (perform_operations_input s account_id rest')),
                       fs),
                      snd (perform_operations_input s account_id rest'), None)
                 end)) = run (s, fs) calls)
    /\ (length
         (snd (fst (match
                      snd (fst (perform_operations_input s account_id rest'))
                    with
                    | Raised e =>
                        ((fst (fst (perform_operations_input s account_id
                                      rest')), fs),
                         snd (perform_operations_input s account_id rest'),
                         Some (Ended e))
                    | Printed _ =>
                        ((fst (fst (perform_operations_input s account_id
                                      rest')), fs),
                         snd (perform_operations_input s account_id rest'),
                         None)
                    end))) <= length rest')%nat).
  { intros account_id rest'.
    destruct (perform_operations_input_call B s account_id rest')
      as [[E|(ch & rcp & amt & E)] Hlen].
    - rewrite E. cbn [fst snd]. split; [no_call | exact Hlen].
    - rewrite E. split.
      + exists [PerformOperations account_id ch rcp amt].
        now destruct (snd (perform_operations s account_id ch rcp amt)).
      + now destruct (snd (perform_operations s account_id ch rcp amt)). }
  destruct (match current_user s with
            | Some user => String.eqb user "admin"
            | None => false
            end).
  - destruct (String.eqb choice "1").
    { destruct rest as [|l [|p [|n [|a rest']]]];
        try (split; [no_call | discriminate]).
      destruct (int_of_str a) as [age|]; [|split; [no_call | discriminate]].
      split; [one_call (CreateCustomer n age l p) | intros _; simpl; lia]. }
    destruct (String.eqb choice "2").
    { destruct rest as [|l [|t rest']];
        try (split; [no_call | discriminate]).
      destruct (Dict.get l (customers s)) as [customer|];
        [|split; [no_call | discriminate]].
      split; [|intros _; simpl; lia].
      one_call (CreateAccount (Customer.customer_id customer) t). }
    destruct (String.eqb choice "3").
    { destruct rest as [|a rest']; [split; [no_call | discriminate]|].
      split.
      - exists [ViewTransactions a].
        now destruct (snd (view_transactions s a)).
      - destruct (snd (view_transactions s a)); [simpl; lia | discriminate]. }
    destruct (String.eqb choice "4").
    { destruct rest as [|a rest']; [split; [no_call | discriminate]|].
      destruct (Hperform a rest') as [H1 H2].
      split; [exact H1 | intros _; simpl; lia]. }
    destruct (String.eqb choice "5").
    { destruct rest as [|a rest']; [split; [no_call | discriminate]|].
      split.
      - exists [DeleteAccount a].
        now destruct (snd (delete_account s a)).
      - destruct (snd (delete_account s a)); [simpl; lia | discriminate]. }
    destruct (String.eqb choice "6").
    { destruct rest as [|a rest']; [split; [no_call | discriminate]|].
      destruct (negb (Dict.mem a (accounts s)));
        [split; [no_call | simpl; lia]|].
      split.
      - exists [CheckBalance a].
        now destruct (snd (check_balance s a)).
      - destruct (snd (check_balance s a)); [simpl; lia | discriminate]. }
    destruct (String.eqb choice "7").
    { split; [exists [SaveData; Logout]; reflexivity | discriminate]. }
    split; [no_call | simpl; lia].
  - destruct (String.eqb choice "1").
    { destruct (listing_raises s); [split; [no_call | discriminate]|].
      destruct rest as [|a rest']; [split; [no_call | discriminate]|].
      split.
      - exists [ViewTransactions a].
        now destruct (snd (view_transactions s a)).
      - destruct (snd (view_transactions s a)); [simpl; lia | discriminate]. }
    destruct (String.eqb choice "2").
    { destruct (listing_raises s); [split; [no_call | discriminate]|].
      destruct rest as [|a rest']; [split; [no_call | discriminate]|].
      destruct (Hperform a rest') as [H1 H2].
      split; [exact H1 | intros _; simpl; lia]. }
    destruct (String.eqb choice "3").
    { destruct (listing_raises s); [split; [no_call | discriminate]|].
      destruct rest as [|a rest']; [split; [no_call | discriminate]|].
      destruct (negb (Dict.mem a (accounts s)));
        [split; [no_call | simpl; lia]|].
      split.
      - exists [CheckBalance a].
        now destruct (snd (check_balance s a)).
      - destruct (snd (check_balance s a)); [simpl; lia | discriminate]. }
    destruct (String.eqb choice "4").
    { split; [exists [SaveData; Logout]; reflexivity | discriminate]. }
    split; [no_call | simpl; lia].
Qed.

(** The loop of [menu] makes the calls of a sequence. *)
Lemma menu_loop_run (B : PyBuiltins) (fuel : nat) :
  forall (w : BankSystem * Files) (stdin : list string),
    exists calls : list call,
      fst (fst (menu_loop fuel w stdin)) = run w calls.
Proof.
  induction fuel as [|fuel IH]; intros w stdin; [no_call|].
  cbn [menu_loop].
  destruct (menu_turn_run B w stdin) as [(calls1 & H1) _].
  destruct (menu_turn w stdin) as [[w' rest] [e|]]; cbn [fst] in *.
  - now exists calls1.
  - destruct (IH w' rest) as (calls2 & H2).
    exists (calls1 ++ calls2)%list. now rewrite run_app, <- H1.
Qed.

(** With more turns than lines the loop of [menu] ends by itself, and it
    leaves no more lines than it found. *)
Lemma menu_loop_ends (B : PyBuiltins) (fuel : nat) :
  forall (w : BankSystem * Files) (stdin : list string),
    (length stdin < fuel)%nat ->
    snd (menu_loop fuel w stdin) <> OutOfFuel
    /\ (length (snd (fst (menu_loop fuel w stdin))) <= length stdin)%nat.
Proof.
  induction fuel as [|fuel IH]; intros w stdin Hlen; [lia|].
  cbn [menu_loop].
  destruct (menu_turn_run B w stdin) as [_ Hshort].
  assert (Hrest : snd (menu_turn w stdin) <> None ->
                  (length (snd (fst (menu_turn w stdin))) <= length stdin)%nat
                  /\ snd (menu_turn w stdin) <> Some OutOfFuel).
  { clear. destruct w as [s fs]. unfold menu_turn.
    destruct stdin as [|choice rest];
      [intros _; split; [cbn; lia | discriminate]|].
    assert (Hp := fun a r => proj2 (perform_operations_input_call B s a r)).
    repeat match goal with
           | |- context [if ?b then _ else _] => destruct b
           | |- context [match ?l with [] => _ | _ :: _ => _ end] =>
               destruct l
           | |- context [match int_of_str ?a with _ => _ end] =>
               destruct (int_of_str a)
           | |- context [match Dict.get ?a ?b with _ => _ end] =>
               destruct (Dict.get a b)
           | |- context [match current_user ?s with _ => _ end] =>
               destruct (current_user s)
           | |- context [match snd ?r with Printed _ => _ | Raised _ => _ end]
             => let H := fresh in
                pose proof I as H; destruct (snd r)
           end;
      cbn [fst snd length];
      try (intros _; split; [lia | discriminate]);
      try (intros H; now elim H);
      try (intros _; split; [|discriminate];
           match goal with
           | |- (length (snd (perform_operations_input ?s ?a ?r)) <= _)%nat =>
               specialize (Hp a r); cbn [length] in *; lia
           end). }
  destruct (menu_turn w stdin) as [[w' rest] [e|]]; cbn [fst snd] in *.
  - destruct Hrest as [H1 H2]; [discriminate|].
    split; [congruence | exact H1].
  - specialize (Hshort eq_refl).
    destruct (IH w' rest ltac:(lia)) as [H1 H2].
    split; [exact H1 | lia].
Qed.

(** One turn of [start], before the menu: a login at most, and a line used
    unless the loop is left. *)
Lemma start_choice_run (B : PyBuiltins) (s : BankSystem) (fs : Files)
    (stdin : list string) :
  (exists calls : list call,
     (fst (fst (start_choice s stdin)), fs) = run (s, fs) calls)
  /\ (length (snd (fst (start_choice s stdin))) <= length stdin)%nat
  /\ (snd (start_choice s stdin) = None ->
      (length (snd (fst (start_choice s stdin))) < length stdin)%nat)
  /\ snd (start_choice s stdin) <> Some OutOfFuel.
Proof.
  unfold start_choice.
  destruct stdin as [|choice rest];
    [split; [no_call | split; [cbn; lia | split; discriminate]]|].
  destruct (String.eqb choice "1").
  - destruct rest as [|user_type rest'];
      [split; [no_call | split; [cbn; lia | split; discriminate]]|].
    destruct (String.eqb (lower user_type) "customer"
              || String.eqb (lower user_type) "c").
    + destruct rest' as [|l [|p rest'']];
        try (split; [no_call | split; [cbn; lia | split; discriminate]]).
      split; [one_call (Login l p)|].
      split; [cbn; lia | split; [intros _; cbn; lia | discriminate]].
    + destruct (String.eqb (lower user_type) "admin"
                || String.eqb (lower user_type) "a").
      * destruct rest' as [|p rest''];
          [split; [no_call | split; [cbn; lia | split; discriminate]]|].
        split; [one_call (AdminLogin p)|].
        split; [cbn; lia | split; [intros _; cbn; lia | discriminate]].
      * split; [no_call|].
        split; [cbn; lia | split; [intros _; cbn; lia | discriminate]].
  - destruct (String.eqb choice "2").
    + split; [no_call | split; [cbn; lia | split; discriminate]].
    + split; [no_call|].
      split; [cbn; lia | split; [intros _; cbn; lia | discriminate]].
Qed.

(** The loop of [start] makes the calls of a sequence. *)
Lemma start_loop_run (B : PyBuiltins) (fuel : nat) :
  forall (w : BankSystem * Files) (stdin : list string),
    exists calls : list call,
      fst (fst (start_loop fuel w stdin)) = run w calls.
Proof.
  induction fuel as [|fuel IH]; intros [s fs] stdin; [no_call|].
  cbn [start_loop fst snd].
  destruct (start_choice_run B s fs stdin) as [(calls1 & H1) _].
  destruct (start_choice s stdin) as [[s' rest] [e|]]; cbn [fst] in *.
  - now exists calls1.
  - destruct (truthy_user s').
    + destruct (menu_loop_run B (S (length rest)) (s', fs) rest)
        as (calls2 & H2).
      unfold menu.
      destruct (menu_loop (S (length rest)) (s', fs) rest)
        as [[w' rest'] e]; cbn [fst] in *.
      destruct e.
      * destruct (IH w' rest') as (calls3 & H3).
        exists (calls1 ++ calls2 ++ calls3)%list.
        now rewrite !run_app, <- H1, <- H2.
      * exists (calls1 ++ calls2)%list. now rewrite run_app, <- H1.
      * exists (calls1 ++ calls2)%list. now rewrite run_app, <- H1.
    + destruct (IH (s', fs) rest) as (calls2 & H2).
      exists (calls1 ++ calls2)%list. now rewrite run_app, <- H1.
Qed.

(** With more turns than lines the loop of [start] ends by itself. *)
Lemma start_loop_ends (B : PyBuiltins) (fuel : nat) :
  forall (w : BankSystem * Files) (stdin : list string),
    (length stdin < fuel)%nat ->
    snd (start_loop fuel w stdin) <> OutOfFuel.
Proof.
  induction fuel as [|fuel IH]; intros [s fs] stdin Hlen; [lia|].
  cbn [start_loop fst snd].
  destruct (start_choice_run B s fs stdin) as (_ & Hle & Hshort & Hfuel).
  destruct (start_choice s stdin) as [[s' rest] [e|]]; cbn [fst snd] in *.
  - congruence.
  - specialize (Hshort eq_refl).
    destruct (truthy_user s').
    + unfold menu.
      destruct (menu_loop_ends B (S (length rest)) (s', fs) rest
                  ltac:(lia)) as [Hm1 Hm2].
      destruct (menu_loop (S (length rest)) (s', fs) rest)
        as [[w' rest'] e]; cbn [fst snd] in *.
      destruct e; [|discriminate|congruence].
      apply IH. lia.
    + apply IH. lia.
Qed.

(** X21. Whatever is typed, [menu] and [start] end by themselves, with a
    return or with an exception (the [EOFError] of [input] when the lines
    run out), and all they do to the bank and its files is a sequence of
    calls of the methods: of [menu] on the bank it is entered with, of
    [start] on the bank [load_data] makes of the files; when [load_data]
    raises, [start] ends with its exception. *)
Theorem X21_sessions_are_runs :
  forall (B : PyBuiltins) (fs : Files) (stdin : list string),
    (forall w : BankSystem * Files,
        (exists calls : list call, fst (fst (menu w stdin)) = run w calls)
        /\ snd (menu w stdin) <> OutOfFuel)
    /\ (forall e : string,
        load_data fs BankSystem_init = Error e ->
        start fs stdin = ((BankSystem_init, fs), stdin, Ended e))
    /\ (forall s : BankSystem,
        load_data fs BankSystem_init = Ok s ->
        (exists calls : list call,
           fst (fst (start fs stdin)) = run (s, fs) calls)
        /\ snd (start fs stdin) <> OutOfFuel).
Proof.
  intros B fs stdin. split; [|split].
  - intros w. unfold menu. split.
    + apply menu_loop_run.
    + apply (menu_loop_ends B (S (length stdin)) w stdin). lia.
  - intros e He. unfold start. now rewrite He.
  - intros s Hs. unfold start. rewrite Hs. split.
    + apply start_loop_run.
    + apply start_loop_ends. lia.
Qed.

(** A session of the administrator on the files of the example bank. *)
Example admin_session :
  start (B := Sample.builtins) Examples.session_files Examples.typed_by_admin
  = ((mkBank
        [("ann", Customer.mk "1" "Ann" 30 "ann" "h6")]
        [("1", Account.CheckingAccount "1" "1" (float_of_int 75)
                 (float_of_int 0))]
        [("1", [Record4 "1" (float_of_int 100) "deposit" "COMPLETE";
                Record4 "2" (float_of_int 120) "withdrawal" "ABORTED";
                Record4 "3" (float_of_int 50) "withdrawal" "COMPLETE";
                Record4 "4" (float_of_int 25) "deposit" "COMPLETE"])]
        None "admin",
      mkFiles
        (Some ("1,Ann,30,ann,h6" ++ PyStr.nl))
        (Some ("1,1,Checking,75.0" ++ PyStr.nl))
        (Some ("1,1,100.0,deposit,COMPLETE" ++ PyStr.nl
               ++ "1,2,120.0,withdrawal,ABORTED" ++ PyStr.nl
               ++ "1,3,50.0,withdrawal,COMPLETE" ++ PyStr.nl
               ++ "1,4,25.0,deposit,COMPLETE" ++ PyStr.nl))),
     [], Returned).
Proof. vm_compute. reflexivity. Qed.

(** X21 on that session. *)
Lemma X21_witness :
  (exists calls : list call,
     fst (fst (start (B := Sample.builtins) Examples.session_files
                 Examples.typed_by_admin))
     = run (B := Sample.builtins)
         (Examples.after_session, Examples.session_files) calls)
  /\ snd (start (B := Sample.builtins) Examples.session_files
            Examples.typed_by_admin) <> OutOfFuel.
Proof.
  destruct (X21_sessions_are_runs Sample.builtins Examples.session_files
              Examples.typed_by_admin) as (_ & _ & H).
  apply (H Examples.after_session). vm_compute. reflexivity.
Defined.

Lemma load_data_session (B : PyBuiltins) (fs : Files) (s s' : BankSystem) :
  load_data fs s = Ok s' ->
  current_user s' = current_user s /\ admin_password s' = admin_password s.
Proof.
  unfold load_data.
  destruct (open_r (customers_txt fs)); [|discriminate]. cbn [bind].
  destruct (for_lines load_customer _ _); [|discriminate]. cbn [bind].
  destruct (open_r (accounts_txt fs)); [|discriminate]. cbn [bind].
  destruct (for_lines load_account _ _); [|discriminate]. cbn [bind].
  destruct (open_r (accountsTransactions_txt fs)); [|discriminate].
  cbn [bind].
  destruct (for_lines load_transaction _ _); [|discriminate]. cbn [bind].
  now intros [= <-].
Qed.

(** X22. Whatever the three files hold and whatever is typed, the bank
    [start] ends with stores every customer under their login and every
    account under its id, without a repeated key, an empty list of
    transactions or a credit limit other than 0, and the user logged in, if
    any, is the administrator or a customer. *)
Theorem X22_every_session_keeps_the_storage :
  forall (B : PyBuiltins) (fs : Files) (stdin : list string),
    storage_ok (fst (fst (fst (start fs stdin)))) = true
    /\ session_ok (fst (fst (fst (start fs stdin)))) = true.
Proof.
  intros B fs stdin.
  destruct (load_data fs BankSystem_init) as [s|e] eqn:Hload.
  - unfold start. rewrite Hload.
    destruct (start_loop_run B (S (length stdin)) (s, fs) stdin)
      as (calls & ->).
    split.
    + apply (run_invariant (fun s => storage_ok s = true)).
      * intros w c. apply step_storage_ok.
      * now apply (load_data_storage_ok B fs BankSystem_init).
    + apply (run_invariant (fun s => session_ok s = true)).
      * intros w c. apply step_session_ok.
      * unfold session_ok. cbn [fst].
        now rewrite (proj1 (load_data_session B fs _ _ Hload)).
  - unfold start. rewrite Hload. now split.
Qed.

(** X22 on the session of the administrator. *)
Example X22_on_admin_session :
  storage_ok
    (fst (fst (fst (start (B := Sample.builtins) Examples.session_files
                      Examples.typed_by_admin)))) = true.
Proof.
  exact (proj1 (X22_every_session_keeps_the_storage Sample.builtins
                  Examples.session_files Examples.typed_by_admin)).
Qed.

(** [view_transactions] and [check_balance] change nothing. *)
Lemma view_and_check_read_only (B : PyBuiltins) (s : BankSystem)
    (account_id : string) :
  fst (view_transactions s account_id) = s
  /\ fst (check_balance s account_id) = s.
Proof.
  unfold view_transactions, check_balance.
  destruct (current_user s); [|now split].
  destruct (Dict.get account_id (accounts s)); [|now split].
  destruct (not_authorized _ _ _) as [[|]|]; try now split.
  now destruct (Dict.get account_id (transactions s)).
Qed.

Lemma kept_by_customer_refl (s : BankSystem) : kept_by_customer s s.
Proof. split; [reflexivity | apply IdentityFacts.same_accounts_refl]. Qed.

Lemma kept_by_customer_trans (s1 s2 s3 : BankSystem) :
  kept_by_customer s1 s2 -> kept_by_customer s2 s3 -> kept_by_customer s1 s3.
Proof.
  intros [H1 H2] [K1 K2]. split; [congruence|].
  now apply IdentityFacts.same_accounts_trans with (h2 := accounts s2).
Qed.

Lemma perform_operations_input_kept (B : PyBuiltins) (s : BankSystem)
    (account_id : string) (stdin : list string) :
  kept_by_customer s (fst (fst (perform_operations_input s account_id stdin)))
  /\ current_user (fst (fst (perform_operations_input s account_id stdin)))
     = current_user s.
Proof.
  destruct (perform_operations_input_call B s account_id stdin)
    as [[E|(ch & rcp & amt & E)] _]; rewrite E; cbn [fst].
  - split; [apply kept_by_customer_refl | reflexivity].
  - destruct (perform_operations_frame B s account_id ch rcp amt)
      as (H1 & H2 & _).
    split; [split|]; trivial. apply perform_operations_accounts.
Qed.

(** One turn of the menu of a customer. *)
Lemma menu_turn_customer (B : PyBuiltins) (s : BankSystem) (fs : Files)
    (stdin : list string) (user : string) :
  current_user s = Some user -> user <> "admin" ->
  kept_by_customer s (fst (fst (fst (menu_turn (s, fs) stdin))))
  /\ (snd (menu_turn (s, fs) stdin) = None ->
      current_user (fst (fst (fst (menu_turn (s, fs) stdin)))) = Some user).
Proof.
  intros Hu Hne. unfold menu_turn. rewrite Hu.
  apply String.eqb_neq in Hne. rewrite Hne.
  destruct stdin as [|choice rest];
    [split; [apply kept_by_customer_refl | discriminate]|].
  destruct (String.eqb choice "1").
  { destruct (listing_raises s);
      [split; [apply kept_by_customer_refl | discriminate]|].
    destruct rest as [|a rest'];
      [split; [apply kept_by_customer_refl | discriminate]|].
    pose proof (proj1 (view_and_check_read_only B s a)) as Hv.
    destruct (snd (view_transactions s a)); cbn [fst snd]; rewrite Hv;
      (split; [apply kept_by_customer_refl | trivial; discriminate]). }
  destruct (String.eqb choice "2").
  { destruct (listing_raises s);
      [split; [apply kept_by_customer_refl | discriminate]|].
    destruct rest as [|a rest'];
      [split; [apply kept_by_customer_refl | discriminate]|].
    destruct (perform_operations_input_kept B s a rest') as [Hk Hc].
    destruct (snd (fst (perform_operations_input s a rest')));
      cbn [fst snd]; (split; [exact Hk | congruence]). }
  destruct (String.eqb choice "3").
  { destruct (listing_raises s);
      [split; [apply kept_by_customer_refl | discriminate]|].
    destruct rest as [|a rest'];
      [split; [apply kept_by_customer_refl | discriminate]|].
    destruct (negb (Dict.mem a (accounts s)));
      [split; [apply kept_by_customer_refl | trivial]|].
    pose proof (proj2 (view_and_check_read_only B s a)) as Hv.
    destruct (snd (check_balance s a)); cbn [fst snd]; rewrite Hv;
      (split; [apply kept_by_customer_refl | trivial; discriminate]). }
  destruct (String.eqb choice "4").
  { split; [|discriminate]. cbn [fst snd logout].
    split; [reflexivity | apply IdentityFacts.same_accounts_refl]. }
  split; [apply kept_by_customer_refl | trivial].
Qed.

Lemma menu_loop_customer (B : PyBuiltins) (user : string) (fuel : nat) :
  user <> "admin" ->
  forall (s : BankSystem) (fs : Files) (stdin : list string),
    current_user s = Some user ->
    kept_by_customer s (fst (fst (fst (menu_loop fuel (s, fs) stdin)))).
Proof.
  intros Hne. induction fuel as [|fuel IH]; intros s fs stdin Hu.
  - apply kept_by_customer_refl.
  - cbn [menu_loop].
    destruct (menu_turn_customer B s fs stdin user Hu Hne) as [Hk Hc].
    destruct (menu_turn (s, fs) stdin) as [[[s' fs'] rest] [e|]];
      cbn [fst snd] in *; [exact Hk|].
    apply kept_by_customer_trans with (s2 := s'); [exact Hk|].
    apply IH. now apply Hc.
Qed.

(** X23. In the menu of a customer nothing that is typed creates or deletes
    an account or changes a customer: at the end of [menu] the customers are
    the same, the accounts are stored under the same ids in the same order,
    and each has the id, the owner, the class and the credit limit it had. *)
Theorem X23_customer_menu_keeps_accounts :
  forall (B : PyBuiltins) (w : BankSystem * Files) (stdin : list string)
         (user : string),
    current_user (fst w) = Some user ->
    user <> "admin" ->
    customers (fst (fst (fst (menu w stdin)))) = customers (fst w)
    /\ Dict.keys (accounts (fst (fst (fst (menu w stdin)))))
       = Dict.keys (accounts (fst w))
    /\ (forall (k : string) (a : Account.t),
        Dict.get k (accounts (fst w)) = Some a ->
        exists a' : Account.t,
          Dict.get k (accounts (fst (fst (fst (menu w stdin))))) = Some a'
          /\ Account.same_identity a a').
Proof.
  intros B [s fs] stdin user Hu Hne. cbn [fst] in Hu.
  destruct (menu_loop_customer B user (S (length stdin)) Hne s fs stdin Hu)
    as [Hc Ha].
  fold (menu (s, fs) stdin) in Hc, Ha. cbn [fst].
  split; [exact Hc|].
  split; [now apply IdentityFacts.same_accounts_keys|].
  intros k a. now apply IdentityFacts.same_accounts_get.
Qed.

(** X23 for Ann, who tries to take 10 from the account of Bob. *)
Lemma X23_witness :
  Dict.keys
    (accounts
       (fst (fst (fst (menu (B := Sample.builtins)
                         (Examples.ann_logged_in, Examples.no_files)
                         Examples.typed_by_ann)))))
  = ["1"; "2"].
Proof.
  refine (proj1 (proj2
    (X23_customer_menu_keeps_accounts Sample.builtins
       (Examples.ann_logged_in, Examples.no_files) Examples.typed_by_ann
       "ann" eq_refl _))).
  discriminate.
Defined.

(** The loop of [menu] is left with a return by the choice of logging out
    only, which saves first. *)
Lemma menu_turn_returned (B : PyBuiltins) (w w' : BankSystem * Files)
    (stdin rest : list string) :
  menu_turn w stdin = (w', rest, Some Returned) ->
  current_user (fst w') = None /\ snd w' = save_data (fst w').
Proof.
  destruct w as [s fs]. unfold menu_turn.
  destruct stdin as [|choice rest0]; [discriminate|].
  repeat match goal with
         | |- context [if ?b then _ else _] => destruct b
         | |- context [match ?l with [] => _ | _ :: _ => _ end] => destruct l
         | |- context [match int_of_str ?a with _ => _ end] =>
             destruct (int_of_str a)
         | |- context [match Dict.get ?a ?b with _ => _ end] =>
             destruct (Dict.get a b)
         | |- context [match current_user ?s with _ => _ end] =>
             destruct (current_user s)
         | |- context [match snd ?r with Printed _ => _ | Raised _ => _ end]
           => destruct (snd r)
         end;
    try discriminate;
    intros [= <- _]; split; reflexivity.
Qed.

Lemma menu_loop_returned (B : PyBuiltins) (fuel : nat) :
  forall (w w' : BankSystem * Files) (stdin rest : list string),
    menu_loop fuel w stdin = (w', rest, Returned) ->
    current_user (fst w') = None /\ snd w' = save_data (fst w').
Proof.
  induction fuel as [|fuel IH]; intros w w' stdin rest; [discriminate|].
  cbn [menu_loop].
  destruct (menu_turn w stdin) as [[w1 rest1] [e|]] eqn:Hturn.
  - intros [= <- <- ->]. now apply (menu_turn_returned B w w1 stdin rest1).
  - apply IH.
Qed.

Lemma menu_returned (B : PyBuiltins) (w w' : BankSystem * Files)
    (stdin rest : list string) :
  menu w stdin = (w', rest, Returned) ->
  current_user (fst w') = None /\ snd w' = save_data (fst w').
Proof. unfold menu. apply menu_loop_returned. Qed.

(** X24. [menu] returns after the choice of logging out only, and then the
    data were saved and nobody is logged in: the three files hold what
    [save_data] writes of the bank [menu] leaves. *)
Theorem X24_menu_returns_saved :
  forall (B : PyBuiltins) (w w' : BankSystem * Files)
         (stdin rest : list string),
    menu w stdin = (w', rest, Returned) ->
    current_user (fst w') = None /\ snd w' = save_data (fst w').
Proof.
  intros B w w' stdin rest. unfold menu. apply menu_loop_returned.
Qed.

(** X24 for Ann. *)
Lemma X24_witness :
  snd (fst (fst (menu (B := Sample.builtins)
                   (Examples.ann_logged_in, Examples.no_files)
                   Examples.typed_by_ann)))
  = save_data (B := Sample.builtins)
      (fst (fst (fst (menu (B := Sample.builtins)
                        (Examples.ann_logged_in, Examples.no_files)
                        Examples.typed_by_ann)))).
Proof.
  refine (proj2 (X24_menu_returns_saved Sample.builtins
                   (Examples.ann_logged_in, Examples.no_files) _
                   Examples.typed_by_ann [] _)).
  vm_compute. reflexivity.
Defined.

Lemma save_data_stored (B : PyBuiltins) (s s' : BankSystem) :
  stored_data s = stored_data s' -> save_data s = save_data s'.
Proof.
  unfold stored_data, save_data. now intros [= -> -> ->].
Qed.

(** The login of [start] changes the session only. *)
Lemma start_choice_stored (B : PyBuiltins) (s : BankSystem)
    (stdin : list string) :
  stored_data (fst (fst (start_choice s stdin))) = stored_data s.
Proof.
  unfold start_choice.
  destruct stdin as [|choice rest]; [reflexivity|].
  destruct (String.eqb choice "1").
  - destruct rest as [|user_type rest']; [reflexivity|].
    destruct (_ || _).
    + destruct rest' as [|l [|p rest'']]; try reflexivity.
      cbn [fst]. unfold login. destruct (Dict.get l (customers s));
        [|reflexivity].
      now destruct (String.eqb _ _).
    + destruct (_ || _); [|reflexivity].
      destruct rest' as [|p rest'']; [reflexivity|].
      cbn [fst]. unfold admin_login. now destruct (String.eqb _ _).
  - now destruct (String.eqb choice "2").
Qed.

Lemma start_loop_returned (B : PyBuiltins) (fs0 : Files) (s0 : BankSystem)
    (fuel : nat) :
  forall (w w' : BankSystem * Files) (stdin rest : list string),
    snd w = save_data (fst w)
    \/ snd w = fs0 /\ stored_data (fst w) = stored_data s0 ->
    start_loop fuel w stdin = (w', rest, Returned) ->
    snd w' = save_data (fst w')
    \/ snd w' = fs0 /\ stored_data (fst w') = stored_data s0.
Proof.
  induction fuel as [|fuel IH]; intros [s fs] w' stdin rest Hw;
    [discriminate|].
  cbn [start_loop fst snd] in *.
  pose proof (start_choice_stored B s stdin) as Hdata.
  destruct (start_choice s stdin) as [[s1 rest1] [e|]]; cbn [fst] in Hdata.
  - intros [= <- <- ->]. cbn [fst snd].
    destruct Hw as [Hw|[Hw1 Hw2]].
    + left. rewrite Hw. now apply save_data_stored.
    + right. split; [exact Hw1 | congruence].
  - assert (Hw1 : snd (s1, fs) = save_data (fst (s1, fs))
                  \/ snd (s1, fs) = fs0
                     /\ stored_data (fst (s1, fs)) = stored_data s0).
    { cbn [fst snd]. destruct Hw as [Hw|[Hw1 Hw2]].
      - left. rewrite Hw. now apply save_data_stored.
      - right. split; [exact Hw1 | congruence]. }
    destruct (truthy_user s1); [|now apply IH].
    destruct (menu (s1, fs) rest1) as [[w2 rest2] e] eqn:Hmenu.
    destruct e; try discriminate.
    apply IH. left. exact (proj2 (menu_returned B _ _ _ _ Hmenu)).
Qed.

(** X25. When [start] returns (the choice of leaving the program), nothing
    done in a menu is unsaved: the three files hold what [save_data] writes of
    the final bank, or no menu was ever left by logging out, and then the
    files are untouched and customers, accounts and transactions are as
    [load_data] made them. *)
Theorem X25_start_returns_saved :
  forall (B : PyBuiltins) (fs : Files) (stdin rest : list string)
         (s0 : BankSystem) (w' : BankSystem * Files),
    load_data fs BankSystem_init = Ok s0 ->
    start fs stdin = (w', rest, Returned) ->
    snd w' = save_data (fst w')
    \/ snd w' = fs /\ stored_data (fst w') = stored_data s0.
Proof.
  intros B fs stdin rest s0 w' Hload. unfold start. rewrite Hload.
  apply start_loop_returned. right. now split.
Qed.

(** X25 on the session of the administrator. *)
Lemma X25_witness :
  snd (fst (fst (start (B := Sample.builtins) Examples.session_files
                   Examples.typed_by_admin)))
  = save_data (B := Sample.builtins)
      (fst (fst (fst (start (B := Sample.builtins) Examples.session_files
                        Examples.typed_by_admin))))
  \/ snd (fst (fst (start (B := Sample.builtins) Examples.session_files
                      Examples.typed_by_admin)))
     = Examples.session_files
     /\ stored_data
          (fst (fst (fst (start (B := Sample.builtins) Examples.session_files
                            Examples.typed_by_admin))))
        = stored_data Examples.after_session.
Proof.
  apply (X25_start_returns_saved Sample.builtins Examples.session_files
           Examples.typed_by_admin [] Examples.after_session);
    vm_compute; reflexivity.
Defined.

(** ** Lines that load_data does not read *)

Lemma load_account_skips (B : PyBuiltins) (line : string)
    (d : Dict.t Account.t) :
  account_fields line = false -> load_account line d = Ok d.
Proof.
  unfold account_fields, field_count, load_account.
  destruct (PyStr.split _ _) as [|f1 [|f2 [|f3 [|f4 [|f5 [|f6 r]]]]]];
    trivial; discriminate.
Qed.

Lemma load_transaction_skips (B : PyBuiltins) (line : string)
    (d : Dict.t (list Transaction)) :
  transaction_fields line = false -> load_transaction line d = Ok d.
Proof.
  unfold transaction_fields, field_count, load_transaction.
  destruct (PyStr.split _ _) as [|f1 [|f2 [|f3 [|f4 [|f5 [|f6 [|f7 r]]]]]]];
    trivial; discriminate.
Qed.

Lemma load_customer_raises (B : PyBuiltins) (line : string)
    (d : Dict.t Customer.t) :
  (Nat.eqb (field_count line) 5 = false ->
   load_customer line d = Error "ValueError")
  /\ (forall e, load_customer line d = Error e -> e = "ValueError").
Proof.
  unfold field_count, load_customer, to_int.
  destruct (PyStr.split _ _) as [|f1 [|f2 [|f3 [|f4 [|f5 [|f6 r]]]]]];
    try (split; [reflexivity | now intros e [= <-]]).
  split; [discriminate|].
  destruct (int_of_str f3); cbn [bind]; [discriminate | now intros e [= <-]].
Qed.

(** X26. The loops of [load_data] over the accounts and over the
    transactions pass over every line that has not four or five, five or
    six fields (an empty line for one), wherever it stands: the file loads as
    it does without these lines.  The loop over the customers raises
    [ValueError] as soon as one line has not five fields. *)
Theorem X26_lines_of_other_lengths :
  forall (B : PyBuiltins) (ls : list string),
    (forall d : Dict.t Account.t,
        for_lines load_account ls d
        = for_lines load_account (filter account_fields ls) d)
    /\ (forall d : Dict.t (list Transaction),
        for_lines load_transaction ls d
        = for_lines load_transaction (filter transaction_fields ls) d)
    /\ (forall d : Dict.t Customer.t,
        existsb (fun l => negb (Nat.eqb (field_count l) 5)) ls = true ->
        for_lines load_customer ls d = Error "ValueError").
Proof.
  intros B ls. split; [|split].
  - induction ls as [|l ls IH]; intros d; [reflexivity|].
    cbn [filter]. destruct (account_fields l) eqn:E; cbn [for_lines].
    + destruct (load_account l d); cbn [bind]; [apply IH | reflexivity].
    + rewrite load_account_skips by assumption. cbn [bind]. apply IH.
  - induction ls as [|l ls IH]; intros d; [reflexivity|].
    cbn [filter]. destruct (transaction_fields l) eqn:E; cbn [for_lines].
    + destruct (load_transaction l d); cbn [bind]; [apply IH | reflexivity].
    + rewrite load_transaction_skips by assumption. cbn [bind]. apply IH.
  - induction ls as [|l ls IH]; intros d; [discriminate|].
    cbn [existsb for_lines]. intros H.
    destruct (load_customer_raises B l d) as [H1 H2].
    destruct (Nat.eqb (field_count l) 5) eqn:E.
    + cbn [negb orb] in H.
      destruct (load_customer l d) as [d'|e] eqn:El; cbn [bind].
      * now apply IH.
      * now rewrite (H2 e eq_refl).
    + now rewrite (H1 eq_refl).
Qed.

(** X26 on an accounts file with an empty line and a line of two fields
    between two accounts, and on a customers file with an empty line. *)
Lemma X26_witness :
  for_lines (load_customer (B := Sample.builtins))
    [ "1,Ann,30,ann,h6" ++ PyStr.nl; PyStr.nl ] []
  = Error "ValueError".
Proof.
  apply (proj2 (proj2 (X26_lines_of_other_lengths Sample.builtins
                         [ "1,Ann,30,ann,h6" ++ PyStr.nl; PyStr.nl ]))).
  reflexivity.
Defined.

Example accounts_file_with_other_lines :
  for_lines (load_account (B := Sample.builtins))
    [ "1,1,Checking,50.0" ++ PyStr.nl; PyStr.nl; "a,b" ++ PyStr.nl;
      "2,1,Savings,7.0,1" ++ PyStr.nl ] []
  = Ok [("1", Account.CheckingAccount "1" "1" (float_of_int 50)
                (float_of_int 0));
        ("2", Account.SavingsAccount "2" "1" (float_of_int 7) 1)].
Proof. vm_compute. reflexivity. Qed.

(** X5 on the example bank. *)
Lemma X5_witness :
  login (B := Sample.builtins)
    (fst (fst (create_customer (B := Sample.builtins) Examples.admin_bank
                 Examples.no_files "Cy" 20 "cy" "secret")))
    "cy" "no"
  = (fst (fst (create_customer (B := Sample.builtins) Examples.admin_bank
                 Examples.no_files "Cy" 20 "cy" "secret")),
     Printed ["Incorrect password."]).
Proof.
  destruct (X5_create_customer_then_login Sample.builtins Examples.admin_bank
              Examples.no_files "Cy" 20 "cy" "secret") as (_ & _ & H & _).
  apply H. discriminate.
Defined.

(** X6 on the example session. *)
Lemma X6_witness :
  admin_login
    (fst (run (B := Sample.builtins) (BankSystem_init, Examples.no_files)
            Examples.session)) "root"
  = (fst (run (B := Sample.builtins) (BankSystem_init, Examples.no_files)
            Examples.session),
     Printed ["Incorrect admin password."]).
Proof.
  destruct (X6_admin_password_kept Sample.builtins Examples.session
              Examples.no_files "root") as (_ & _ & H).
  apply H. discriminate.
Defined.

(** ** A customer called admin *)

(** X27. [create_customer] accepts the login ["admin"], and the session does
    not tell that customer from the administrator: once logged in with their
    own password they are authorized on every account, whoever owns it, and
    [check_balance] shows them the balance of each. *)
Theorem X27_customer_named_admin :
  forall (B : PyBuiltins) (s : BankSystem) (fs : Files) (name : string)
         (age : Z) (password account_id : string) (account : Account.t),
    Dict.get account_id (accounts s) = Some account ->
    current_user
      (fst (login (fst (fst (create_customer s fs name age "admin" password)))
              "admin" password)) = Some "admin"
    /\ not_authorized
         (fst (login (fst (fst (create_customer s fs name age "admin"
                                  password))) "admin" password))
         "admin" account = Some false
    /\ snd (check_balance
              (fst (login (fst (fst (create_customer s fs name age "admin"
                                       password))) "admin" password))
              account_id)
       = Printed (Account.show_balance str_float account).
Proof.
  intros B [cs acs ts u pw] fs name age password account_id account Hacc.
  cbn [accounts] in Hacc.
  unfold create_customer. cbn [fst]. unfold login, set_customers.
  cbn [customers accounts transactions current_user admin_password].
  rewrite get_set_same.
  cbn [Customer.password]. rewrite String.eqb_refl.
  unfold set_current_user.
  cbn [fst customers accounts transactions current_user admin_password].
  split; [reflexivity|]. split; [reflexivity|].
  unfold check_balance. cbn [current_user accounts].
  now rewrite Hacc.
Qed.

(** X27 on the bank where Ann is logged in, for the account of Bob. *)
Lemma X27_witness :
  snd (check_balance (B := Sample.builtins)
         (fst (login (B := Sample.builtins)
                 (fst (fst (create_customer (B := Sample.builtins)
                              Examples.ann_logged_in Examples.no_files
                              "Eve" 20 "admin" "pw")))
                 "admin" "pw"))
         "2")
  = Printed ["Account ID: 2"; "Customer ID: 2"; "Current Balance: 100.0";
             "Account Status: Active"].
Proof.
  refine (proj2 (proj2
    (X27_customer_named_admin Sample.builtins Examples.ann_logged_in
       Examples.no_files "Eve" 20 "pw" "2"
       (Account.SavingsAccount "2" "2" (float_of_int 100) 2) eq_refl))).
Defined.
